(** * Loan application processor: a shallow embedding of [app.py]

    The development follows the Python module function by function:
    [extract_document_data], [combine_extracted_data], [analyze_risk],
    [save_to_mongodb], [render_results_ui], [generate_download_report], the
    upload section and the button handler of [main].

    - Python values are the inductive [pyval]; dictionaries are finite maps
      with string keys, floats are IEEE binary64 primitive floats, integers
      are unbounded.
    - Exceptions are values of type [exn]; a computation that may raise
      returns a [result].
    - Code that talks to the outside (HTTP services, MongoDB, the clock,
      the Streamlit session) runs in the monad [M], which threads a
      [World] and keeps it when an exception is raised, as Python does.
    - The outside itself (what the services answer, what time it is, the
      library routines [strptime], [json.loads], [b64encode]) is a record
      [Env]; every theorem quantifies over it. *)

From Stdlib Require Import ZArith String Ascii List Bool Lia.
From Stdlib Require Import Floats.PrimFloat.
From Stdlib Require Floats.SpecFloat Floats.FloatOps Floats.FloatAxioms.
From stdpp Require Import gmap strings list fin_maps.

Local Open Scope string_scope.
Local Open Scope list_scope.
Local Open Scope Z_scope.

(** Decimal literals such as [0.02] denote the nearest double, as in
    Python. *)
Set Warnings "-inexact-float".

(** ** Python values *)

(** A [datetime] value; only the calendar fields are read by the program. *)
Record datetime := Datetime { year : Z; month : Z; day : Z }.

#[warnings="-register-all"]
Inductive pyval :=
| PyNone
| PyBool (b : bool)
| PyInt (z : Z)
| PyFloat (f : float)
| PyStr (s : string)
| PyList (l : list pyval)
| PyDict (d : gmap string pyval)
| PyDatetime (t : datetime).

(** A Python [dict] with string keys (every dictionary of the program is
    either built from string literals or decoded from JSON). *)
Abbreviation pydict := (gmap string pyval).

(** [d.get(key, default)] *)
Definition dict_get (d : pydict) (key : string) (default : pyval) : pyval :=
  match d !! key with
  | Some v => v
  | None => default
  end.

(** [d.update({k1: v1, ...})] with the pairs applied left to right. *)
Definition dict_update (d : pydict) (kvs : list (string * pyval)) : pydict :=
  fold_left (fun acc kv => <[kv.1 := kv.2]> acc) kvs d.

(** A dictionary display [{k1: v1, ...}]. *)
Definition dict_of (kvs : list (string * pyval)) : pydict := dict_update ∅ kvs.

(** Truth value testing ([if v:], [not v], [a and b]). *)
Definition truthy (v : pyval) : bool :=
  match v with
  | PyNone => false
  | PyBool b => b
  | PyInt z => negb (z =? 0)
  | PyFloat f => negb (PrimFloat.eqb f 0%float)
  | PyStr s => negb (String.eqb s "")
  | PyList l => negb (Nat.eqb (length l) 0)
  | PyDict d => negb (Nat.eqb (size d) 0)
  | PyDatetime _ => true
  end.

(** ** Exceptions *)

Inductive exn_class :=
| Exception
| ValueError
| TypeError
| KeyError
| IndexError
| AttributeError
| OverflowError
| ZeroDivisionError
| UnboundLocalError
| JSONDecodeError           (* json.JSONDecodeError, a ValueError *)
| RequestException          (* requests.exceptions.RequestException and its
                               subclasses ConnectionError, Timeout, HTTPError *)
| RequestsJSONDecodeError   (* requests.exceptions.JSONDecodeError: both a
                               RequestException and a json.JSONDecodeError *)
| PyMongoError.

(** An exception object: its class and [str(e)]. *)
Record exn := Raise { exn_cls : exn_class; exn_msg : string }.

(** [isinstance(e, requests.exceptions.RequestException)] *)
Definition is_RequestException (e : exn) : bool :=
  match exn_cls e with
  | RequestException | RequestsJSONDecodeError => true
  | _ => false
  end.

(** [isinstance(e, json.JSONDecodeError)] *)
Definition is_JSONDecodeError (e : exn) : bool :=
  match exn_cls e with
  | JSONDecodeError | RequestsJSONDecodeError => true
  | _ => false
  end.

(** ** Computations that may raise *)

Inductive result (A : Type) :=
| Ok (a : A)
| Err (e : exn).
Arguments Ok {A} a.
Arguments Err {A} e.

Definition rbind {A B} (r : result A) (k : A -> result B) : result B :=
  match r with
  | Ok a => k a
  | Err e => Err e
  end.

(** [try: r  except: h] for a bare [except] clause. *)
Definition rcatch {A} (r : result A) (h : exn -> A) : A :=
  match r with
  | Ok a => a
  | Err e => h e
  end.

Declare Scope result_scope.
Delimit Scope result_scope with result.
Notation "x <- c ;; k" := (rbind c (fun x => k))
  (at level 100, c at next level, right associativity) : result_scope.

(** ** Arithmetic on Python numbers *)

(** Conversion of an [int] to a [float]: round to nearest even, as
    [PyLong_AsDouble] does. *)
Definition float_of_Z (z : Z) : float :=
  FloatOps.SF2Prim (SpecFloat.binary_normalize FloatOps.prec FloatOps.emax z 0 false).

Definition is_infinite (f : float) : bool :=
  match FloatOps.Prim2SF f with
  | SpecFloat.S754_infinity _ => true
  | _ => false
  end.

(** The float operand a number contributes to mixed arithmetic with a
    float. [bool] is a subclass of [int]; an [int] too large for a double
    raises [OverflowError]; anything else is a [TypeError]. *)
Definition as_float (v : pyval) : result float :=
  match v with
  | PyFloat f => Ok f
  | PyInt z =>
      let f := float_of_Z z in
      if is_infinite f
      then Err (Raise OverflowError "int too large to convert to float")
      else Ok f
  | PyBool b => Ok (if b then 1%float else 0%float)
  | _ => Err (Raise TypeError "unsupported operand type(s)")
  end.

(** [v * c] for a float [c] *)
Definition py_mul_float (v : pyval) (c : float) : result float :=
  (f <- as_float v ;; Ok (PrimFloat.mul f c))%result.

(** [v + c] for a float [c] *)
Definition py_add_float (v : pyval) (c : float) : result float :=
  (f <- as_float v ;; Ok (PrimFloat.add f c))%result.

(** [v == 0] for a number; a non-zero [int] never converts to [0.0]. *)
Definition py_is_zero (v : pyval) : bool :=
  match v with
  | PyInt z => z =? 0
  | PyFloat f => PrimFloat.eqb f 0%float
  | PyBool b => negb b
  | _ => false
  end.

(** [c / v] for a float [c] *)
Definition py_float_div (c : float) (v : pyval) : result float :=
  (f <- as_float v ;;
   if py_is_zero v
   then Err (Raise ZeroDivisionError "float division by zero")
   else Ok (PrimFloat.div c f))%result.

(** [v > 0]: exact on integers, IEEE on floats (false for NaN). *)
Definition py_gt_zero (v : pyval) : result bool :=
  match v with
  | PyInt z => Ok (0 <? z)
  | PyFloat f => Ok (PrimFloat.ltb 0%float f)
  | PyBool b => Ok b
  | _ => Err (Raise TypeError "'>' not supported between instances")
  end.

(** A format specification [:,.2f] applied to [v]: only the fact that the
    value can be formatted matters here, the text is not produced. *)
Definition format_2f (v : pyval) : result float :=
  match v with
  | PyStr _ => Err (Raise ValueError "Unknown format code 'f' for object of type 'str'")
  | PyNone | PyList _ | PyDict _ | PyDatetime _ =>
      Err (Raise TypeError "unsupported format string passed to __format__")
  | _ => as_float v
  end.

(** ** Strings and containers *)

(** [str.isspace] on the code points below 256. *)
Definition py_isspace (a : ascii) : bool :=
  let n := nat_of_ascii a in
  existsb (Nat.eqb n) [9; 10; 11; 12; 13; 28; 29; 30; 31; 32; 133; 160]%nat.

Fixpoint lstrip (s : string) : string :=
  match s with
  | String a s' => if py_isspace a then lstrip s' else s
  | EmptyString => EmptyString
  end.

Definition rstrip (s : string) : string := String.rev (lstrip (String.rev s)).

(** [s.strip()] *)
Definition strip (s : string) : string := rstrip (lstrip s).

(** [s.startswith(p)] and [s.endswith(p)] *)
Definition startswith (s p : string) : bool := String.prefix p s.
Definition endswith (s p : string) : bool := String.prefix (String.rev p) (String.rev s).

(** [s[n:]] and [s[:-n]] *)
Definition slice_from (n : nat) (s : string) : string :=
  String.substring n (String.length s - n) s.
Definition slice_to_minus (n : nat) (s : string) : string :=
  String.substring 0 (String.length s - n) s.

(** [needle in hay] for two strings *)
Definition is_substring (needle hay : string) : bool :=
  match String.index 0 needle hay with
  | Some _ => true
  | None => false
  end.

(** [key in v] for a string [key] *)
Definition py_contains (key : string) (v : pyval) : result bool :=
  match v with
  | PyDict d => Ok (match d !! key with Some _ => true | None => false end)
  | PyList l =>
      Ok (existsb (fun x => match x with PyStr s => String.eqb s key | _ => false end) l)
  | PyStr s => Ok (is_substring key s)
  | _ => Err (Raise TypeError "argument is not iterable")
  end.

(** [len(v)] *)
Definition py_len (v : pyval) : result Z :=
  match v with
  | PyStr s => Ok (Z.of_nat (String.length s))
  | PyList l => Ok (Z.of_nat (length l))
  | PyDict d => Ok (Z.of_nat (size d))
  | _ => Err (Raise TypeError "object has no len()")
  end.

(** [v[key]] for a string [key]; [str(KeyError(key))] is [repr(key)]. *)
Definition py_getitem (v : pyval) (key : string) : result pyval :=
  match v with
  | PyDict d =>
      match d !! key with
      | Some x => Ok x
      | None => Err (Raise KeyError ("'" +:+ key +:+ "'"))
      end
  | PyList _ => Err (Raise TypeError "list indices must be integers or slices, not str")
  | PyStr _ => Err (Raise TypeError "string indices must be integers, not 'str'")
  | _ => Err (Raise TypeError "object is not subscriptable")
  end.

(** [v[0]]; the keys of a dictionary are strings, so [d[0]] is a [KeyError]. *)
Definition py_getitem0 (v : pyval) : result pyval :=
  match v with
  | PyList (x :: _) => Ok x
  | PyList [] => Err (Raise IndexError "list index out of range")
  | PyStr (String a _) => Ok (PyStr (String a EmptyString))
  | PyStr EmptyString => Err (Raise IndexError "string index out of range")
  | PyDict _ => Err (Raise KeyError "0")
  | _ => Err (Raise TypeError "object is not subscriptable")
  end.

(** The items [for x in v] visits. A dictionary yields its keys; the map
    does not remember insertion order, which no caller depends on. *)
Definition py_iter (v : pyval) : result (list pyval) :=
  match v with
  | PyList l => Ok l
  | PyStr s => Ok (map (fun a => PyStr (String a EmptyString)) (list_ascii_of_string s))
  | PyDict d => Ok (map (fun kv => PyStr kv.1) (map_to_list d))
  | _ => Err (Raise TypeError "object is not iterable")
  end.

(** The receiver of a [.get(...)] call must be a dictionary. *)
Definition as_dict (v : pyval) : result pydict :=
  match v with
  | PyDict d => Ok d
  | _ => Err (Raise AttributeError "object has no attribute 'get'")
  end.

(** [v.strip()] *)
Definition py_strip (v : pyval) : result string :=
  match v with
  | PyStr s => Ok (strip s)
  | _ => Err (Raise AttributeError "object has no attribute 'strip'")
  end.

(** ** Extraction schemas *)

Inductive field_type := TString | TNumber | TInteger.

Record field := Field {
  f_name : string;
  f_type : field_type;
  f_enum : list string;
  f_description : string
}.

(** One entry of [SCHEMAS]; ["type": "object"] and
    ["additionalProperties": False] are the same in every entry. *)
Record schema := Schema {
  properties : list field;
  required : list string;
  title : string
}.

Definition SCHEMAS : gmap string schema :=
  list_to_map [
    ("identity", Schema [
        Field "full_name" TString [] "Full name of the person";
        Field "date_of_birth" TString [] "Date of birth in YYYY-MM-DD format";
        Field "document_number" TString [] "Document identification number";
        Field "document_type" TString ["passport"; "id_card"; "drivers_license"]
          "Type of identity document";
        Field "address" TString [] "Residential address";
        Field "nationality" TString [] "Nationality";
        Field "issue_date" TString [] "Document issue date";
        Field "expiry_date" TString [] "Document expiry date" ]
      ["full_name"; "date_of_birth"; "document_number"]
      "IdentityDocument");
    ("income", Schema [
        Field "applicant_name" TString [] "Name of the employee/applicant";
        Field "employer_name" TString [] "Name of the employer company";
        Field "job_title" TString [] "Job title or position";
        Field "monthly_gross_income" TNumber [] "Monthly gross salary/income in euros";
        Field "monthly_net_income" TNumber [] "Monthly net salary/income in euros";
        Field "employment_start_date" TString []
          "Employment start date in YYYY-MM-DD format";
        Field "contract_type" TString ["permanent"; "fixed_term"; "temporary"]
          "Type of employment contract";
        Field "payment_date" TString [] "Latest payment date" ]
      ["applicant_name"; "employer_name"; "job_title"; "monthly_gross_income";
       "employment_start_date"]
      "IncomeDocument");
    ("bank_statement", Schema [
        Field "account_holder_name" TString [] "Name of the account holder";
        Field "statement_period_start" TString [] "Statement period start date";
        Field "statement_period_end" TString [] "Statement period end date";
        Field "average_balance" TNumber [] "Average account balance in euros";
        Field "total_income" TNumber [] "Total income/deposits during period";
        Field "total_expenses" TNumber [] "Total expenses/withdrawals during period";
        Field "recurring_loan_payments" TNumber [] "Monthly recurring loan payments";
        Field "overdraft_occurrences" TInteger [] "Number of overdraft occurrences" ]
      ["account_holder_name"; "statement_period_start"; "statement_period_end"]
      "BankStatement")
  ].

(** The JSON body posted to the document service. *)
Record docai_payload := DocaiPayload {
  dp_model : string;
  dp_document_url : string;
  dp_schema : schema;
  dp_schema_name : string;
  dp_strict : bool;
  dp_include_image_base64 : bool
}.

(** The values the f-string of [analyze_risk] embeds in the prompt, in the
    order they are evaluated. The prompt text is a fixed rendering of
    them around the policy rules; the rendering is not modelled. *)
Record prompt := Prompt {
  p_full_name : pyval;
  p_date_of_birth : pyval;
  p_employer_name : pyval;
  p_job_title : pyval;
  p_monthly_gross_income : float;
  p_employment_months : pyval;
  p_contract_type : pyval;
  p_recurring_loan_payments : float;
  p_average_balance : pyval;
  p_overdraft_occurrences : pyval;
  p_loan_amount : float;
  p_estimated_monthly_payment : float;
  p_total_debt : float;
  p_dti_ratio : float
}.

(** The JSON body posted to the reasoning model; [MINISTRAL_MODEL] is
    configuration and left out. *)
Record chat_payload := ChatPayload {
  cp_content : prompt;
  cp_temperature : float;
  cp_max_tokens : Z
}.

(** ** The outside world *)

(** What the program cannot decide by itself. [docai_post] and
    [ministral_post] stand for [requests.post] followed by
    [raise_for_status] and [response.json()]: the decoded body, or the
    exception one of the three raised. [json_loads] returns [inl msg] when
    [json.loads] raises [JSONDecodeError(msg)]. [strptime] is
    [datetime.strptime(_, "%Y-%m-%d")], [None] when it raises.
    [mongo_client] is the outcome of building the client and selecting the
    collection, [mongo_insert] what the server answers to an insert. *)
Record Env := {
  now : datetime;
  utcnow : datetime;
  strptime : string -> option datetime;
  isoformat : datetime -> string;
  json_loads : string -> string + pyval;
  json_dumps : pyval -> string;
  b64encode : string -> string;
  docai_post : docai_payload -> result pyval;
  ministral_post : chat_payload -> result pyval;
  mongo_client : result unit;
  object_id : string;
  mongo_insert : pydict -> result string
}.

(** [st.session_state] *)
Record Session := {
  ss_identity_file : option string;
  ss_income_file : option string;
  ss_bank_file : option string;
  ss_processing_complete : bool;
  ss_combined_data : pyval;
  ss_risk_assessment : pyval;
  ss_application_id : pyval
}.

(** What a run leaves behind that can be observed: the stage markers
    ([st.spinner]), the outbound requests, and the errors shown. *)
Inductive event :=
| Spinner (msg : string)
| DocaiRequest (p : docai_payload)
| MinistralRequest (p : chat_payload)
| MongoInsert (doc : pydict)
| UiError (msg : string).

(** The mutable state: dictionaries that are passed by reference, the
    log of events (oldest first), the database collection and the
    session. *)
Record World := {
  heap : gmap nat pydict;
  events : list event;
  collection : list pydict;
  session : Session
}.

(** ** The monad of effectful code *)

Definition M (A : Type) : Type := World -> result A * World.

Definition mret {A} (a : A) : M A := fun w => (Ok a, w).

Definition mraise {A} (e : exn) : M A := fun w => (Err e, w).

Definition mbind {A B} (m : M A) (k : A -> M B) : M B :=
  fun w =>
    match m w with
    | (Ok a, w') => k a w'
    | (Err e, w') => (Err e, w')
    end.

(** [try: m  except Exception as e: h e]; the state reached when the
    exception was raised is kept. *)
Definition mtry {A} (m : M A) (h : exn -> M A) : M A :=
  fun w =>
    match m w with
    | (Ok a, w') => (Ok a, w')
    | (Err e, w') => h e w'
    end.

Definition lift {A} (r : result A) : M A := fun w => (r, w).

Declare Scope io_scope.
Delimit Scope io_scope with io.
Notation "x <- c ;; k" := (mbind c (fun x => k))
  (at level 100, c at next level, right associativity) : io_scope.
Notation "c ;;; k" := (mbind c (fun _ => k))
  (at level 100, right associativity) : io_scope.

Definition log (e : event) : M unit :=
  fun w => (Ok tt, {| heap := heap w; events := events w ++ [e];
                      collection := collection w; session := session w |}).

Definition get_session : M Session := fun w => (Ok (session w), w).

Definition put_session (s : Session) : M unit :=
  fun w => (Ok tt, {| heap := heap w; events := events w;
                      collection := collection w; session := s |}).

(** A new dictionary object; the reference returned is not in use. *)
Definition alloc (d : pydict) : M nat :=
  fun w =>
    let l := fresh (dom (heap w)) in
    (Ok l, {| heap := <[l := d]> (heap w); events := events w;
              collection := collection w; session := session w |}).

(** The dictionary a reference designates. *)
Definition deref (l : nat) : M pydict :=
  fun w => (Ok (default ∅ (heap w !! l)), w).

(** [l[key] = v]: assignment through the reference, seen by every holder
    of [l]. *)
Definition setitem (l : nat) (key : string) (v : pyval) : M unit :=
  fun w => (Ok tt, {| heap := alter (insert key v) l (heap w); events := events w;
                      collection := collection w; session := session w |}).

Definition db_append (doc : pydict) : M unit :=
  fun w => (Ok tt, {| heap := heap w; events := events w;
                      collection := collection w ++ [doc]; session := session w |}).

(** ** [extract_document_data] *)

(** [pdf_file.read()]; the handler of [main] runs only when the two
    required files are set, a missing file has no [read]. *)
Definition file_read (pdf_file : option string) : result string :=
  match pdf_file with
  | Some bytes => Ok bytes
  | None => Err (Raise AttributeError "'NoneType' object has no attribute 'read'")
  end.

(** [schema = SCHEMAS.get(document_type)] followed by [if not schema: raise];
    no entry of [SCHEMAS] is an empty dictionary, so [not schema] holds
    exactly when the key is missing. *)
Definition lookup_schema (document_type : string) : result schema :=
  match SCHEMAS !! document_type with
  | Some sch => Ok sch
  | None => Err (Raise ValueError ("Unknown document type: " +:+ document_type))
  end.

Definition build_docai_payload (pdf_base64 : string) (sch : schema)
    (document_type : string) : docai_payload :=
  {| dp_model := "mistral-document-ai-2505";
     dp_document_url := "data:application/pdf;base64," +:+ pdf_base64;
     dp_schema := sch;
     dp_schema_name := document_type +:+ "_extraction";
     dp_strict := true;
     dp_include_image_base64 := false |}.

(** [requests.post(DOCAI_ENDPOINT, ...)], [raise_for_status()], [json()] *)
Definition call_docai (env : Env) (payload : docai_payload) : M pyval :=
  (log (DocaiRequest payload) ;;; lift (docai_post env payload))%io.

(** [json.loads(s)] *)
Definition py_json_loads (env : Env) (s : string) : result pyval :=
  match json_loads env s with
  | inl msg => Err (Raise JSONDecodeError msg)
  | inr v => Ok v
  end.

(** The loop [for image in page["images"]]: the first image that carries
    an annotation decides. *)
Fixpoint find_annotation (env : Env) (images : list pyval) : result (option pyval) :=
  match images with
  | [] => Ok None
  | image :: rest =>
      (has <- py_contains "image_annotation" image ;;
       if has : bool then
         ann <- py_getitem image "image_annotation" ;;
         match ann with
         | PyStr txt => v <- py_json_loads env txt ;; Ok (Some v)
         | _ => Ok (Some ann)
         end
       else find_annotation env rest)%result
  end.

(** [key in v and len(v[key]) > 0] *)
Definition has_nonempty (key : string) (v : pyval) : result bool :=
  (has <- py_contains key v ;;
   if has : bool then
     items <- py_getitem v key ;;
     n <- py_len items ;;
     Ok (0 <? n)
   else Ok false)%result.

(** Lines 151-164: what is made of the decoded response. *)
Definition read_extraction (env : Env) (response : pyval) (document_type : string)
    : result pyval :=
  let no_data := Err (Raise ValueError "No data extracted from document") in
  (pages_ok <- has_nonempty "pages" response ;;
   if pages_ok : bool then
     pages <- py_getitem response "pages" ;;
     page <- py_getitem0 pages ;;
     images_ok <- has_nonempty "images" page ;;
     found <- (if images_ok : bool then
                 images <- py_getitem page "images" ;;
                 items <- py_iter images ;;
                 find_annotation env items
               else Ok None) ;;
     match found with
     | Some record => Ok record
     | None =>
         has_md <- py_contains "markdown" page ;;
         if has_md : bool then
           md <- py_getitem page "markdown" ;;
           Ok (PyDict (dict_of [("raw_text", md); ("document_type", PyStr document_type)]))
         else no_data
     end
   else no_data)%result.

Definition extract_document_data (env : Env) (pdf_file : option string)
    (document_type : string) : M pyval :=
  mtry
    (pdf_bytes <- lift (file_read pdf_file) ;;
     let pdf_base64 := b64encode env pdf_bytes in
     sch <- lift (lookup_schema document_type) ;;
     let payload := build_docai_payload pdf_base64 sch document_type in
     response <- call_docai env payload ;;
     lift (read_extraction env response document_type))%io
    (fun e =>
       if is_RequestException e
       then mraise (Raise Exception ("Document AI API error: " +:+ exn_msg e))
       else mraise (Raise Exception ("Extraction error: " +:+ exn_msg e))).

(** ** [combine_extracted_data]

    [bank_data] is an [Optional[Dict]]: [None] is Python's [None], and
    [if bank_data:] is false for [None] and for an empty dictionary. *)

Definition net_income_ratio : float := 0.7%float.

(** [datetime.strptime(v, "%Y-%m-%d")] *)
Definition py_strptime (env : Env) (v : pyval) : result datetime :=
  match v with
  | PyStr txt =>
      match strptime env txt with
      | Some d => Ok d
      | None => Err (Raise ValueError "time data does not match format '%Y-%m-%d'")
      end
  | _ => Err (Raise TypeError "strptime() argument 1 must be str")
  end.

(** Lines 189-196: the employment duration, with its bare [except]. *)
Definition employment_months (env : Env) (employment_start : pyval) : Z :=
  if truthy employment_start then
    rcatch
      (start_date <- py_strptime env employment_start ;;
       let today := now env in
       Ok ((year today - year start_date) * 12 + (month today - month start_date)))%result
      (fun _ => 0)
  else 0.

(** The argument of [combined.update] in the two branches of
    [if bank_data:]. *)
Definition bank_fields (bank_data : pydict) : list (string * pyval) :=
  [ ("average_balance", dict_get bank_data "average_balance" (PyInt 0));
    ("total_expenses", dict_get bank_data "total_expenses" (PyInt 0));
    ("recurring_loan_payments", dict_get bank_data "recurring_loan_payments" (PyInt 0));
    ("overdraft_occurrences", dict_get bank_data "overdraft_occurrences" (PyInt 0)) ].

Definition no_bank_fields : list (string * pyval) :=
  [ ("average_balance", PyNone);
    ("total_expenses", PyNone);
    ("recurring_loan_payments", PyInt 0);
    ("overdraft_occurrences", PyNone) ].

Definition combine_extracted_data (env : Env) (identity_data income_data : pydict)
    (bank_data : option pydict) : result pydict :=
  let full_name :=
    dict_get identity_data "full_name"
      (dict_get income_data "applicant_name" (PyStr "Unknown")) in
  let employment_start := dict_get income_data "employment_start_date" (PyStr "") in
  let months := employment_months env employment_start in
  (net_default <-
     py_mul_float (dict_get income_data "monthly_gross_income" (PyInt 0)) net_income_ratio ;;
   let combined := dict_of [
     ("full_name", full_name);
     ("date_of_birth", dict_get identity_data "date_of_birth" (PyStr ""));
     ("document_number", dict_get identity_data "document_number" (PyStr ""));
     ("address", dict_get identity_data "address" (PyStr ""));
     ("employer_name", dict_get income_data "employer_name" (PyStr ""));
     ("job_title", dict_get income_data "job_title" (PyStr ""));
     ("monthly_gross_income", dict_get income_data "monthly_gross_income" (PyInt 0));
     ("monthly_net_income",
        dict_get income_data "monthly_net_income" (PyFloat net_default));
     ("employment_start_date", employment_start);
     ("employment_months", PyInt months);
     ("contract_type", dict_get income_data "contract_type" (PyStr "unknown")) ] in
   Ok (match bank_data with
       | Some bank =>
           if truthy (PyDict bank)
           then dict_update combined (bank_fields bank)
           else dict_update combined no_bank_fields
       | None => dict_update combined no_bank_fields
       end))%result.

(** ** [analyze_risk] *)

Definition payment_rate : float := 0.02%float.

Definition temperature : float := 0.3%float.

(** Lines 244-249: the estimated monthly payment, the total debt and the
    debt-to-income ratio. *)
Definition analyze_risk_metrics (combined_data : pydict) (loan_amount : pyval)
    : result (float * float * float) :=
  let monthly_income := dict_get combined_data "monthly_gross_income" (PyInt 0) in
  let existing_loan_payments := dict_get combined_data "recurring_loan_payments" (PyInt 0) in
  (estimated_monthly_payment <- py_mul_float loan_amount payment_rate ;;
   total_debt <- py_add_float existing_loan_payments estimated_monthly_payment ;;
   positive <- py_gt_zero monthly_income ;;
   dti_ratio <- (if positive : bool
                 then py_float_div total_debt monthly_income
                 else Ok 1%float) ;;
   Ok (estimated_monthly_payment, total_debt, dti_ratio))%result.

(** Lines 252-298: the values are read and formatted left to right. *)
Definition build_prompt (combined_data : pydict) (loan_amount : pyval)
    (estimated_monthly_payment total_debt dti_ratio : float) : result prompt :=
  (income <- format_2f (dict_get combined_data "monthly_gross_income" (PyInt 0)) ;;
   existing <- format_2f (dict_get combined_data "recurring_loan_payments" (PyInt 0)) ;;
   amount <- format_2f loan_amount ;;
   Ok {| p_full_name := dict_get combined_data "full_name" PyNone;
         p_date_of_birth := dict_get combined_data "date_of_birth" PyNone;
         p_employer_name := dict_get combined_data "employer_name" PyNone;
         p_job_title := dict_get combined_data "job_title" PyNone;
         p_monthly_gross_income := income;
         p_employment_months := dict_get combined_data "employment_months" (PyInt 0);
         p_contract_type := dict_get combined_data "contract_type" (PyStr "unknown");
         p_recurring_loan_payments := existing;
         p_average_balance := dict_get combined_data "average_balance" (PyStr "N/A");
         p_overdraft_occurrences :=
           dict_get combined_data "overdraft_occurrences" (PyStr "N/A");
         p_loan_amount := amount;
         p_estimated_monthly_payment := estimated_monthly_payment;
         p_total_debt := total_debt;
         p_dti_ratio := dti_ratio |})%result.

(** [requests.post(MINISTRAL_ENDPOINT, ...)], [raise_for_status()], [json()] *)
Definition call_ministral (env : Env) (payload : chat_payload) : M pyval :=
  (log (MinistralRequest payload) ;;; lift (ministral_post env payload))%io.

(** Lines 326-333: the Markdown code fence around the answer is removed. *)
Definition strip_code_fences (content : string) : string :=
  let content := strip content in
  let content := if startswith content "```json" then slice_from 7 content else content in
  let content := if startswith content "```" then slice_from 3 content else content in
  let content := if endswith content "```" then slice_to_minus 3 content else content in
  strip content.

(** Lines 321-338: the assessment is read from the first choice. *)
Definition read_assessment (env : Env) (response : pyval) : result pyval :=
  (choices_ok <- has_nonempty "choices" response ;;
   if choices_ok : bool then
     choices <- py_getitem response "choices" ;;
     choice <- py_getitem0 choices ;;
     message <- py_getitem choice "message" ;;
     content <- py_getitem message "content" ;;
     content <- py_strip content ;;
     py_json_loads env (strip_code_fences content)
   else Err (Raise ValueError "No response from Ministral-3B"))%result.

(** The dictionary both [except] clauses return, up to the two texts. *)
Definition safe_default (dti_ratio : float) (explanation flag_message : string) : pydict :=
  dict_of [
    ("risk_score", PyInt 100);
    ("risk_level", PyStr "HIGH");
    ("debt_to_income_ratio", PyFloat dti_ratio);
    ("recommendation", PyStr "REJECT");
    ("explanation", PyStr explanation);
    ("flags", PyList [ PyDict (dict_of [
        ("flag_type", PyStr "SYSTEM_ERROR");
        ("message", PyStr flag_message);
        ("severity", PyStr "high") ]) ]);
    ("suggested_actions", PyList [PyStr "Retry analysis"; PyStr "Contact IT support"]);
    ("policy_compliance", PyDict ∅) ].

(** The two [except] clauses, tried in order; any other exception goes on
    to the caller. *)
Definition risk_handlers (dti_ratio : float) (e : exn) : result pyval :=
  if is_RequestException e then
    Ok (PyDict (safe_default dti_ratio
      ("Risk analysis failed due to API error: " +:+ exn_msg e +:+
       ". Application rejected as safety measure.")
      "Risk analysis system unavailable"))
  else if is_JSONDecodeError e then
    Ok (PyDict (safe_default dti_ratio
      ("Risk analysis response parsing failed: " +:+ exn_msg e +:+
       ". Application rejected as safety measure.")
      "Risk analysis parsing error"))
  else Err e.

Definition build_chat_payload (p : prompt) : chat_payload :=
  {| cp_content := p; cp_temperature := temperature; cp_max_tokens := 2000 |}.

(** The whole body is one [try]. Its first five statements bind
    [dti_ratio], which the handlers read; they raise nothing the handlers
    catch (see [metrics_error_not_handled]), so their exceptions leave the
    function unchanged. *)
Definition analyze_risk (env : Env) (combined_data : pydict) (loan_amount : pyval)
    : M pyval :=
  (metrics <- lift (analyze_risk_metrics combined_data loan_amount) ;;
   let '(estimated_monthly_payment, total_debt, dti_ratio) := metrics in
   mtry
     (prompt <- lift (build_prompt combined_data loan_amount
                        estimated_monthly_payment total_debt dti_ratio) ;;
      response <- call_ministral env (build_chat_payload prompt) ;;
      lift (read_assessment env response))
     (fun e => lift (risk_handlers dti_ratio e)))%io.

(** ** [save_to_mongodb] *)

(** [collection.insert_one(document)] of the driver: a document without
    ["_id"] receives one, in place, before it is sent. *)
Definition insert_one (env : Env) (document : nat) : M string :=
  (doc <- deref document ;;
   (match doc !! "_id" with
    | Some _ => mret tt
    | None => setitem document "_id" (PyStr (object_id env))
    end) ;;;
   doc <- deref document ;;
   log (MongoInsert doc) ;;;
   inserted_id <- lift (mongo_insert env doc) ;;
   db_append doc ;;;
   mret inserted_id)%io.

Definition save_to_mongodb (env : Env) (application_data : nat) : M string :=
  mtry
    (lift (mongo_client env) ;;;
     setitem application_data "created_at" (PyDatetime (utcnow env)) ;;;
     insert_one env application_data)%io
    (fun e => mraise (Raise Exception ("MongoDB error: " +:+ exn_msg e))).

(** ** [generate_download_report] *)

Definition generate_download_report (env : Env) (combined_data risk_assessment : pyval)
    : string :=
  json_dumps env (PyDict (dict_of [
    ("timestamp", PyStr (isoformat env (now env)));
    ("applicant_data", combined_data);
    ("risk_assessment", risk_assessment) ])).

(** ** [render_results_ui]

    The function draws the results with Streamlit widgets. What is kept
    of a widget is its kind and what the program passes to it; what the
    library does with it, including whether it accepts it, is the
    parameter [ui]. The pictographs, the currency sign and the bullet at
    the head of the texts carry no logic and are left out; the two marks
    of a policy line are [Status]. The [with] blocks of the columns only
    place the widgets. The function is modelled for a profile and an
    assessment that are dictionaries, as its annotations say;
    [call_render_results_ui] below is the call of [main], with whatever
    the session holds. *)

(** A piece of the text of a widget: a literal, a value embedded in an
    f-string with or without a format specification, a value handed over
    as it is, a policy name put in title case, a compliance mark. *)
Inductive piece :=
| Lit (s : string)
| Str (v : pyval)
| Fmt (spec : string) (v : pyval)
| Obj (v : pyval)
| TitleCase (name : string)
| Status (compliant : bool).

Inductive widget :=
| WMarkdown (body : list piece)
| WHeader (body : string)
| WSubheader (body : string)
| WColumns (spec : pyval)
| WMetric (label : string) (value : list piece)
| WProgress (numerator : pyval)      (* st.progress(numerator / 100) *)
| WCaption (body : string)
| WSuccess (body : list piece)
| WWarning (body : list piece)
| WError (body : list piece)
| WInfo (body : list piece)
| WExpander (label : string).

(** The library: a widget is drawn, or the call raises. *)
Definition Ui : Type := widget -> result unit.

(** Code that draws: its outcome and the widgets drawn, oldest first. *)
Definition R (A : Type) : Type := (result A * list widget)%type.

Definition rret {A} (a : A) : R A := (Ok a, []).

Definition rlift {A} (r : result A) : R A := (r, []).

Definition rthen {A B} (m : R A) (k : A -> R B) : R B :=
  match m with
  | (Ok a, drawn) => let '(r, drawn') := k a in (r, drawn ++ drawn')
  | (Err e, drawn) => (Err e, drawn)
  end.

Declare Scope ui_scope.
Delimit Scope ui_scope with ui.
Notation "x <- c ;; k" := (rthen c (fun x => k))
  (at level 100, c at next level, right associativity) : ui_scope.
Notation "c ;;; k" := (rthen c (fun _ => k))
  (at level 100, right associativity) : ui_scope.

Definition draw (ui : Ui) (wd : widget) : R unit :=
  match ui wd with
  | Ok _ => (Ok tt, [wd])
  | Err e => (Err e, [])
  end.

(** [for x in items: body x] *)
Fixpoint for_each {A} (body : A -> R unit) (items : list A) : R unit :=
  match items with
  | [] => rret tt
  | x :: rest => (body x ;;; for_each body rest)%ui
  end.

(** [v == s] for a string literal [s] *)
Definition py_eq_str (v : pyval) (s : string) : bool :=
  match v with
  | PyStr t => String.eqb t s
  | _ => false
  end.

(** [v / 100]: only whether the division raises is kept. The quotient of
    two integers is rounded once, so it overflows exactly when its integer
    part does. *)
Definition py_div_100 (v : pyval) : result unit :=
  match v with
  | PyFloat _ | PyBool _ => Ok tt
  | PyInt z =>
      if is_infinite (float_of_Z (Z.quot z 100))
      then Err (Raise OverflowError "integer division result too large for a float")
      else Ok tt
  | _ => Err (Raise TypeError "unsupported operand type(s) for /")
  end.

(** The format specification [.1%] applied to [v]: as for [,.2f], only
    whether the value can be formatted is kept. *)
Definition format_percent (v : pyval) : result float :=
  match v with
  | PyStr _ => Err (Raise ValueError "Unknown format code '%' for object of type 'str'")
  | _ => format_2f v
  end.

(** [v.items()]; the map does not remember the order of insertion, so
    the policies may come in another order than Python's. *)
Definition py_items (v : pyval) : result (list (string * pyval)) :=
  match v with
  | PyDict d => Ok (map_to_list d)
  | _ => Err (Raise AttributeError "object has no attribute 'items'")
  end.

(** Lines 409-427: the header and the applicant's card. *)
Definition render_applicant (ui : Ui) (combined_data : pydict) (application_id : pyval)
    : R unit :=
  (draw ui (WMarkdown [Lit "---"]) ;;;
   draw ui (WHeader "Processing Results") ;;;
   (if truthy application_id
    then draw ui (WSuccess [Lit "Application saved to database (ID: ";
                            Str application_id; Lit ")"])
    else rret tt) ;;;
   draw ui (WSubheader "Applicant Information") ;;;
   draw ui (WColumns (PyInt 2)) ;;;
   draw ui (WMetric "Full Name" [Obj (dict_get combined_data "full_name" (PyStr "N/A"))]) ;;;
   draw ui (WMetric "Date of Birth"
              [Obj (dict_get combined_data "date_of_birth" (PyStr "N/A"))]) ;;;
   draw ui (WMetric "Employer"
              [Obj (dict_get combined_data "employer_name" (PyStr "N/A"))]) ;;;
   draw ui (WMetric "Job Title" [Obj (dict_get combined_data "job_title" (PyStr "N/A"))]) ;;;
   rlift (format_2f (dict_get combined_data "monthly_gross_income" (PyInt 0))) ;;;
   draw ui (WMetric "Monthly Income"
              [Fmt ",.2f" (dict_get combined_data "monthly_gross_income" (PyInt 0))]) ;;;
   draw ui (WMetric "Employment Duration"
              [Str (dict_get combined_data "employment_months" (PyInt 0)); Lit " months"]))%ui.

(** Lines 447-452 *)
Definition level_badge (risk_level : pyval) : widget :=
  if py_eq_str risk_level "LOW" then WSuccess [Str risk_level]
  else if py_eq_str risk_level "MEDIUM" then WWarning [Str risk_level]
  else WError [Str risk_level].

(** Lines 460-465 *)
Definition recommendation_badge (recommendation : pyval) : widget :=
  if py_eq_str recommendation "APPROVE" then WSuccess [Str recommendation]
  else if py_eq_str recommendation "MANUAL_REVIEW" then WWarning [Str recommendation]
  else WError [Str recommendation].

(** Lines 476-483: the body of the loop over the flags. *)
Definition render_flag (ui : Ui) (flag : pyval) : R unit :=
  (f <- rlift (as_dict flag) ;;
   let severity := dict_get f "severity" (PyStr "medium") in
   let message := dict_get f "message" (PyStr "") in
   if py_eq_str severity "high" then draw ui (WError [Lit "HIGH: "; Str message])
   else if py_eq_str severity "medium" then draw ui (WWarning [Lit "MEDIUM: "; Str message])
   else draw ui (WInfo [Lit "LOW: "; Str message]))%ui.

(** Lines 497-505: the body of the loop over the policies. *)
Definition render_policy (ui : Ui) (item : string * pyval) : R unit :=
  match item.2 with
  | PyDict policy_data =>
      let required := dict_get policy_data "required" (PyStr "N/A") in
      let actual := dict_get policy_data "actual" (PyStr "N/A") in
      let compliant := dict_get policy_data "compliant" (PyBool false) in
      (draw ui (WMarkdown [Lit "**"; TitleCase item.1; Lit "**: ";
                           Status (truthy compliant)]) ;;;
       draw ui (WMarkdown [Lit "  - Required: "; Str required]) ;;;
       draw ui (WMarkdown [Lit "  - Actual: "; Str actual]))%ui
  | _ => rret tt
  end.

(** Lines 430-505: the assessment's card. *)
Definition render_assessment (ui : Ui) (risk_assessment : pydict) : R unit :=
  (draw ui (WMarkdown [Lit "---"]) ;;;
   draw ui (WSubheader "Risk Assessment") ;;;
   let risk_score := dict_get risk_assessment "risk_score" (PyInt 0) in
   let risk_level := dict_get risk_assessment "risk_level" (PyStr "UNKNOWN") in
   let dti_ratio := dict_get risk_assessment "debt_to_income_ratio" (PyInt 0) in
   let recommendation := dict_get risk_assessment "recommendation" (PyStr "UNKNOWN") in
   draw ui (WColumns (PyList [PyInt 2; PyInt 1; PyInt 1])) ;;;
   draw ui (WMetric "Risk Score" [Str risk_score; Lit "/100"]) ;;;
   rlift (py_div_100 risk_score) ;;;
   draw ui (WProgress risk_score) ;;;
   draw ui (level_badge risk_level) ;;;
   rlift (format_percent dti_ratio) ;;;
   draw ui (WMetric "DTI Ratio" [Fmt ".1%" dti_ratio]) ;;;
   draw ui (WCaption "Threshold: 40%") ;;;
   draw ui (WMarkdown [Lit "### Recommendation"]) ;;;
   draw ui (recommendation_badge recommendation) ;;;
   draw ui (WMarkdown [Lit "### Explanation"]) ;;;
   draw ui (WInfo [Obj (dict_get risk_assessment "explanation"
                          (PyStr "No explanation provided"))]) ;;;
   let flags := dict_get risk_assessment "flags" (PyList []) in
   (if truthy flags then
      draw ui (WMarkdown [Lit "### Risk Flags"]) ;;;
      items <- rlift (py_iter flags) ;;
      for_each (render_flag ui) items
    else rret tt) ;;;
   let suggested_actions := dict_get risk_assessment "suggested_actions" (PyList []) in
   (if truthy suggested_actions then
      draw ui (WMarkdown [Lit "### Suggested Actions"]) ;;;
      items <- rlift (py_iter suggested_actions) ;;
      for_each (fun action => draw ui (WMarkdown [Str action])) items
    else rret tt) ;;;
   let policy_compliance := dict_get risk_assessment "policy_compliance" (PyDict ∅) in
   if truthy policy_compliance then
     draw ui (WExpander "Policy Compliance Details") ;;;
     items <- rlift (py_items policy_compliance) ;;
     for_each (render_policy ui) items
   else rret tt)%ui.

Definition render_results_ui (ui : Ui) (combined_data risk_assessment : pydict)
    (application_id : pyval) : R unit :=
  (render_applicant ui combined_data application_id ;;;
   render_assessment ui risk_assessment)%ui.

(** A library that draws whatever it is given. *)
Definition ui_accepts_all : Ui := fun _ => Ok tt.

Definition is_ok {A} (r : result A) : bool :=
  match r with
  | Ok _ => true
  | Err _ => false
  end.

Definition is_dict (v : pyval) : bool :=
  match v with
  | PyDict _ => true
  | _ => false
  end.

(** What the function asks of the assessment: the numbers it divides or
    formats are numbers, the flags are dictionaries, the suggested actions
    can be iterated over, the policies are a dictionary. An absent or
    empty list or dictionary asks nothing. *)
Definition assessment_renderable (risk_assessment : pydict) : bool :=
  is_ok (py_div_100 (dict_get risk_assessment "risk_score" (PyInt 0))) &&
  is_ok (format_percent (dict_get risk_assessment "debt_to_income_ratio" (PyInt 0))) &&
  (let flags := dict_get risk_assessment "flags" (PyList []) in
   if truthy flags
   then match py_iter flags with
        | Ok items => forallb is_dict items
        | Err _ => false
        end
   else true) &&
  (let suggested_actions := dict_get risk_assessment "suggested_actions" (PyList []) in
   if truthy suggested_actions then is_ok (py_iter suggested_actions) else true) &&
  (let policy_compliance := dict_get risk_assessment "policy_compliance" (PyDict ∅) in
   if truthy policy_compliance then is_dict policy_compliance else true).

(** And of the profile: the gross income is a number. *)
Definition renderable (combined_data risk_assessment : pydict) : bool :=
  is_ok (format_2f (dict_get combined_data "monthly_gross_income" (PyInt 0))) &&
  assessment_renderable risk_assessment.

(** What is drawn of the fallback assessment. *)
Definition fallback_widgets (dti_ratio : float) (explanation flag_message : string)
    : list widget :=
  [ WMarkdown [Lit "---"];
    WSubheader "Risk Assessment";
    WColumns (PyList [PyInt 2; PyInt 1; PyInt 1]);
    WMetric "Risk Score" [Str (PyInt 100); Lit "/100"];
    WProgress (PyInt 100);
    WError [Str (PyStr "HIGH")];
    WMetric "DTI Ratio" [Fmt ".1%" (PyFloat dti_ratio)];
    WCaption "Threshold: 40%";
    WMarkdown [Lit "### Recommendation"];
    WError [Str (PyStr "REJECT")];
    WMarkdown [Lit "### Explanation"];
    WInfo [Obj (PyStr explanation)];
    WMarkdown [Lit "### Risk Flags"];
    WError [Lit "HIGH: "; Str (PyStr flag_message)];
    WMarkdown [Lit "### Suggested Actions"];
    WMarkdown [Str (PyStr "Retry analysis")];
    WMarkdown [Str (PyStr "Contact IT support")] ].

(** ** [main] *)

(** [can_process]: both required documents are uploaded. *)
Definition can_process (s : Session) : bool :=
  match ss_identity_file s, ss_income_file s with
  | Some _, Some _ => true
  | _, _ => false
  end.

(** Lines 644-650: the bank statement is extracted only when one was
    uploaded. *)
Definition extract_bank (env : Env) (bank_file : option string) : M (option pydict) :=
  match bank_file with
  | Some _ =>
      (log (Spinner "Extracting bank statement...") ;;;
       bank_data <- extract_document_data env bank_file "bank_statement" ;;
       bank_dict <- lift (as_dict bank_data) ;;
       mret (Some bank_dict))%io
  | None => mret None
  end.

(** The record handed to [save_to_mongodb]. *)
Definition application_record (combined_data : pydict) (risk_assessment loan_amount : pyval)
    : pydict :=
  dict_of [
    ("applicant_data", PyDict combined_data);
    ("risk_assessment", risk_assessment);
    ("loan_amount", loan_amount) ].

(** The session after a run that reached the end. *)
Definition completed_session (s : Session) (combined_data : pydict)
    (risk_assessment : pyval) (application_id : string) : Session :=
  {| ss_identity_file := ss_identity_file s;
     ss_income_file := ss_income_file s;
     ss_bank_file := ss_bank_file s;
     ss_processing_complete := true;
     ss_combined_data := PyDict combined_data;
     ss_risk_assessment := risk_assessment;
     ss_application_id := PyStr application_id |}.

(** Lines 625-688: the body of the [try]. The messages drawn between the
    steps are kept only where drawing them can raise: [.get] needs a
    dictionary and [:,.2f] a number. *)
Definition process_steps (env : Env) (loan_amount : pyval) : M unit :=
  (s <- get_session ;;
   log (Spinner "Extracting identity document...") ;;;
   identity_data <- extract_document_data env (ss_identity_file s) "identity" ;;
   identity_data <- lift (as_dict identity_data) ;;
   log (Spinner "Extracting income document...") ;;;
   income_data <- extract_document_data env (ss_income_file s) "income" ;;
   income_data <- lift (as_dict income_data) ;;
   lift (format_2f (dict_get income_data "monthly_gross_income" (PyInt 0))) ;;;
   bank_data <- extract_bank env (ss_bank_file s) ;;
   log (Spinner "Combining extracted data...") ;;;
   combined_data <- lift (combine_extracted_data env identity_data income_data bank_data) ;;
   log (Spinner "Analyzing risk with Ministral-3B...") ;;;
   risk_assessment <- analyze_risk env combined_data loan_amount ;;
   lift (as_dict risk_assessment) ;;;
   log (Spinner "Saving to database...") ;;;
   application_data <- alloc (application_record combined_data risk_assessment loan_amount) ;;
   application_id <- save_to_mongodb env application_data ;;
   put_session (completed_session s combined_data risk_assessment application_id))%io.

(** Lines 690-696: the [except Exception] clause of the handler. *)
Definition report_error (e : exn) : M unit :=
  (log (UiError ("Error during processing: " +:+ exn_msg e)) ;;;
   log (UiError "Please check your documents and try again."))%io.

(** Lines 623-696: the handler of the "Process Application" button. *)
Definition process_application (env : Env) (loan_amount : pyval) : M unit :=
  mtry (process_steps env loan_amount) report_error.

(** Lines 699-718: the results and the download are offered only behind
    this test. *)
Definition results_available (s : Session) : bool :=
  ss_processing_complete s && truthy (ss_combined_data s) && truthy (ss_risk_assessment s).

Definition download_report (env : Env) (s : Session) : option string :=
  if results_available s
  then Some (generate_download_report env (ss_combined_data s) (ss_risk_assessment s))
  else None.

(** How a pass of the script ends: with [st.rerun()], or at the end of
    the script, with the report the download button offers, if any. A
    pass can also raise; that is an [Err] of the monad. *)
Inductive pass_end :=
| Rerun
| Shown (report : option string).

(** Lines 623-696 as the script runs them. The [try] block ends with
    [st.rerun()] (line 688), which raises a control exception that is no
    [Exception]: the [except] clause does not catch it and the pass ends
    there. [true]: the steps went through and the rerun was requested;
    [false]: a step raised and the error was reported. The state is that
    of [process_application]. *)
Definition process_then_rerun (env : Env) (loan_amount : pyval) : M bool :=
  mtry (process_steps env loan_amount ;;; mret true)%io
       (fun e => (report_error e ;;; mret false)%io).

(** Lines 700-704: the call of [render_results_ui] with what the session
    holds. The function reads its first argument after five widgets and
    its second after the applicant's card; a value without [.get] raises
    there. *)
Definition call_render_results_ui (ui : Ui)
    (combined_data risk_assessment application_id : pyval) : R unit :=
  match combined_data with
  | PyDict combined =>
      match risk_assessment with
      | PyDict assessment => render_results_ui ui combined assessment application_id
      | _ =>
          (render_applicant ui combined application_id ;;;
           draw ui (WMarkdown [Lit "---"]) ;;;
           draw ui (WSubheader "Risk Assessment") ;;;
           _ <- rlift (as_dict risk_assessment) ;;
           rret tt)%ui
      end
  | _ =>
      (draw ui (WMarkdown [Lit "---"]) ;;;
       draw ui (WHeader "Processing Results") ;;;
       (if truthy application_id
        then draw ui (WSuccess [Lit "Application saved to database (ID: ";
                                Str application_id; Lit ")"])
        else rret tt) ;;;
       draw ui (WSubheader "Applicant Information") ;;;
       draw ui (WColumns (PyInt 2)) ;;;
       _ <- rlift (as_dict combined_data) ;;
       rret tt)%ui
  end.

(** Lines 699-718: behind the test, the results are drawn and then the
    download button is offered; an exception of the drawing ends the pass
    before the button. The widgets drawn are not part of the [World]. *)
Definition show_results (env : Env) (ui : Ui) : M pass_end :=
  (s <- get_session ;;
   (if results_available s
    then lift (call_render_results_ui ui (ss_combined_data s) (ss_risk_assessment s)
                 (ss_application_id s)).1
    else mret tt) ;;;
   mret (Shown (download_report env s)))%io.

(** One pass of the script from the button on: the handler when the
    button was pressed (it is disabled unless [can_process]); a run that
    went through ends the pass with a rerun, and the results section is
    reached by the passes that do not run the handler to its end. *)
Definition main (env : Env) (ui : Ui) (clicked : bool) (loan_amount : pyval)
    : M pass_end :=
  (s <- get_session ;;
   rerun <- (if clicked && can_process s
             then process_then_rerun env loan_amount
             else mret false) ;;
   if rerun : bool then mret Rerun else show_results env ui)%io.

(** ** A concrete outside world, for running the model

    [strptime_ymd] reads the directives of ["%Y-%m-%d"] on ASCII digits
    the way the library's pattern does: four digits, a month and a day
    of one or two digits (first alternative that fits), nothing left
    over, and a date that exists. *)

Definition digit (a : ascii) : option Z :=
  let n := nat_of_ascii a in
  if (48 <=? n)%nat && (n <=? 57)%nat then Some (Z.of_nat (n - 48)) else None.

Definition is_leap (y : Z) : bool :=
  ((y mod 4 =? 0) && negb (y mod 100 =? 0)) || (y mod 400 =? 0).

Definition days_in_month (y m : Z) : Z :=
  if m =? 2 then (if is_leap y then 29 else 28)
  else if (m =? 4) || (m =? 6) || (m =? 9) || (m =? 11) then 30
  else 31.

(** [%m]: [1[0-2]|0[1-9]|[1-9]] *)
Definition read_month (s : string) : option (Z * string) :=
  match s with
  | String a (String b rest) =>
      match digit a, digit b with
      | Some 1, Some d => if d <=? 2 then Some (10 + d, rest) else Some (1, String b rest)
      | Some 0, Some d => if 1 <=? d then Some (d, rest) else None
      | Some 0, None => None
      | Some d, _ => Some (d, String b rest)
      | None, _ => None
      end
  | String a EmptyString =>
      match digit a with
      | Some 0 => None
      | Some d => Some (d, EmptyString)
      | None => None
      end
  | EmptyString => None
  end.

(** [%d]: [3[01]|[12]\d|0[1-9]|[1-9]| [1-9]] *)
Definition read_day (s : string) : option (Z * string) :=
  match s with
  | String a (String b rest) =>
      match digit a, digit b with
      | Some 3, Some d => if d <=? 1 then Some (30 + d, rest) else Some (3, String b rest)
      | Some 0, Some d => if 1 <=? d then Some (d, rest) else None
      | Some 0, None => None
      | Some d1, Some d2 =>
          if d1 <=? 2 then Some (10 * d1 + d2, rest) else Some (d1, String b rest)
      | Some d, None => Some (d, String b rest)
      | None, Some d =>
          if Ascii.eqb a " " && (1 <=? d) then Some (d, rest) else None
      | None, None => None
      end
  | String a EmptyString =>
      match digit a with
      | Some 0 => None
      | Some d => Some (d, EmptyString)
      | None => None
      end
  | EmptyString => None
  end.

Definition strptime_ymd (s : string) : option datetime :=
  match s with
  | String y1 (String y2 (String y3 (String y4 (String "-" rest)))) =>
      match digit y1, digit y2, digit y3, digit y4 with
      | Some a, Some b, Some c, Some d =>
          let y := 1000 * a + 100 * b + 10 * c + d in
          match read_month rest with
          | Some (m, String "-" rest') =>
              match read_day rest' with
              | Some (dd, EmptyString) =>
                  if (1 <=? y) && (dd <=? days_in_month y m)
                  then Some (Datetime y m dd)
                  else None
              | _ => None
              end
          | _ => None
          end
      | _, _, _, _ => None
      end
  | _ => None
  end.

Definition quote : string := String (ascii_of_nat 34) EmptyString.

(** The text [{"risk_score": 20}]. *)
Definition low_risk_text : string :=
  "{" +:+ quote +:+ "risk_score" +:+ quote +:+ ": 20}".

(** A decoder that knows three texts, enough for the runs below. *)
Definition sample_json_loads (s : string) : string + pyval :=
  if String.eqb s low_risk_text then inr (PyDict (dict_of [("risk_score", PyInt 20)]))
  else if String.eqb s "{}" then inr (PyDict ∅)
  else if String.eqb s "[]" then inr (PyList [])
  else inl "Expecting value: line 1 column 1 (char 0)".

Definition sample_identity : pydict :=
  dict_of [("full_name", PyStr "Ada Martin"); ("date_of_birth", PyStr "1990-02-03");
           ("document_number", PyStr "X123")].

Definition sample_income : pydict :=
  dict_of [("applicant_name", PyStr "A. Martin"); ("employer_name", PyStr "Acme");
           ("job_title", PyStr "Engineer"); ("monthly_gross_income", PyInt 3000);
           ("employment_start_date", PyStr "2020-01-15")].

Definition sample_bank : pydict :=
  dict_of [("account_holder_name", PyStr "Ada Martin"); ("average_balance", PyInt 12000);
           ("recurring_loan_payments", PyInt 200)].

(** The document service answers each request with one page whose first
    image carries the record for the schema asked for. *)
Definition sample_docai (p : docai_payload) : result pyval :=
  let record :=
    if String.eqb (dp_schema_name p) "identity_extraction" then sample_identity
    else if String.eqb (dp_schema_name p) "income_extraction" then sample_income
    else sample_bank in
  Ok (PyDict (dict_of [("pages", PyList [PyDict (dict_of [
        ("images", PyList [PyDict (dict_of [("image_annotation", PyDict record)])]) ])])])).

(** The answer of the reasoning model wrapped as the API wraps it. *)
Definition chat_response (content : pyval) : pyval :=
  PyDict (dict_of [("choices", PyList [PyDict (dict_of [
    ("message", PyDict (dict_of [("content", content)])) ])])]).

(** Everything up: the model answers [low_risk_text] inside a code fence. *)
Definition sample_env : Env :=
  {| now := Datetime 2024 6 15;
     utcnow := Datetime 2024 6 15;
     strptime := strptime_ymd;
     isoformat := fun _ => "2024-06-15T12:00:00";
     json_loads := sample_json_loads;
     json_dumps := fun _ => "{...}";
     b64encode := fun bytes => bytes;
     docai_post := sample_docai;
     ministral_post := fun _ =>
       Ok (chat_response (PyStr ("```json" +:+ low_risk_text +:+ "```")));
     mongo_client := Ok tt;
     object_id := "65f0c0ffee";
     mongo_insert := fun _ => Ok "65f0c0ffee" |}.

(** The same world with another reasoning model, or another database. *)
Definition with_ministral (env : Env) (post : chat_payload -> result pyval) : Env :=
  {| now := now env; utcnow := utcnow env; strptime := strptime env;
     isoformat := isoformat env; json_loads := json_loads env;
     json_dumps := json_dumps env; b64encode := b64encode env;
     docai_post := docai_post env; ministral_post := post;
     mongo_client := mongo_client env; object_id := object_id env;
     mongo_insert := mongo_insert env |}.

Definition with_mongo_insert (env : Env) (ins : pydict -> result string) : Env :=
  {| now := now env; utcnow := utcnow env; strptime := strptime env;
     isoformat := isoformat env; json_loads := json_loads env;
     json_dumps := json_dumps env; b64encode := b64encode env;
     docai_post := docai_post env; ministral_post := ministral_post env;
     mongo_client := mongo_client env; object_id := object_id env;
     mongo_insert := ins |}.

Definition fresh_session (bank_file : option string) : Session :=
  {| ss_identity_file := Some "%PDF-id"; ss_income_file := Some "%PDF-pay";
     ss_bank_file := bank_file; ss_processing_complete := false;
     ss_combined_data := PyNone; ss_risk_assessment := PyNone;
     ss_application_id := PyNone |}.

Definition fresh_world (bank_file : option string) : World :=
  {| heap := ∅; events := []; collection := []; session := fresh_session bank_file |}.


(** * Vocabulary of the properties *)

(** The profile before the bank fields are added. *)
Definition base_profile (env : Env) (identity_data income_data : pydict)
    (net_default : float) : pydict :=
  dict_of [
     ("full_name", dict_get identity_data "full_name"
                     (dict_get income_data "applicant_name" (PyStr "Unknown")));
     ("date_of_birth", dict_get identity_data "date_of_birth" (PyStr ""));
     ("document_number", dict_get identity_data "document_number" (PyStr ""));
     ("address", dict_get identity_data "address" (PyStr ""));
     ("employer_name", dict_get income_data "employer_name" (PyStr ""));
     ("job_title", dict_get income_data "job_title" (PyStr ""));
     ("monthly_gross_income", dict_get income_data "monthly_gross_income" (PyInt 0));
     ("monthly_net_income",
        dict_get income_data "monthly_net_income" (PyFloat net_default));
     ("employment_start_date", dict_get income_data "employment_start_date" (PyStr ""));
     ("employment_months",
        PyInt (employment_months env
                 (dict_get income_data "employment_start_date" (PyStr ""))));
     ("contract_type", dict_get income_data "contract_type" (PyStr "unknown")) ].

(** The bank fields the profile receives. *)
Definition bank_update (bank_data : option pydict) : list (string * pyval) :=
  match bank_data with
  | Some bank => if truthy (PyDict bank) then bank_fields bank else no_bank_fields
  | None => no_bank_fields
  end.

(** The four fields that come from the bank statement. *)
Definition bank_keys : list string :=
  ["average_balance"; "total_expenses"; "recurring_loan_payments"; "overdraft_occurrences"].

(** The claim of C8 for a supplied bank record, as it is worded: each of
    the four fields is the record's value, or 0 when the record lacks it. *)
Definition supplied_bank_copied (env : Env) (identity_data income_data bank : pydict)
    : Prop :=
  forall combined key,
    combine_extracted_data env identity_data income_data (Some bank) = Ok combined ->
    In key bank_keys ->
    combined !! key = Some (dict_get bank key (PyInt 0)).

(** The claim of C4 on the sign, as it is worded. *)
Definition employment_months_non_negative (env : Env)
    (identity_data income_data : pydict) (bank_data : option pydict) : Prop :=
  forall combined,
    combine_extracted_data env identity_data income_data bank_data = Ok combined ->
    exists m, combined !! "employment_months" = Some (PyInt m) /\ 0 <= m.

Definition add_events (tr : list event) (w : World) : World :=
  {| heap := heap w; events := events w ++ tr;
     collection := collection w; session := session w |}.

(** The two [except] clauses of [extract_document_data]. *)
Definition wrap_extraction_error (e : exn) : exn :=
  if is_RequestException e
  then Raise Exception ("Document AI API error: " +:+ exn_msg e)
  else Raise Exception ("Extraction error: " +:+ exn_msg e).

Definition extraction_result (env : Env) (pdf_file : option string)
    (document_type : string) : result pyval :=
  match (pdf_bytes <- file_read pdf_file ;;
         sch <- lookup_schema document_type ;;
         response <- docai_post env
                       (build_docai_payload (b64encode env pdf_bytes) sch document_type) ;;
         read_extraction env response document_type)%result with
  | Ok record => Ok record
  | Err e => Err (wrap_extraction_error e)
  end.

Definition extraction_requests (env : Env) (pdf_file : option string)
    (document_type : string) : list event :=
  match file_read pdf_file, lookup_schema document_type with
  | Ok pdf_bytes, Ok sch =>
      [DocaiRequest (build_docai_payload (b64encode env pdf_bytes) sch document_type)]
  | _, _ => []
  end.

Definition risk_result (env : Env) (combined_data : pydict) (loan_amount : pyval)
    : result pyval :=
  (metrics <- analyze_risk_metrics combined_data loan_amount ;;
   let '(estimated_monthly_payment, total_debt, dti_ratio) := metrics in
   match (prompt <- build_prompt combined_data loan_amount
                      estimated_monthly_payment total_debt dti_ratio ;;
          response <- ministral_post env (build_chat_payload prompt) ;;
          read_assessment env response) with
   | Ok assessment => Ok assessment
   | Err e => risk_handlers dti_ratio e
   end)%result.

Definition risk_requests (env : Env) (combined_data : pydict) (loan_amount : pyval)
    : list event :=
  match analyze_risk_metrics combined_data loan_amount with
  | Ok (estimated_monthly_payment, total_debt, dti_ratio) =>
      match build_prompt combined_data loan_amount
              estimated_monthly_payment total_debt dti_ratio with
      | Ok prompt => [MinistralRequest (build_chat_payload prompt)]
      | Err _ => []
      end
  | Err _ => []
  end.

(** The text of the first choice, stripped (lines 321-326). *)
Definition first_choice_content (response : pyval) : result string :=
  (choices_ok <- has_nonempty "choices" response ;;
   if choices_ok : bool then
     choices <- py_getitem response "choices" ;;
     choice <- py_getitem0 choices ;;
     message <- py_getitem choice "message" ;;
     content <- py_getitem message "content" ;;
     py_strip content
   else Err (Raise ValueError "No response from Ministral-3B"))%result.

(** The ways the reasoning model fails that C3 speaks of: the call raises
    a transport error; the body of the response is not JSON; the text the
    model produced is not JSON. [e] is the exception raised. *)
Inductive model_failure (env : Env) (prompt : prompt) (e : exn) : Prop :=
| transport_failure :
    ministral_post env (build_chat_payload prompt) = Err e ->
    is_RequestException e = true ->
    model_failure env prompt e
| body_not_json :
    ministral_post env (build_chat_payload prompt) = Err e ->
    is_JSONDecodeError e = true ->
    model_failure env prompt e
| content_not_json response content :
    ministral_post env (build_chat_payload prompt) = Ok response ->
    first_choice_content response = Ok content ->
    json_loads env (strip_code_fences content) = inl (exn_msg e) ->
    exn_cls e = JSONDecodeError ->
    model_failure env prompt e.

(** A profile with the numbers of the example of C2. *)
Definition sample_profile : pydict :=
  dict_of [("monthly_gross_income", PyInt 3000); ("recurring_loan_payments", PyInt 200)].

(** The reasoning model cannot be reached. *)
Definition env_model_down : Env :=
  with_ministral sample_env (fun _ => Err (Raise RequestException "Read timed out."))%string.

(** The reasoning model answers with prose. *)
Definition env_model_prose : Env :=
  with_ministral sample_env (fun _ => Ok (chat_response (PyStr "I cannot assess this."))).

Definition stamped (env : Env) (d : pydict) : pydict :=
  <["created_at" := PyDatetime (utcnow env)]> d.

Definition with_id (env : Env) (d : pydict) : pydict :=
  match d !! "_id" with
  | Some _ => d
  | None => <["_id" := PyStr (object_id env)]> d
  end.

Definition wrap_mongo_error (e : exn) : exn :=
  Raise Exception ("MongoDB error: " +:+ exn_msg e).

(** A world in which reference 0 designates an application record. *)
Definition world_with_record : World :=
  {| heap := {[ 0%nat := dict_of [("loan_amount", PyInt 15000)] ]};
     events := []; collection := []; session := fresh_session None |}.

Definition identity_stage (env : Env) (s : Session) : result pydict :=
  (v <- extraction_result env (ss_identity_file s) "identity" ;; as_dict v)%result.

Definition income_stage (env : Env) (s : Session) : result pydict :=
  (v <- extraction_result env (ss_income_file s) "income" ;;
   d <- as_dict v ;;
   _ <- format_2f (dict_get d "monthly_gross_income" (PyInt 0)) ;;
   Ok d)%result.

Definition bank_stage (env : Env) (bank_file : option string) : result (option pydict) :=
  match bank_file with
  | Some _ =>
      (v <- extraction_result env bank_file "bank_statement" ;;
       d <- as_dict v ;;
       Ok (Some d))%result
  | None => Ok None
  end.

Definition bank_events (env : Env) (bank_file : option string) : list event :=
  match bank_file with
  | Some _ =>
      Spinner "Extracting bank statement..."
        :: extraction_requests env bank_file "bank_statement"
  | None => []
  end.

Definition score_stage (env : Env) (combined_data : pydict) (loan_amount : pyval)
    : result pyval :=
  (assessment <- risk_result env combined_data loan_amount ;;
   _ <- as_dict assessment ;;
   Ok assessment)%result.

Definition save_result (env : Env) (record : pydict) : result string :=
  match mongo_client env with
  | Ok _ =>
      match mongo_insert env (with_id env (stamped env record)) with
      | Ok inserted_id => Ok inserted_id
      | Err e => Err (wrap_mongo_error e)
      end
  | Err e => Err (wrap_mongo_error e)
  end.

Definition save_events (env : Env) (record : pydict) : list event :=
  match mongo_client env with
  | Ok _ => [MongoInsert (with_id env (stamped env record))]
  | Err _ => []
  end.

Definition pipeline (env : Env) (s : Session) (loan_amount : pyval)
    : list event * result (pydict * pyval * string) :=
  let t1 := Spinner "Extracting identity document..."
              :: extraction_requests env (ss_identity_file s) "identity" in
  match identity_stage env s with
  | Err e => (t1, Err e)
  | Ok identity_data =>
  let t2 := t1 ++ Spinner "Extracting income document..."
              :: extraction_requests env (ss_income_file s) "income" in
  match income_stage env s with
  | Err e => (t2, Err e)
  | Ok income_data =>
  let t3 := t2 ++ bank_events env (ss_bank_file s) in
  match bank_stage env (ss_bank_file s) with
  | Err e => (t3, Err e)
  | Ok bank_data =>
  let t4 := t3 ++ [Spinner "Combining extracted data..."] in
  match combine_extracted_data env identity_data income_data bank_data with
  | Err e => (t4, Err e)
  | Ok combined_data =>
  let t5 := t4 ++ Spinner "Analyzing risk with Ministral-3B..."
              :: risk_requests env combined_data loan_amount in
  match score_stage env combined_data loan_amount with
  | Err e => (t5, Err e)
  | Ok risk_assessment =>
  let record := application_record combined_data risk_assessment loan_amount in
  let t6 := t5 ++ Spinner "Saving to database..." :: save_events env record in
  match save_result env record with
  | Err e => (t6, Err e)
  | Ok application_id => (t6, Ok (combined_data, risk_assessment, application_id))
  end end end end end end.

(** How a run changed what can be observed of the world. *)
Definition run_matches (w : World) (tr : list event) (saved : list pydict)
    (s' : Session) (w' : World) : Prop :=
  events w' = events w ++ tr /\
  collection w' = collection w ++ saved /\
  session w' = s'.

(** What an event is, without its payload. *)
Inductive kind :=
| KSpinner (msg : string)
| KDocai (schema_name : string)
| KMinistral
| KMongo
| KError.

Definition kind_of (e : event) : kind :=
  match e with
  | Spinner msg => KSpinner msg
  | DocaiRequest p => KDocai (dp_schema_name p)
  | MinistralRequest _ => KMinistral
  | MongoInsert _ => KMongo
  | UiError _ => KError
  end.

Definition has_bank (s : Session) : bool :=
  match ss_bank_file s with
  | Some _ => true
  | None => false
  end.

(** The extraction steps in order; the bank statement only when one was
    uploaded. *)
Definition extraction_plan (bank : bool) : list kind :=
  [KSpinner "Extracting identity document..."; KDocai "identity_extraction"] ++
  [KSpinner "Extracting income document..."; KDocai "income_extraction"] ++
  (if bank
   then [KSpinner "Extracting bank statement..."; KDocai "bank_statement_extraction"]
   else []).

(** Combine, score, persist. *)
Definition decision_plan : list kind :=
  [KSpinner "Combining extracted data..."] ++
  [KSpinner "Analyzing risk with Ministral-3B..."; KMinistral] ++
  [KSpinner "Saving to database..."; KMongo].

Definition pipeline_plan (bank : bool) : list kind :=
  extraction_plan bank ++ decision_plan.

(** One of the extractions of the run fails. *)
Definition extraction_fails (env : Env) (s : Session) : Prop :=
  (exists e, extraction_result env (ss_identity_file s) "identity" = Err e) \/
  (exists e, extraction_result env (ss_income_file s) "income" = Err e) \/
  (exists e, has_bank s = true /\
             extraction_result env (ss_bank_file s) "bank_statement" = Err e).

Definition with_docai (env : Env) (post : docai_payload -> result pyval) : Env :=
  {| now := now env; utcnow := utcnow env; strptime := strptime env;
     isoformat := isoformat env; json_loads := json_loads env;
     json_dumps := json_dumps env; b64encode := b64encode env;
     docai_post := post; ministral_post := ministral_post env;
     mongo_client := mongo_client env; object_id := object_id env;
     mongo_insert := mongo_insert env |}.

(** The document service answers for the identity document and is
    unavailable for the pay slip. *)
Definition env_income_unreadable : Env :=
  with_docai sample_env (fun p =>
    if String.eqb (dp_schema_name p) "income_extraction"
    then Err (Raise RequestException "503 Server Error: Service Unavailable")
    else sample_docai p).

(** Everything up to the scoring went through, with this profile and
    this assessment. *)
Definition scoring_completed (env : Env) (s : Session) (loan_amount : pyval)
    (combined_data : pydict) (risk_assessment : pyval) : Prop :=
  exists identity_data income_data bank_data,
    identity_stage env s = Ok identity_data /\
    income_stage env s = Ok income_data /\
    bank_stage env (ss_bank_file s) = Ok bank_data /\
    combine_extracted_data env identity_data income_data bank_data = Ok combined_data /\
    score_stage env combined_data loan_amount = Ok risk_assessment.

(** The claim of C5 on the export, as it is worded: after a save that
    failed, the pass of the script offers the report of the profile and
    the assessment just computed. *)
Definition results_exportable_after_failed_save (env : Env) (ui : Ui)
    (loan_amount : pyval) (w : World) : Prop :=
  forall combined_data risk_assessment e,
    scoring_completed env (session w) loan_amount combined_data risk_assessment ->
    save_result env (application_record combined_data risk_assessment loan_amount) = Err e ->
    (main env ui true loan_amount w).1
      = Ok (Shown (Some (generate_download_report env (PyDict combined_data)
                           risk_assessment))).

(** The database refuses the insert. *)
Definition env_db_down : Env :=
  with_mongo_insert sample_env
    (fun _ => Err (Raise PyMongoError "localhost:27017: [Errno 111] Connection refused")).

(** The reasoning model answers HTTP 200 with an empty list of choices. *)
Definition env_no_choices : Env :=
  with_ministral sample_env (fun _ => Ok (PyDict (dict_of [("choices", PyList [])]))).




(** A record has no name under [key]: the key is missing, or its value
    is null. *)
Definition nameless (record : pydict) (key : string) : Prop :=
  record !! key = None \/ record !! key = Some PyNone.

(** The claim of C9 on the first fall-back, as it is worded: when the
    identity record has no name, the profile takes the applicant name of
    the income record. *)
Definition falls_back_to_applicant_name (env : Env) (identity_data income_data : pydict)
    (bank_data : option pydict) : Prop :=
  nameless identity_data "full_name" ->
  forall n combined,
    income_data !! "applicant_name" = Some (PyStr n) ->
    combine_extracted_data env identity_data income_data bank_data = Ok combined ->
    combined !! "full_name" = Some (PyStr n).

(** An identity record whose name the document service returned as null. *)
Definition identity_without_name : pydict := <["full_name" := PyNone]> sample_identity.

(** The claim of C10 on the frame, as it is worded: after the call the
    caller's dictionary has its timestamp, and every other key is as it
    was. *)
Definition only_created_at_added (env : Env) (l : nat) (d : pydict) (w : World) : Prop :=
  exists doc,
    heap (save_to_mongodb env l w).2 !! l = Some doc /\
    doc !! "created_at" = Some (PyDatetime (utcnow env)) /\
    forall k, k <> "created_at" -> doc !! k = d !! k.

(** The steps of the three extractions. *)
Definition identity_steps : list kind :=
  [KSpinner "Extracting identity document..."; KDocai "identity_extraction"].

Definition income_steps : list kind :=
  [KSpinner "Extracting income document..."; KDocai "income_extraction"].

Definition bank_steps : list kind :=
  [KSpinner "Extracting bank statement..."; KDocai "bank_statement_extraction"].

(** The two messages of the [except] clause of the handler. *)
Definition failure_shown (e : exn) : list event :=
  [UiError ("Error during processing: " +:+ exn_msg e);
   UiError "Please check your documents and try again."].

(** The client cannot be built. *)
Definition env_no_client : Env :=
  {| now := now sample_env; utcnow := utcnow sample_env; strptime := strptime sample_env;
     isoformat := isoformat sample_env; json_loads := json_loads sample_env;
     json_dumps := json_dumps sample_env; b64encode := b64encode sample_env;
     docai_post := docai_post sample_env; ministral_post := ministral_post sample_env;
     mongo_client := Err (Raise PyMongoError "MONGODB_URI is not set");
     object_id := object_id sample_env; mongo_insert := mongo_insert sample_env |}.

(** * Vocabulary of the further properties *)

(** What an annotation is worth: a string is decoded, anything else is
    the record. *)
Definition annotation_record (env : Env) (ann : pyval) : result pyval :=
  match ann with
  | PyStr txt => py_json_loads env txt
  | _ => Ok ann
  end.

(** The first page of a decoded answer. *)
Definition first_page (response : pyval) (page : pydict) : Prop :=
  exists r rest, response = PyDict r /\ r !! "pages" = Some (PyList (PyDict page :: rest)).

(** A page none of whose images carries an annotation. *)
Definition unannotated (page : pydict) : Prop :=
  page !! "images" = None \/
  exists images : list pydict,
    page !! "images" = Some (PyList (map PyDict images)) /\
    Forall (fun img : pydict => img !! "image_annotation" = None) images.

(** An answer without any page. *)
Definition no_pages (response : pyval) : Prop :=
  exists r, response = PyDict r /\
    (r !! "pages" = None \/ r !! "pages" = Some (PyList [])).

(** A service that returns the text of the page and no annotation. *)
Definition env_markdown_only : Env :=
  with_docai sample_env (fun _ =>
    Ok (PyDict (dict_of [("pages", PyList [PyDict (dict_of [
          ("images", PyList []); ("markdown", PyStr "# Pay slip") ])])]))).

(** A first page that is blank, followed by a page with text. *)
Definition env_blank_first_page : Env :=
  with_docai sample_env (fun _ =>
    Ok (PyDict (dict_of [("pages", PyList [
          PyDict (dict_of [("index", PyInt 0)]);
          PyDict (dict_of [("index", PyInt 1); ("markdown", PyStr "# Pay slip")]) ])]))).

(** The keys [combine_extracted_data] reads in its first two arguments. *)
Definition identity_fields_read : list string :=
  ["full_name"; "date_of_birth"; "document_number"; "address"].

Definition income_fields_read : list string :=
  ["applicant_name"; "employer_name"; "job_title"; "monthly_gross_income";
   "monthly_net_income"; "employment_start_date"; "contract_type"].

(** The classes of the errors raised while the text of the first choice
    is looked for. *)
Definition reading_error (e : exn) : Prop :=
  exn_cls e = ValueError \/ exn_cls e = TypeError \/ exn_cls e = KeyError \/
  exn_cls e = IndexError \/ exn_cls e = AttributeError.

(** The model answers with a choice whose content is null. *)
Definition env_null_content : Env :=
  with_ministral sample_env (fun _ => Ok (chat_response PyNone)).

(** The model answers with a choice that has no message. *)
Definition env_no_message : Env :=
  with_ministral sample_env (fun _ =>
    Ok (PyDict (dict_of [("choices", PyList [PyDict (dict_of [("index", PyInt 0)])])]))).

(** A string of white space only. *)
Fixpoint blank (s : string) : bool :=
  match s with
  | EmptyString => true
  | String a s' => py_isspace a && blank s'
  end.

(** A character that is neither white space nor a backquote. *)
Definition solid (a : ascii) : bool :=
  negb (py_isspace a) && negb (Ascii.eqb a "`").

(** A text that begins with [a] and ends with [z]. *)
Definition delimited (a z : ascii) (text : string) : Prop :=
  (exists rest, text = String a rest) /\ (exists front, text = front +:+ String z "").

(** The reasoning model answers with the JSON text of an empty object. *)
Definition env_empty_answer : Env :=
  with_ministral sample_env (fun _ => Ok (chat_response (PyStr "{}"))).

(** The text [{"risk_score": "high"}]. *)
Definition worded_score_text : string :=
  "{" +:+ quote +:+ "risk_score" +:+ quote +:+ ": " +:+ quote +:+ "high" +:+ quote +:+ "}".

(** The reasoning model gives the score in words. *)
Definition env_worded_score : Env :=
  {| now := now sample_env; utcnow := utcnow sample_env; strptime := strptime sample_env;
     isoformat := isoformat sample_env;
     json_loads := fun s =>
       if String.eqb s worded_score_text
       then inr (PyDict (dict_of [("risk_score", PyStr "high")]))
       else sample_json_loads s;
     json_dumps := json_dumps sample_env; b64encode := b64encode sample_env;
     docai_post := docai_post sample_env;
     ministral_post := fun _ => Ok (chat_response (PyStr worded_score_text));
     mongo_client := mongo_client sample_env;
     object_id := object_id sample_env; mongo_insert := mongo_insert sample_env |}.



(** The document service returns the salary as a text. *)
Definition income_with_text_salary : pydict :=
  <["monthly_gross_income" := PyStr "3000 EUR"]> sample_income.

Definition env_salary_as_text : Env :=
  with_docai sample_env (fun p =>
    if String.eqb (dp_schema_name p) "income_extraction"
    then Ok (PyDict (dict_of [("pages", PyList [PyDict (dict_of [
           ("images", PyList [PyDict (dict_of [
              ("image_annotation", PyDict income_with_text_salary)])]) ])])]))
    else sample_docai p).

(** * The upload section of [main]

    Lines 566-606: each of the three uploaders returns the file it holds,
    or [None]; a file is stored in the session, and nothing is done to the
    session when the uploader is empty. *)

(** What the three uploaders hold during one pass of the script. *)
Record uploads := Uploads {
  up_identity : option string;
  up_income : option string;
  up_bank : option string
}.

(** [if f: st.session_state.x = f] *)
Definition keep_or_store (uploaded stored : option string) : option string :=
  match uploaded with
  | Some f => Some f
  | None => stored
  end.

Definition store_uploads (s : Session) (u : uploads) : Session :=
  {| ss_identity_file := keep_or_store (up_identity u) (ss_identity_file s);
     ss_income_file := keep_or_store (up_income u) (ss_income_file s);
     ss_bank_file := keep_or_store (up_bank u) (ss_bank_file s);
     ss_processing_complete := ss_processing_complete s;
     ss_combined_data := ss_combined_data s;
     ss_risk_assessment := ss_risk_assessment s;
     ss_application_id := ss_application_id s |}.

(** The session after a series of passes, oldest first. *)
Definition after_passes (s : Session) (passes : list uploads) : Session :=
  fold_left store_uploads passes s.

(** The last file an uploader held over a series of passes, if any. *)
Definition last_upload (field : uploads -> option string) (passes : list uploads)
    : option string :=
  fold_left (fun found u => keep_or_store (field u) found) passes None.

(** * Properties *)

Lemma Ok_inj {A} (a b : A) : Ok a = Ok b -> a = b.
Proof. intros H. now injection H. Qed.

Lemma Ok_not_Err {A} (a : A) e : Ok a <> Err e.
Proof. discriminate. Qed.

(** ** Dictionaries *)

Lemma dict_get_Some (d : pydict) key default v :
  d !! key = Some v -> dict_get d key default = v.
Proof. intros H. unfold dict_get. now rewrite H. Qed.

Lemma dict_get_None (d : pydict) key default :
  d !! key = None -> dict_get d key default = default.
Proof. intros H. unfold dict_get. now rewrite H. Qed.

Lemma dict_update_cons (d : pydict) k v kvs :
  dict_update d ((k, v) :: kvs) = dict_update (<[k := v]> d) kvs.
Proof. reflexivity. Qed.

Lemma dict_update_nil (d : pydict) : dict_update d [] = d.
Proof. reflexivity. Qed.

(** A key that the update does not mention keeps its value. *)
Lemma dict_update_other (kvs : list (string * pyval)) (d : pydict) key :
  Forall (fun kv => kv.1 <> key) kvs -> dict_update d kvs !! key = d !! key.
Proof.
  revert d. induction kvs as [|[k v] kvs IH]; intros d Hall.
  - reflexivity.
  - inversion Hall as [|? ? Hk Hrest]; subst. rewrite dict_update_cons, IH by assumption.
    now apply lookup_insert_ne.
Qed.

(** The last pair for a key decides. *)
Lemma dict_update_last (kvs : list (string * pyval)) (d : pydict) key v :
  Forall (fun kv => kv.1 <> key) kvs ->
  dict_update (<[key := v]> d) kvs !! key = Some v.
Proof.
  intros Hall. rewrite dict_update_other by assumption. apply lookup_insert_eq.
Qed.

(** Looks a literal key up in a dictionary display or update. *)
Ltac dict_lookup :=
  unfold dict_of;
  repeat rewrite dict_update_cons;
  rewrite ?dict_update_nil;
  repeat (rewrite lookup_insert_ne by discriminate);
  rewrite ?lookup_insert_eq, ?lookup_empty;
  try reflexivity.

Lemma truthy_dict_empty : truthy (PyDict ∅) = false.
Proof. reflexivity. Qed.

Lemma truthy_dict (d : pydict) : truthy (PyDict d) = false <-> d = ∅.
Proof.
  cbn [truthy]. rewrite negb_false_iff, Nat.eqb_eq. apply map_size_empty_iff.
Qed.

(** ** [combine_extracted_data] *)

(** [combine_extracted_data] returns exactly when the default for the net
    income can be computed, and then it returns the base profile updated
    with the bank fields. *)
Lemma combine_inv env identity_data income_data bank_data combined :
  combine_extracted_data env identity_data income_data bank_data = Ok combined ->
  exists net_default,
    py_mul_float (dict_get income_data "monthly_gross_income" (PyInt 0)) net_income_ratio
      = Ok net_default /\
    combined = dict_update (base_profile env identity_data income_data net_default)
                 (bank_update bank_data).
Proof.
  unfold combine_extracted_data. intros H.
  destruct (py_mul_float _ net_income_ratio) as [nd|e] eqn:Hnd; cbn [rbind] in H; [|discriminate].
  exists nd. split; [reflexivity|].
  apply Ok_inj in H. subst combined. unfold bank_update, base_profile.
  destruct bank_data as [bank|]; [destruct (truthy (PyDict bank))|]; reflexivity.
Qed.

(** A gross income that is a number (or missing) is all it needs. *)
Lemma combine_returns env identity_data income_data bank_data f :
  as_float (dict_get income_data "monthly_gross_income" (PyInt 0)) = Ok f ->
  exists combined,
    combine_extracted_data env identity_data income_data bank_data = Ok combined.
Proof.
  intros Hf. unfold combine_extracted_data, py_mul_float. rewrite Hf. cbn [rbind].
  eexists. reflexivity.
Qed.

Lemma bank_update_keys bank_data key :
  key <> "average_balance" -> key <> "total_expenses" ->
  key <> "recurring_loan_payments" -> key <> "overdraft_occurrences" ->
  Forall (fun kv : string * pyval => kv.1 <> key) (bank_update bank_data).
Proof.
  intros H1 H2 H3 H4. unfold bank_update.
  destruct bank_data as [bank|]; [destruct (truthy (PyDict bank))|];
    repeat constructor; cbn; congruence.
Qed.

(** A field of the base profile survives the bank update. *)
Lemma combined_base_field env identity_data income_data bank_data combined key :
  combine_extracted_data env identity_data income_data bank_data = Ok combined ->
  key <> "average_balance" -> key <> "total_expenses" ->
  key <> "recurring_loan_payments" -> key <> "overdraft_occurrences" ->
  exists net_default,
    combined !! key = base_profile env identity_data income_data net_default !! key.
Proof.
  intros H H1 H2 H3 H4. apply combine_inv in H as (nd & _ & ->).
  exists nd. apply dict_update_other. now apply bank_update_keys.
Qed.

(** A null name in the identity record is not replaced by the applicant
    name of the income record: [dict.get] falls back only when the key is
    missing. *)
Lemma C9_counterexample :
  ~ falls_back_to_applicant_name sample_env identity_without_name sample_income None.
Proof.
  intros Hclaim.
  destruct (combine_returns sample_env identity_without_name sample_income None 3000%float)
    as [combined Hc]; [vm_compute; reflexivity|].
  assert (identity_without_name !! "full_name" = Some PyNone) as Hnull
    by apply lookup_insert_eq.
  assert (combined !! "full_name" = Some (PyStr "A. Martin")) as Hname.
  { apply (Hclaim (or_intror Hnull) "A. Martin" combined);
      [vm_compute; reflexivity | exact Hc]. }
  destruct (combined_base_field _ _ _ _ _ "full_name" Hc) as [nd Hk]; try discriminate.
  rewrite Hname in Hk. unfold base_profile in Hk. revert Hk. dict_lookup.
  rewrite (dict_get_Some _ _ _ _ Hnull). discriminate.
Qed.

(** C9 (amended): for records whose gross income is a number (otherwise
    the function raises before it returns anything) combine_extracted_data
    returns a profile whose full_name is decided by which keys the records
    have: the value under full_name of the identity record when that key
    is there, whatever the value (a null or an empty name is passed on as
    it is); else the value under applicant_name of the income record when
    that key is there; else the literal "Unknown". *)
Theorem C9_full_name_resolution env identity_data income_data bank_data gross :
  as_float (dict_get income_data "monthly_gross_income" (PyInt 0)) = Ok gross ->
  exists combined,
    combine_extracted_data env identity_data income_data bank_data = Ok combined /\
    (forall n, identity_data !! "full_name" = Some n ->
       combined !! "full_name" = Some n) /\
    (forall n, identity_data !! "full_name" = None ->
       income_data !! "applicant_name" = Some n ->
       combined !! "full_name" = Some n) /\
    (identity_data !! "full_name" = None ->
     income_data !! "applicant_name" = None ->
     combined !! "full_name" = Some (PyStr "Unknown")).
Proof.
  intros Hgross.
  destruct (combine_returns env identity_data income_data bank_data gross Hgross)
    as [combined H].
  exists combined. split; [exact H|].
  destruct (combined_base_field _ _ _ _ _ "full_name" H) as [nd Hk]; try discriminate.
  rewrite Hk. unfold base_profile. dict_lookup.
  repeat split.
  - intros n Hn. now rewrite (dict_get_Some _ _ _ _ Hn).
  - intros n Hid Hn. now rewrite (dict_get_None _ _ _ Hid), (dict_get_Some _ _ _ _ Hn).
  - intros Hid Hinc. now rewrite (dict_get_None _ _ _ Hid), (dict_get_None _ _ _ Hinc).
Qed.

(** The three sources of the name, on the sample records: both records
    name the applicant and the identity record wins; the identity record
    has no name and the pay slip gives it; neither has one. And a null
    name is passed on. *)
Lemma C9_witness :
  (exists combined,
     combine_extracted_data sample_env sample_identity sample_income None = Ok combined /\
     combined !! "full_name" = Some (PyStr "Ada Martin")) /\
  (exists combined,
     combine_extracted_data sample_env (delete "full_name" sample_identity) sample_income
       None = Ok combined /\
     combined !! "full_name" = Some (PyStr "A. Martin")) /\
  (exists combined,
     combine_extracted_data sample_env (delete "full_name" sample_identity)
       (delete "applicant_name" sample_income) None = Ok combined /\
     combined !! "full_name" = Some (PyStr "Unknown")) /\
  (exists combined,
     combine_extracted_data sample_env identity_without_name sample_income None
       = Ok combined /\
     combined !! "full_name" = Some PyNone).
Proof.
  split; [|split; [|split]].
  - destruct (C9_full_name_resolution sample_env sample_identity sample_income None
                3000%float) as (combined & Hc & Hid & _); [vm_compute; reflexivity|].
    exists combined. split; [exact Hc|]. apply Hid. vm_compute. reflexivity.
  - destruct (C9_full_name_resolution sample_env (delete "full_name" sample_identity)
                sample_income None 3000%float) as (combined & Hc & _ & Hinc & _);
      [vm_compute; reflexivity|].
    exists combined. split; [exact Hc|].
    apply Hinc; [apply lookup_delete_eq | vm_compute; reflexivity].
  - destruct (C9_full_name_resolution sample_env (delete "full_name" sample_identity)
                (delete "applicant_name" sample_income) None 3000%float)
      as (combined & Hc & _ & _ & Hnone); [vm_compute; reflexivity|].
    exists combined. split; [exact Hc|].
    apply Hnone; apply lookup_delete_eq.
  - destruct (C9_full_name_resolution sample_env identity_without_name sample_income None
                3000%float) as (combined & Hc & Hid & _); [vm_compute; reflexivity|].
    exists combined. split; [exact Hc|]. apply Hid. apply lookup_insert_eq.
Defined.

(** An empty bank record is supplied, yet the profile holds null where
    the wording promises 0. *)
Lemma C8_counterexample :
  ~ supplied_bank_copied sample_env sample_identity sample_income ∅.
Proof.
  intros H.
  destruct (combine_returns sample_env sample_identity sample_income (Some ∅) 3000%float)
    as [combined E]; [vm_compute; reflexivity|].
  specialize (H combined "average_balance" E (or_introl eq_refl)).
  apply combine_inv in E as (nd & _ & ->).
  vm_compute in H. discriminate H.
Qed.

(** C8 (amended): without a bank record, and with an empty one, the
    profile has average_balance, total_expenses and overdraft_occurrences
    null and recurring_loan_payments 0; with a non-empty bank record each
    of the four fields is the record's value when the record has the key
    and 0 when it has not. *)
Theorem C8_bank_fields env identity_data income_data bank_data combined :
  combine_extracted_data env identity_data income_data bank_data = Ok combined ->
  (bank_data = None \/ bank_data = Some ∅ ->
     combined !! "average_balance" = Some PyNone /\
     combined !! "total_expenses" = Some PyNone /\
     combined !! "recurring_loan_payments" = Some (PyInt 0) /\
     combined !! "overdraft_occurrences" = Some PyNone) /\
  (forall bank key, bank_data = Some bank -> bank <> ∅ -> In key bank_keys ->
     (forall v, bank !! key = Some v -> combined !! key = Some v) /\
     (bank !! key = None -> combined !! key = Some (PyInt 0))).
Proof.
  intros H. apply combine_inv in H as (nd & _ & ->). split.
  - intros Hnone.
    assert (bank_update bank_data = no_bank_fields) as ->.
    { destruct Hnone as [-> | ->]; reflexivity. }
    unfold no_bank_fields. repeat split; dict_lookup.
  - intros bank key -> Hne Hkey.
    assert (truthy (PyDict bank) = true) as Ht.
    { destruct (truthy (PyDict bank)) eqn:E; [reflexivity|].
      apply truthy_dict in E. contradiction. }
    assert (dict_update (base_profile env identity_data income_data nd)
              (bank_update (Some bank)) !! key = Some (dict_get bank key (PyInt 0))) as Hk.
    { unfold bank_update. rewrite Ht. unfold bank_fields.
      cbn [bank_keys In] in Hkey.
      destruct Hkey as [<- | [<- | [<- | [<- | []]]]]; dict_lookup. }
    rewrite Hk. split.
    + intros v Hv. now rewrite (dict_get_Some _ _ _ _ Hv).
    + intros Hv. now rewrite (dict_get_None _ _ _ Hv).
Qed.

(** A bank record with an average balance of 12000 passes it on, and its
    missing total_expenses becomes 0. *)
Lemma C8_witness :
  exists combined,
    combine_extracted_data sample_env sample_identity sample_income (Some sample_bank)
      = Ok combined /\
    combined !! "average_balance" = Some (PyInt 12000) /\
    combined !! "total_expenses" = Some (PyInt 0).
Proof.
  assert (sample_bank <> ∅) as Hne.
  { intros E. apply (f_equal (fun d : pydict => d !! "average_balance")) in E.
    vm_compute in E. discriminate E. }
  destruct (combine_returns sample_env sample_identity sample_income (Some sample_bank)
              3000%float) as [combined H]; [vm_compute; reflexivity|].
  exists combined. split; [exact H|].
  destruct (C8_bank_fields _ _ _ _ _ H) as [_ Hbank]. split.
  - apply (Hbank sample_bank "average_balance" eq_refl Hne);
      [cbn; tauto | vm_compute; reflexivity].
  - apply (Hbank sample_bank "total_expenses" eq_refl Hne);
      [cbn; tauto | vm_compute; reflexivity].
Defined.

(** ** Employment duration *)

(** The bare [except] makes the duration a total function: whatever the
    parser does, a number comes out. *)
Lemma employment_months_unparsed env employment_start e :
  py_strptime env employment_start = Err e ->
  employment_months env employment_start = 0.
Proof.
  intros H. unfold employment_months. rewrite H. cbn [rbind rcatch].
  now destruct (truthy employment_start).
Qed.

Lemma employment_months_falsy env employment_start :
  truthy employment_start = false ->
  employment_months env employment_start = 0.
Proof. intros H. unfold employment_months. now rewrite H. Qed.

Lemma employment_months_parsed env employment_start d :
  truthy employment_start = true ->
  py_strptime env employment_start = Ok d ->
  employment_months env employment_start
    = (year (now env) - year d) * 12 + (month (now env) - month d).
Proof. intros Ht Hd. unfold employment_months. now rewrite Ht, Hd. Qed.

(** A start date after today (here 2031-01-01, read in June 2024) parses
    and gives a negative duration. *)
Lemma C4_counterexample :
  ~ employment_months_non_negative sample_env sample_identity
      (<["employment_start_date" := PyStr "2031-01-01"]> sample_income) None.
Proof.
  intros H.
  destruct (combine_returns sample_env sample_identity
              (<["employment_start_date" := PyStr "2031-01-01"]> sample_income) None
              3000%float) as [combined E]; [vm_compute; reflexivity|].
  destruct (H combined E) as (m & Hm & Hpos).
  destruct (combined_base_field _ _ _ _ _ "employment_months" E) as [nd Hk];
    try discriminate.
  rewrite Hk in Hm. vm_compute in Hm.
  apply (f_equal (fun o => match o with Some (PyInt z) => z | _ => 0 end)) in Hm.
  subst m. vm_compute in Hpos. now apply Hpos.
Qed.

(** C4 (amended): the profile always has employment_months, an integer.
    It is 0 when the start date is missing or empty and when it does not
    parse (whatever the value is, no exception leaves the computation);
    when the start date parses it is
    (now.year - start.year) * 12 + (now.month - start.month), which is
    non-negative exactly when the start month is not after the current
    month. *)
Theorem C4_employment_months env identity_data income_data bank_data combined :
  combine_extracted_data env identity_data income_data bank_data = Ok combined ->
  let start := dict_get income_data "employment_start_date" (PyStr "") in
  exists m,
    combined !! "employment_months" = Some (PyInt m) /\
    (income_data !! "employment_start_date" = None -> m = 0) /\
    (truthy start = false -> m = 0) /\
    (forall e, py_strptime env start = Err e -> m = 0) /\
    (forall d, truthy start = true -> py_strptime env start = Ok d ->
       m = (year (now env) - year d) * 12 + (month (now env) - month d) /\
       (0 <= m <-> year d * 12 + month d <= year (now env) * 12 + month (now env))).
Proof.
  intros H start.
  destruct (combined_base_field _ _ _ _ _ "employment_months" H) as [nd Hk];
    try discriminate.
  exists (employment_months env start). split.
  { rewrite Hk. unfold base_profile. dict_lookup. }
  split; [|split; [|split]].
  - intros Hnone. apply employment_months_falsy.
    subst start. now rewrite (dict_get_None _ _ _ Hnone).
  - apply employment_months_falsy.
  - intros e. apply employment_months_unparsed.
  - intros d Ht Hd. rewrite (employment_months_parsed _ _ _ Ht Hd). split; [reflexivity|lia].
Qed.

(** A malformed date gives 0; a date in January 2020 read in June 2024
    gives 53 months. *)
Lemma C4_witness :
  (exists combined,
     combine_extracted_data sample_env sample_identity
       (<["employment_start_date" := PyStr "15/01/2020"]> sample_income) None
       = Ok combined /\
     combined !! "employment_months" = Some (PyInt 0)) /\
  (exists combined,
     combine_extracted_data sample_env sample_identity sample_income None = Ok combined /\
     combined !! "employment_months" = Some (PyInt 53)).
Proof.
  split.
  - destruct (combine_returns sample_env sample_identity
                (<["employment_start_date" := PyStr "15/01/2020"]> sample_income) None
                3000%float) as [combined E]; [vm_compute; reflexivity|].
    exists combined. split; [exact E|].
    destruct (C4_employment_months _ _ _ _ _ E) as (m & Hm & _ & _ & Hbad & _).
    rewrite Hm. f_equal. f_equal.
    apply (Hbad (Raise ValueError "time data does not match format '%Y-%m-%d'")).
    vm_compute. reflexivity.
  - destruct (combine_returns sample_env sample_identity sample_income None 3000%float)
      as [combined E]; [vm_compute; reflexivity|].
    exists combined. split; [exact E|].
    destruct (C4_employment_months _ _ _ _ _ E) as (m & Hm & _ & _ & _ & Hgood).
    rewrite Hm. f_equal. f_equal.
    apply (Hgood (Datetime 2020 1 15)); vm_compute; reflexivity.
Defined.

(** ** The deterministic metrics *)

(** A float above zero is not zero. *)
Lemma float_pos_not_zero (f : float) :
  PrimFloat.ltb 0%float f = true -> PrimFloat.eqb f 0%float = false.
Proof.
  rewrite FloatAxioms.ltb_spec, FloatAxioms.eqb_spec.
  replace (FloatOps.Prim2SF 0%float) with (SpecFloat.S754_zero false)
    by (vm_compute; reflexivity).
  destruct (FloatOps.Prim2SF f) as [sg|sg| |sg m e]; cbn; try destruct sg; congruence.
Qed.

(** The guard [monthly_income > 0] excludes a division by zero. *)
Lemma gt_zero_not_zero (v : pyval) : py_gt_zero v = Ok true -> py_is_zero v = false.
Proof.
  destruct v as [|b|z|f| | | |]; cbn; intros H; try discriminate H; apply Ok_inj in H.
  - now rewrite H.
  - apply Z.eqb_neq. apply Z.ltb_lt in H. lia.
  - now apply float_pos_not_zero.
Qed.

(** C2: the deterministic phase computes
    estimated_monthly_payment = loan_amount * 0.02,
    total_debt = recurring_loan_payments + estimated_monthly_payment, and
    dti_ratio = total_debt / monthly_gross_income when the gross income is
    above 0, else 1.0; a gross income of 3000 with recurring payments of
    200 and a loan of 15000 gives 300, 500 and 500/3000. *)
Theorem C2_deterministic_metrics :
  (forall combined_data loan_amount a r,
     as_float loan_amount = Ok a ->
     as_float (dict_get combined_data "recurring_loan_payments" (PyInt 0)) = Ok r ->
     let income := dict_get combined_data "monthly_gross_income" (PyInt 0) in
     let payment := PrimFloat.mul a 0.02%float in
     let debt := PrimFloat.add r payment in
     (forall g, py_gt_zero income = Ok true -> as_float income = Ok g ->
        analyze_risk_metrics combined_data loan_amount
          = Ok (payment, debt, PrimFloat.div debt g)) /\
     (py_gt_zero income = Ok false ->
        analyze_risk_metrics combined_data loan_amount = Ok (payment, debt, 1%float))) /\
  (forall combined_data,
     combined_data !! "monthly_gross_income" = Some (PyInt 3000) ->
     combined_data !! "recurring_loan_payments" = Some (PyInt 200) ->
     analyze_risk_metrics combined_data (PyInt 15000)
       = Ok (300%float, 500%float, PrimFloat.div 500%float 3000%float)).
Proof.
  assert (forall combined_data loan_amount a r,
     as_float loan_amount = Ok a ->
     as_float (dict_get combined_data "recurring_loan_payments" (PyInt 0)) = Ok r ->
     let income := dict_get combined_data "monthly_gross_income" (PyInt 0) in
     let payment := PrimFloat.mul a payment_rate in
     let debt := PrimFloat.add r payment in
     (forall g, py_gt_zero income = Ok true -> as_float income = Ok g ->
        analyze_risk_metrics combined_data loan_amount
          = Ok (payment, debt, PrimFloat.div debt g)) /\
     (py_gt_zero income = Ok false ->
        analyze_risk_metrics combined_data loan_amount = Ok (payment, debt, 1%float)))
    as General.
  { intros combined_data loan_amount a r Ha Hr income payment debt.
    unfold analyze_risk_metrics, py_mul_float, py_add_float.
    rewrite Ha. cbn [rbind]. rewrite Hr. cbn [rbind]. fold income. split.
    - intros g Hpos Hg. rewrite Hpos. cbn [rbind]. unfold py_float_div.
      rewrite Hg. cbn [rbind]. now rewrite (gt_zero_not_zero _ Hpos).
    - intros Hneg. now rewrite Hneg. }
  split; [exact General|].
  intros combined_data Hincome Hdebt.
  destruct (General combined_data (PyInt 15000) 15000%float 200%float) as [Hpos _].
  - vm_compute. reflexivity.
  - rewrite (dict_get_Some _ _ _ _ Hdebt). vm_compute. reflexivity.
  - rewrite (dict_get_Some _ _ _ _ Hincome) in Hpos.
    rewrite (Hpos 3000%float); [|reflexivity|vm_compute; reflexivity].
    vm_compute. reflexivity.
Qed.

(** The general statement at the example's numbers, given as floats, and
    at a profile without income. *)
Lemma C2_witness :
  analyze_risk_metrics
    (dict_of [("monthly_gross_income", PyFloat 3000%float);
              ("recurring_loan_payments", PyFloat 200%float)])
    (PyFloat 15000%float)
    = Ok (300%float, 500%float, 0.16666666666666666%float) /\
  analyze_risk_metrics
    (dict_of [("monthly_gross_income", PyInt 3000); ("recurring_loan_payments", PyInt 200)])
    (PyInt 15000)
    = Ok (300%float, 500%float, 0.16666666666666666%float) /\
  analyze_risk_metrics ∅ (PyInt 15000) = Ok (300%float, 300%float, 1%float).
Proof.
  destruct C2_deterministic_metrics as [General Example].
  split; [|split].
  - destruct (General
                (dict_of [("monthly_gross_income", PyFloat 3000%float);
                          ("recurring_loan_payments", PyFloat 200%float)])
                (PyFloat 15000%float) 15000%float 200%float eq_refl)
      as [Hpos _]; [vm_compute; reflexivity|].
    rewrite (Hpos 3000%float); vm_compute; reflexivity.
  - rewrite (Example (dict_of [("monthly_gross_income", PyInt 3000);
                               ("recurring_loan_payments", PyInt 200)]));
      vm_compute; reflexivity.
  - destruct (General ∅ (PyInt 15000) 15000%float 0%float) as [_ Hzero];
      [vm_compute; reflexivity | vm_compute; reflexivity |].
    rewrite Hzero; vm_compute; reflexivity.
Defined.

(** ** [extract_document_data] *)

(** The keys of the schema registry. *)
Lemma SCHEMAS_keys (document_type : string) :
  SCHEMAS !! document_type = None <->
  document_type <> "identity" /\ document_type <> "income" /\
  document_type <> "bank_statement".
Proof.
  unfold SCHEMAS. cbn [list_to_map foldr uncurry fst snd]. split.
  - intros H. repeat split; intros ->; vm_compute in H; discriminate H.
  - intros (H1 & H2 & H3).
    rewrite !lookup_insert_ne by congruence. apply lookup_empty.
Qed.


(** C7: for every document payload and every category that is not a key
    of the schema registry, extract_document_data fails with the
    unknown-document-type error, and the world (in particular the log of
    requests sent to the extraction service) is left as it was. The error
    is the generic Exception the function wraps everything in, with the
    message "Extraction error: Unknown document type: <category>". *)
Theorem C7_unknown_document_type env (pdf_bytes document_type : string) (w : World) :
  document_type ∉ dom SCHEMAS ->
  extract_document_data env (Some pdf_bytes) document_type w
    = (Err (Raise Exception ("Extraction error: Unknown document type: " +:+ document_type)),
       w) /\
  events (extract_document_data env (Some pdf_bytes) document_type w).2 = events w.
Proof.
  intros Hdom. apply not_elem_of_dom in Hdom.
  assert (extract_document_data env (Some pdf_bytes) document_type w
    = (Err (Raise Exception ("Extraction error: Unknown document type: " +:+ document_type)),
       w)) as Hrun.
  { unfold extract_document_data, mtry, mbind, lift, lookup_schema. cbn [file_read].
    rewrite Hdom. reflexivity. }
  split; [exact Hrun|]. now rewrite Hrun.
Qed.

(** A contract is not a category of the registry: the extraction fails
    and nothing was sent. *)
Lemma C7_witness :
  ("contract" ∉ dom SCHEMAS) /\
  extract_document_data sample_env (Some "%PDF-1.7") "contract" (fresh_world None)
    = (Err (Raise Exception "Extraction error: Unknown document type: contract"),
       fresh_world None).
Proof.
  assert ("contract" ∉ dom SCHEMAS) as Hdom.
  { apply not_elem_of_dom, SCHEMAS_keys. repeat split; discriminate. }
  split; [exact Hdom|].
  exact (proj1 (C7_unknown_document_type sample_env "%PDF-1.7" "contract"
                  (fresh_world None) Hdom)).
Defined.

(** ** What the effectful functions do to the world

    Each function is the pair of a pure outcome and of the events it adds
    to the log; nothing it does depends on the world it starts from. *)

Lemma add_events_nil w : add_events [] w = w.
Proof. destruct w. unfold add_events. cbn. now rewrite app_nil_r. Qed.

Lemma add_events_app tr1 tr2 w :
  add_events tr2 (add_events tr1 w) = add_events (tr1 ++ tr2) w.
Proof. unfold add_events. cbn. now rewrite app_assoc. Qed.

Lemma mbind_run {A B} (m : M A) (k : A -> M B) w r w' :
  m w = (r, w') ->
  mbind m k w = match r with Ok a => k a w' | Err e => (Err e, w') end.
Proof. intros H. unfold mbind. now rewrite H. Qed.

Lemma mtry_run {A} (m : M A) (h : exn -> M A) w r w' :
  m w = (r, w') ->
  mtry m h w = match r with Ok a => (Ok a, w') | Err e => h e w' end.
Proof. intros H. unfold mtry. now rewrite H. Qed.

Lemma extract_run env pdf_file document_type w :
  extract_document_data env pdf_file document_type w
    = (extraction_result env pdf_file document_type,
       add_events (extraction_requests env pdf_file document_type) w).
Proof.
  unfold extract_document_data, extraction_result, extraction_requests, call_docai,
    mtry, mbind, lift, log, wrap_extraction_error, mraise.
  destruct (file_read pdf_file) as [pdf_bytes|e]; cbn [rbind].
  2:{ rewrite add_events_nil. destruct (is_RequestException e); reflexivity. }
  destruct (lookup_schema document_type) as [sch|e]; cbn [rbind].
  2:{ rewrite add_events_nil. destruct (is_RequestException e); reflexivity. }
  destruct (docai_post env _) as [response|e]; cbn [rbind].
  2:{ destruct (is_RequestException e); reflexivity. }
  destruct (read_extraction env response document_type) as [record|e]; [reflexivity|].
  destruct (is_RequestException e); reflexivity.
Qed.

(** Every failure of the extraction is the generic [Exception]. *)
Lemma extraction_error_class env pdf_file document_type e :
  extraction_result env pdf_file document_type = Err e -> exn_cls e = Exception.
Proof.
  unfold extraction_result. destruct (rbind _ _) as [v|e0]; [discriminate|].
  intros H. injection H as <-. unfold wrap_extraction_error.
  now destruct (is_RequestException e0).
Qed.

Lemma analyze_risk_run env combined_data loan_amount w :
  analyze_risk env combined_data loan_amount w
    = (risk_result env combined_data loan_amount,
       add_events (risk_requests env combined_data loan_amount) w).
Proof.
  unfold analyze_risk, risk_result, risk_requests, call_ministral, mtry, mbind, lift, log.
  destruct (analyze_risk_metrics combined_data loan_amount) as [[[emp debt] dti]|e];
    cbn [rbind].
  2:{ now rewrite add_events_nil. }
  destruct (build_prompt combined_data loan_amount emp debt dti) as [prompt|e];
    cbn [rbind].
  2:{ now rewrite add_events_nil. }
  destruct (ministral_post env _) as [response|e]; cbn [rbind]; [|reflexivity].
  now destruct (read_assessment env response).
Qed.

(** The exceptions of the first five statements are not those the
    handlers of [analyze_risk] catch. *)
Lemma as_float_error v e :
  as_float v = Err e -> is_RequestException e = false /\ is_JSONDecodeError e = false.
Proof.
  destruct v; cbn; try (intros H; injection H as <-; now split).
  - discriminate.
  - destruct (is_infinite _); [|discriminate]. intros H; injection H as <-; now split.
  - discriminate.
Qed.

Lemma metrics_error_not_handled combined_data loan_amount e :
  analyze_risk_metrics combined_data loan_amount = Err e ->
  is_RequestException e = false /\ is_JSONDecodeError e = false.
Proof.
  unfold analyze_risk_metrics, py_mul_float, py_add_float, py_float_div.
  destruct (as_float loan_amount) as [a|e1] eqn:Ha; cbn [rbind];
    [|intros H; injection H as <-; now apply as_float_error in Ha].
  destruct (as_float (dict_get combined_data "recurring_loan_payments" _)) as [r|e1] eqn:Hr;
    cbn [rbind]; [|intros H; injection H as <-; now apply as_float_error in Hr].
  destruct (py_gt_zero _) as [[|]|e1] eqn:Hpos; cbn [rbind].
  - destruct (as_float (dict_get combined_data "monthly_gross_income" _)) as [g|e1] eqn:Hg;
      cbn [rbind]; [|intros H; injection H as <-; now apply as_float_error in Hg].
    destruct (py_is_zero _); [|discriminate]. intros H; injection H as <-; now split.
  - discriminate.
  - intros H; injection H as <-.
    destruct (dict_get combined_data "monthly_gross_income" _); cbn in Hpos;
      try discriminate Hpos; injection Hpos as <-; now split.
Qed.

(** ** The fallback assessment *)

Lemma read_assessment_content env response :
  read_assessment env response
    = (content <- first_choice_content response ;;
       py_json_loads env (strip_code_fences content))%result.
Proof.
  unfold read_assessment, first_choice_content.
  destruct (has_nonempty "choices" response) as [[|]|e]; cbn [rbind]; try reflexivity.
  destruct (py_getitem response "choices") as [choices|e]; cbn [rbind]; [|reflexivity].
  destruct (py_getitem0 choices) as [choice|e]; cbn [rbind]; [|reflexivity].
  destruct (py_getitem choice "message") as [message|e]; cbn [rbind]; [|reflexivity].
  destruct (py_getitem message "content") as [content|e]; cbn [rbind]; reflexivity.
Qed.

(** What the handlers make of such an exception. *)
Lemma risk_handlers_fallback dti e :
  is_RequestException e = true \/ is_JSONDecodeError e = true ->
  exists explanation flag_message,
    risk_handlers dti e = Ok (PyDict (safe_default dti explanation flag_message)) /\
    explanation =
      (if is_RequestException e
       then "Risk analysis failed due to API error: "
       else "Risk analysis response parsing failed: ")
      +:+ exn_msg e +:+ ". Application rejected as safety measure.".
Proof.
  intros H. unfold risk_handlers.
  destruct (is_RequestException e); [eauto|].
  destruct H as [H|H]; [discriminate|]. rewrite H. eauto.
Qed.

(** C3: when the call to the reasoning model fails with a transport
    error, or what comes back fails to parse as JSON, analyze_risk returns
    the fallback assessment: risk_score 100, risk_level "HIGH",
    recommendation "REJECT", debt_to_income_ratio equal to the dti_ratio
    of the first phase, an explanation that carries the text of the
    exception (and says that parsing failed when the model's text is not
    JSON), exactly one flag, of type SYSTEM_ERROR and severity high, and
    suggested_actions ["Retry analysis", "Contact IT support"]. *)
Theorem C3_fallback_assessment env combined_data loan_amount
    payment debt dti prompt e w :
  analyze_risk_metrics combined_data loan_amount = Ok (payment, debt, dti) ->
  build_prompt combined_data loan_amount payment debt dti = Ok prompt ->
  model_failure env prompt e ->
  exists assessment flag,
    (analyze_risk env combined_data loan_amount w).1 = Ok (PyDict assessment) /\
    assessment !! "risk_score" = Some (PyInt 100) /\
    assessment !! "risk_level" = Some (PyStr "HIGH") /\
    assessment !! "recommendation" = Some (PyStr "REJECT") /\
    assessment !! "debt_to_income_ratio" = Some (PyFloat dti) /\
    assessment !! "explanation" =
      Some (PyStr ((if is_RequestException e
                    then "Risk analysis failed due to API error: "
                    else "Risk analysis response parsing failed: ")
                   +:+ exn_msg e +:+ ". Application rejected as safety measure.")) /\
    (exn_cls e = JSONDecodeError -> is_RequestException e = false) /\
    assessment !! "flags" = Some (PyList [PyDict flag]) /\
    flag !! "flag_type" = Some (PyStr "SYSTEM_ERROR") /\
    flag !! "severity" = Some (PyStr "high") /\
    assessment !! "suggested_actions"
      = Some (PyList [PyStr "Retry analysis"; PyStr "Contact IT support"]).
Proof.
  intros Hmetrics Hprompt Hfail.
  assert (exists e', (prompt <- build_prompt combined_data loan_amount payment debt dti ;;
                      response <- ministral_post env (build_chat_payload prompt) ;;
                      read_assessment env response)%result = Err e' /\
                     exn_msg e' = exn_msg e /\
                     is_RequestException e' = is_RequestException e /\
                     (is_RequestException e' = true \/ is_JSONDecodeError e' = true))
    as (e' & Hbody & Hmsg & Hcls & Hcaught).
  { rewrite Hprompt. cbn [rbind].
    destruct Hfail as [Hpost Hreq | Hpost Hjson | response content Hpost Hcontent Hloads Hcls].
    - exists e. rewrite Hpost. cbn [rbind]. auto.
    - exists e. rewrite Hpost. cbn [rbind]. auto.
    - exists (Raise JSONDecodeError (exn_msg e)).
      rewrite Hpost. cbn [rbind]. rewrite read_assessment_content, Hcontent. cbn [rbind].
      unfold py_json_loads. rewrite Hloads. repeat split; auto.
      unfold is_RequestException. now rewrite Hcls. }
  destruct (risk_handlers_fallback dti e' Hcaught) as (explanation & flag_message & Hh & Hex).
  exists (safe_default dti explanation flag_message).
  exists (dict_of [("flag_type", PyStr "SYSTEM_ERROR"); ("message", PyStr flag_message);
                   ("severity", PyStr "high")]).
  split.
  { rewrite analyze_risk_run. cbn [fst]. unfold risk_result. rewrite Hmetrics. cbn [rbind].
    now rewrite Hbody. }
  rewrite Hmsg, Hcls in Hex. subst explanation.
  unfold safe_default.
  repeat split; try (dict_lookup; fail).
  intros Hc. unfold is_RequestException. now rewrite Hc.
Qed.

(** Both failures give the fallback, with the ratio 500/3000 of the first
    phase. *)
Lemma C3_witness :
  (exists assessment,
     (analyze_risk env_model_down sample_profile (PyInt 15000) (fresh_world None)).1
       = Ok (PyDict assessment) /\
     assessment !! "risk_score" = Some (PyInt 100) /\
     assessment !! "recommendation" = Some (PyStr "REJECT") /\
     assessment !! "debt_to_income_ratio"
       = Some (PyFloat (PrimFloat.div 500%float 3000%float)) /\
     assessment !! "explanation" = Some (PyStr
       "Risk analysis failed due to API error: Read timed out.. Application rejected as safety measure.")) /\
  (exists assessment,
     (analyze_risk env_model_prose sample_profile (PyInt 15000) (fresh_world None)).1
       = Ok (PyDict assessment) /\
     assessment !! "risk_score" = Some (PyInt 100) /\
     assessment !! "recommendation" = Some (PyStr "REJECT") /\
     assessment !! "debt_to_income_ratio"
       = Some (PyFloat (PrimFloat.div 500%float 3000%float)) /\
     assessment !! "explanation" = Some (PyStr
       "Risk analysis response parsing failed: Expecting value: line 1 column 1 (char 0). Application rejected as safety measure.")).
Proof.
  assert (analyze_risk_metrics sample_profile (PyInt 15000)
            = Ok (300%float, 500%float, PrimFloat.div 500%float 3000%float)) as Hmetrics
    by (vm_compute; reflexivity).
  destruct (build_prompt sample_profile (PyInt 15000) 300%float 500%float
              (PrimFloat.div 500%float 3000%float)) as [prompt|e0] eqn:Hprompt;
    [|vm_compute in Hprompt; discriminate Hprompt].
  split.
  - destruct (C3_fallback_assessment env_model_down sample_profile (PyInt 15000)
                300%float 500%float (PrimFloat.div 500%float 3000%float) prompt
                (Raise RequestException "Read timed out.") (fresh_world None)
                Hmetrics Hprompt)
      as (assessment & flag & Hrun & Hscore & _ & Hrec & Hdti & Hexpl & _).
    + apply transport_failure; reflexivity.
    + exists assessment. repeat split; assumption.
  - destruct (C3_fallback_assessment env_model_prose sample_profile (PyInt 15000)
                300%float 500%float (PrimFloat.div 500%float 3000%float) prompt
                (Raise JSONDecodeError "Expecting value: line 1 column 1 (char 0)")
                (fresh_world None) Hmetrics Hprompt)
      as (assessment & flag & Hrun & Hscore & _ & Hrec & Hdti & Hexpl & _).
    + eapply content_not_json; [reflexivity | vm_compute; reflexivity
                               | vm_compute; reflexivity | reflexivity].
    + exists assessment. repeat split; assumption.
Defined.

(** ** [save_to_mongodb] *)

Lemma save_run env l d w :
  heap w !! l = Some d ->
  mongo_client env = Ok tt ->
  let doc := with_id env (stamped env d) in
  save_to_mongodb env l w =
    match mongo_insert env doc with
    | Ok inserted_id =>
        (Ok inserted_id,
         {| heap := <[l := doc]> (heap w); events := events w ++ [MongoInsert doc];
            collection := collection w ++ [doc]; session := session w |})
    | Err e =>
        (Err (wrap_mongo_error e),
         {| heap := <[l := doc]> (heap w); events := events w ++ [MongoInsert doc];
            collection := collection w; session := session w |})
    end.
Proof.
  intros Hl Hc doc.
  unfold save_to_mongodb, insert_one, mtry, mbind, lift, setitem, deref, log, db_append,
    mret, mraise.
  rewrite Hc. cbn [heap events collection session].
  rewrite (alter_alt_Some _ _ _ _ Hl). fold (stamped env d).
  rewrite lookup_insert_eq. cbn [default]. unfold id.
  subst doc. unfold with_id.
  destruct (stamped env d !! "_id") as [v|] eqn:Hid; cbn [heap events collection session].
  - rewrite lookup_insert_eq. cbn [default].
    destruct (mongo_insert env (stamped env d)); reflexivity.
  - rewrite alter_insert_eq, lookup_insert_eq. cbn [default].
    destruct (mongo_insert env _); reflexivity.
Qed.

Lemma save_without_client env l w e :
  mongo_client env = Err e ->
  save_to_mongodb env l w = (Err (wrap_mongo_error e), w).
Proof.
  intros Hc. unfold save_to_mongodb, mtry, mbind, lift, mraise. now rewrite Hc.
Qed.

Lemma with_id_lookup env (d : pydict) k v :
  d !! k = Some v -> with_id env d !! k = Some v.
Proof.
  intros H. unfold with_id. destruct (d !! "_id") eqn:Hid; [exact H|].
  rewrite lookup_insert_ne; [exact H|]. intros <-. congruence.
Qed.

Lemma with_id_other env (d : pydict) k :
  k <> "_id" -> with_id env d !! k = d !! k.
Proof.
  intros H. unfold with_id. destruct (d !! "_id"); [reflexivity|].
  now rewrite lookup_insert_ne.
Qed.

(** The record of the sample has no "_id" before the call and has one
    after it. *)
Lemma C10_counterexample :
  ~ only_created_at_added sample_env 0%nat (dict_of [("loan_amount", PyInt 15000)])
      world_with_record.
Proof.
  intros (doc & Hdoc & _ & Hframe).
  assert (heap world_with_record !! 0%nat = Some (dict_of [("loan_amount", PyInt 15000)]))
    as Hl by (vm_compute; reflexivity).
  rewrite (save_run sample_env 0%nat _ world_with_record Hl eq_refl) in Hdoc.
  cbn [mongo_insert sample_env snd heap] in Hdoc.
  rewrite lookup_insert_eq in Hdoc. apply (inj Some) in Hdoc. subst doc.
  specialize (Hframe "_id"). revert Hframe. unfold with_id, stamped.
  rewrite lookup_insert_ne by discriminate.
  assert (dict_of [("loan_amount", PyInt 15000)] !! "_id" = None) as ->
    by (vm_compute; reflexivity).
  rewrite lookup_insert_eq. intros H. specialize (H ltac:(discriminate)). discriminate H.
Qed.

(** C10 (amended): save_to_mongodb changes the caller's dictionary in
    place and no other dictionary. Once the client is built, the
    dictionary has created_at set to the current UTC time before the
    insert and is the document handed to the database; the driver gives
    it an "_id" when it has none, in place too; every other key keeps its
    value, whether the insert succeeds or not, so the keys after the call
    are those before it with created_at and "_id". When the client cannot
    be built the dictionary is left as it was. *)
Theorem C10_save_adds_created_at env (l : nat) (d : pydict) (w : World) :
  heap w !! l = Some d ->
  exists doc,
    heap (save_to_mongodb env l w).2 !! l = Some doc /\
    (forall l', l' <> l -> heap (save_to_mongodb env l w).2 !! l' = heap w !! l') /\
    (mongo_client env = Ok tt ->
       doc !! "created_at" = Some (PyDatetime (utcnow env)) /\
       doc !! "_id" = Some (default (PyStr (object_id env)) (d !! "_id")) /\
       (forall k v, k <> "created_at" -> d !! k = Some v -> doc !! k = Some v) /\
       (forall k, k <> "created_at" -> k <> "_id" -> doc !! k = d !! k) /\
       dom doc = dom d ∪ {["created_at"; "_id"]} /\
       events (save_to_mongodb env l w).2 = (events w ++ [MongoInsert doc])%list) /\
    (forall e, mongo_client env = Err e ->
       doc = d /\ events (save_to_mongodb env l w).2 = events w).
Proof.
  intros Hl. destruct (mongo_client env) as [[]|cause] eqn:Hc.
  - exists (with_id env (stamped env d)).
    rewrite (save_run env l d w Hl Hc).
    assert (stamped env d !! "created_at" = Some (PyDatetime (utcnow env))) as Hts
      by apply lookup_insert_eq.
    assert (with_id env (stamped env d) !! "_id"
              = Some (default (PyStr (object_id env)) (d !! "_id"))) as Hid.
    { unfold with_id, stamped. rewrite lookup_insert_ne by discriminate.
      destruct (d !! "_id") as [v|] eqn:Hv; cbn [default].
      - now rewrite lookup_insert_ne by discriminate.
      - apply lookup_insert_eq. }
    assert (dom (with_id env (stamped env d)) = dom d ∪ {["created_at"; "_id"]}) as Hdom.
    { unfold with_id, stamped. rewrite lookup_insert_ne by discriminate.
      destruct (d !! "_id") as [v|] eqn:Hv.
      - rewrite dom_insert_L. apply elem_of_dom_2 in Hv. set_solver.
      - rewrite !dom_insert_L. set_solver. }
    destruct (mongo_insert env _); cbn [snd heap events].
    all: split; [apply lookup_insert_eq|].
    all: split; [intros l' Hne; now rewrite lookup_insert_ne by congruence|].
    all: split; [|intros e' He'; discriminate He'].
    all: intros _; split; [apply with_id_lookup; exact Hts|].
    all: split; [exact Hid|].
    all: split; [intros k v Hk Hv; apply with_id_lookup; unfold stamped;
                 rewrite lookup_insert_ne by congruence; exact Hv|].
    all: split; [intros k Hk Hkid; rewrite with_id_other by exact Hkid; unfold stamped;
                 now rewrite lookup_insert_ne by congruence|].
    all: split; [exact Hdom | reflexivity].
  - exists d. rewrite (save_without_client env l w cause Hc). cbn [snd].
    split; [exact Hl|]. split; [reflexivity|].
    split; [intros H; discriminate H|]. intros e _. split; reflexivity.
Qed.

(** After the call the record has its timestamp, an identifier, and still
    its amount; when the client cannot be built it is as before. *)
Lemma C10_witness :
  (exists doc,
     heap (save_to_mongodb sample_env 0%nat world_with_record).2 !! 0%nat = Some doc /\
     doc !! "created_at" = Some (PyDatetime (Datetime 2024 6 15)) /\
     doc !! "_id" = Some (PyStr "65f0c0ffee") /\
     doc !! "loan_amount" = Some (PyInt 15000)) /\
  heap (save_to_mongodb env_no_client 0%nat world_with_record).2 !! 0%nat
    = Some (dict_of [("loan_amount", PyInt 15000)]).
Proof.
  split.
  - destruct (C10_save_adds_created_at sample_env 0%nat
                (dict_of [("loan_amount", PyInt 15000)]) world_with_record)
      as (doc & Hdoc & _ & Hok & _); [vm_compute; reflexivity|].
    destruct (Hok eq_refl) as (Hts & Hid & Hkeep & _).
    exists doc. split; [exact Hdoc|]. split; [exact Hts|].
    split; [rewrite Hid; vm_compute; reflexivity|].
    apply Hkeep; [discriminate | vm_compute; reflexivity].
  - destruct (C10_save_adds_created_at env_no_client 0%nat
                (dict_of [("loan_amount", PyInt 15000)]) world_with_record)
      as (doc & Hdoc & _ & _ & Hdown); [vm_compute; reflexivity|].
    destruct (Hdown (Raise PyMongoError "MONGODB_URI is not set") eq_refl) as [-> _].
    exact Hdoc.
Defined.

(** ** The run of the handler, as a function

    [pipeline] gives, for a session and a loan amount, the events a run
    adds (error messages apart) and how it ends: with the profile, the
    assessment and the identifier of the saved record, or with the
    exception that stopped it. *)

Lemma save_run_observed env l record w :
  heap w !! l = Some record ->
  exists w',
    save_to_mongodb env l w = (save_result env record, w') /\
    run_matches w (save_events env record)
      (match save_result env record with
       | Ok _ => [with_id env (stamped env record)]
       | Err _ => []
       end) (session w) w'.
Proof.
  intros Hl. unfold save_result, save_events.
  destruct (mongo_client env) as [[]|e] eqn:Hc.
  - rewrite (save_run env l record w Hl Hc).
    destruct (mongo_insert env _); eexists; (split; [reflexivity|]);
      unfold run_matches; cbn [events collection session]; rewrite ?app_nil_r; auto.
  - rewrite (save_without_client env l w e Hc). eexists. split; [reflexivity|].
    unfold run_matches. rewrite !app_nil_r. auto.
Qed.

Ltac norm_world := cbn [heap events collection session add_events fst snd rbind].

Lemma extract_bank_run env bank_file w :
  extract_bank env bank_file w
    = (bank_stage env bank_file, add_events (bank_events env bank_file) w).
Proof.
  unfold extract_bank, bank_stage, bank_events.
  destruct bank_file as [bytes|]; [|now rewrite add_events_nil].
  unfold mbind, log, lift, mret. rewrite extract_run. norm_world.
  unfold add_events. norm_world. rewrite <- app_assoc.
  destruct (extraction_result env (Some bytes) "bank_statement") as [v|e]; norm_world;
    [|reflexivity].
  destruct (as_dict v); reflexivity.
Qed.

(** Closes a branch in which the run stops. *)
Ltac run_stops :=
  eexists; split; [reflexivity|];
  unfold run_matches; norm_world;
  rewrite <- ?app_assoc, ?app_nil_r; repeat split; reflexivity.

Lemma process_steps_run env loan_amount w :
  exists w',
    match pipeline env (session w) loan_amount with
    | (tr, Ok (combined_data, risk_assessment, application_id)) =>
        process_steps env loan_amount w = (Ok tt, w') /\
        run_matches w tr
          [with_id env (stamped env
             (application_record combined_data risk_assessment loan_amount))]
          (completed_session (session w) combined_data risk_assessment application_id) w'
    | (tr, Err e) =>
        process_steps env loan_amount w = (Err e, w') /\
        run_matches w tr [] (session w) w'
    end.
Proof.
  destruct w as [h ev c s].
  unfold process_steps, pipeline, identity_stage, income_stage, score_stage.
  unfold mbind, get_session, log, lift, alloc, put_session, mret. norm_world.
  rewrite extract_run. norm_world.
  destruct (extraction_result env (ss_identity_file s) "identity") as [v1|e]; norm_world;
    [|run_stops].
  destruct (as_dict v1) as [identity_data|e]; norm_world; [|run_stops].
  rewrite extract_run. norm_world.
  destruct (extraction_result env (ss_income_file s) "income") as [v2|e]; norm_world;
    [|run_stops].
  destruct (as_dict v2) as [income_data|e]; norm_world; [|run_stops].
  destruct (format_2f _) as [gross|e]; norm_world; [|run_stops].
  rewrite extract_bank_run. norm_world.
  destruct (bank_stage env (ss_bank_file s)) as [bank_data|e]; norm_world; [|run_stops].
  destruct (combine_extracted_data env identity_data income_data bank_data)
    as [combined_data|e]; norm_world; [|run_stops].
  rewrite analyze_risk_run. norm_world.
  destruct (risk_result env combined_data loan_amount) as [risk_assessment|e]; norm_world;
    [|run_stops].
  destruct (as_dict risk_assessment) as [assessment_dict|e]; norm_world; [|run_stops].
  match goal with
  | |- context [save_to_mongodb env ?l ?w0] =>
      destruct (save_run_observed env l
                  (application_record combined_data risk_assessment loan_amount) w0)
        as (w' & Hsave & Hev & Hcol & Hses); [norm_world; apply lookup_insert_eq|];
      rewrite Hsave
  end.
  cbn [heap events collection session] in Hev, Hcol, Hses.
  destruct (save_result env _) as [application_id|e]; norm_world.
  - eexists. split; [reflexivity|]. unfold run_matches. norm_world.
    rewrite Hev, Hcol. rewrite <- ?app_assoc. repeat split; reflexivity.
  - eexists. split; [reflexivity|]. unfold run_matches.
    rewrite Hev, Hcol, Hses. rewrite <- ?app_assoc, ?app_nil_r. repeat split; reflexivity.
Qed.

(** The handler never raises: what stops the steps is reported. *)
Lemma process_application_run env loan_amount w :
  exists w',
    process_application env loan_amount w = (Ok tt, w') /\
    match pipeline env (session w) loan_amount with
    | (tr, Ok (combined_data, risk_assessment, application_id)) =>
        run_matches w tr
          [with_id env (stamped env
             (application_record combined_data risk_assessment loan_amount))]
          (completed_session (session w) combined_data risk_assessment application_id) w'
    | (tr, Err e) =>
        run_matches w
          (tr ++ [UiError ("Error during processing: " +:+ exn_msg e);
                  UiError "Please check your documents and try again."])
          [] (session w) w'
    end.
Proof.
  destruct (process_steps_run env loan_amount w) as [w1 H].
  unfold process_application.
  destruct (pipeline env (session w) loan_amount) as [tr [[[combined_data ra] id]|e]].
  - destruct H as [Hrun Hobs]. exists w1. split; [|exact Hobs].
    now rewrite (mtry_run _ _ _ _ _ Hrun).
  - destruct H as [Hrun (Hev & Hcol & Hses)].
    eexists. split.
    + rewrite (mtry_run _ _ _ _ _ Hrun). reflexivity.
    + unfold run_matches. cbn [events collection session].
      rewrite Hev, Hcol, Hses. rewrite <- !app_assoc. repeat split; reflexivity.
Qed.

(** ** The order of the steps *)

Lemma extraction_stage_kinds env msg pdf_file document_type :
  let k := map kind_of (Spinner msg :: extraction_requests env pdf_file document_type) in
  let full := [KSpinner msg; KDocai (document_type +:+ "_extraction")] in
  k `prefix_of` full /\
  (forall v, extraction_result env pdf_file document_type = Ok v -> k = full).
Proof.
  unfold extraction_requests, extraction_result.
  destruct (file_read pdf_file) as [bytes|e]; cbn [rbind map kind_of].
  2:{ split; [now exists [KDocai (document_type +:+ "_extraction")]|discriminate]. }
  destruct (lookup_schema document_type) as [sch|e]; cbn [rbind map kind_of].
  2:{ split; [now exists [KDocai (document_type +:+ "_extraction")]|discriminate]. }
  split; [now exists []|reflexivity].
Qed.

Lemma bank_stage_kinds env bank_file :
  let k := map kind_of (bank_events env bank_file) in
  let full := if bank_file is Some _
              then [KSpinner "Extracting bank statement..."; KDocai "bank_statement_extraction"]
              else [] in
  k `prefix_of` full /\
  (forall b, bank_stage env bank_file = Ok b -> k = full).
Proof.
  unfold bank_events, bank_stage. destruct bank_file as [bytes|]; [|now split].
  destruct (extraction_stage_kinds env "Extracting bank statement..." (Some bytes)
              "bank_statement") as [Hpre Hfull].
  split; [exact Hpre|].
  intros b Hb. destruct (extraction_result env (Some bytes) "bank_statement") as [v|e];
    [|discriminate]. now apply (Hfull v).
Qed.

Lemma format_2f_error v e :
  format_2f v = Err e -> is_RequestException e = false /\ is_JSONDecodeError e = false.
Proof.
  destruct v; cbn [format_2f]; try (intros H; injection H as <-; now split);
    apply as_float_error.
Qed.

Lemma build_prompt_error_not_handled combined_data loan_amount payment debt dti e :
  build_prompt combined_data loan_amount payment debt dti = Err e ->
  is_RequestException e = false /\ is_JSONDecodeError e = false.
Proof.
  unfold build_prompt.
  destruct (format_2f (dict_get combined_data "monthly_gross_income" _)) as [a|e1] eqn:H1;
    cbn [rbind]; [|intros H; injection H as <-; now apply format_2f_error in H1].
  destruct (format_2f (dict_get combined_data "recurring_loan_payments" _)) as [b|e1] eqn:H2;
    cbn [rbind]; [|intros H; injection H as <-; now apply format_2f_error in H2].
  destruct (format_2f loan_amount) as [c|e1] eqn:H3;
    cbn [rbind]; [discriminate|intros H; injection H as <-; now apply format_2f_error in H3].
Qed.

Lemma score_stage_kinds env combined_data loan_amount :
  let k := map kind_of (Spinner "Analyzing risk with Ministral-3B..."
                          :: risk_requests env combined_data loan_amount) in
  let full := [KSpinner "Analyzing risk with Ministral-3B..."; KMinistral] in
  k `prefix_of` full /\
  (forall v, score_stage env combined_data loan_amount = Ok v -> k = full).
Proof.
  unfold risk_requests, score_stage, risk_result.
  destruct (analyze_risk_metrics combined_data loan_amount) as [[[payment debt] dti]|e];
    cbn [rbind map kind_of].
  2:{ split; [now exists [KMinistral]|discriminate]. }
  destruct (build_prompt combined_data loan_amount payment debt dti) as [p|e] eqn:Hp;
    cbn [rbind map kind_of].
  - split; [now exists []|reflexivity].
  - split; [now exists [KMinistral]|].
    apply build_prompt_error_not_handled in Hp as [Hr Hj].
    unfold risk_handlers. rewrite Hr, Hj. discriminate.
Qed.

Lemma save_stage_kinds env record :
  map kind_of (Spinner "Saving to database..." :: save_events env record)
    `prefix_of` [KSpinner "Saving to database..."; KMongo].
Proof.
  unfold save_events. destruct (mongo_client env); cbn [map kind_of];
    [now exists []|now exists [KMongo]].
Qed.

(** Either the run stops among the extraction steps, or no extraction
    fails and it goes on in the order of the plan. *)
Lemma pipeline_cases env s loan_amount :
  (exists e, (pipeline env s loan_amount).2 = Err e /\
     map kind_of (pipeline env s loan_amount).1 `prefix_of` extraction_plan (has_bank s)) \/
  (~ extraction_fails env s /\
   map kind_of (pipeline env s loan_amount).1 `prefix_of` pipeline_plan (has_bank s)).
Proof.
  unfold pipeline, pipeline_plan, extraction_plan, decision_plan,
    identity_stage, income_stage, has_bank, extraction_fails.
  destruct (extraction_stage_kinds env "Extracting identity document..."
              (ss_identity_file s) "identity") as [P1 F1].
  destruct (extraction_stage_kinds env "Extracting income document..."
              (ss_income_file s) "income") as [P2 F2].
  destruct (bank_stage_kinds env (ss_bank_file s)) as [P3 F3].
  cbv zeta in *.
  change ("identity" +:+ "_extraction") with "identity_extraction" in *.
  change ("income" +:+ "_extraction") with "income_extraction" in *.
  destruct (extraction_result env (ss_identity_file s) "identity") as [v1|e1] eqn:H1;
    cbn [rbind].
  2:{ left. eexists. split; [reflexivity|]. cbn [fst]. now apply prefix_app_r. }
  specialize (F1 v1 eq_refl).
  destruct (as_dict v1) as [identity_data|e1].
  2:{ left. eexists. split; [reflexivity|]. cbn [fst]. now apply prefix_app_r. }
  destruct (extraction_result env (ss_income_file s) "income") as [v2|e2] eqn:H2;
    cbn [rbind].
  2:{ left. eexists. split; [reflexivity|]. cbn [fst]. rewrite map_app, F1.
      now apply prefix_app, prefix_app_r. }
  specialize (F2 v2 eq_refl).
  assert (forall k, (map kind_of
            ((Spinner "Extracting identity document..."
               :: extraction_requests env (ss_identity_file s) "identity") ++
             Spinner "Extracting income document..."
               :: extraction_requests env (ss_income_file s) "income") ++ k)
          = [KSpinner "Extracting identity document..."; KDocai "identity_extraction"] ++
            [KSpinner "Extracting income document..."; KDocai "income_extraction"] ++ k)
    as Hdone.
  { intros k. now rewrite map_app, F1, F2, <- app_assoc. }
  destruct (as_dict v2) as [income_data|e2]; cbn [rbind].
  2:{ left. eexists. split; [reflexivity|]. cbn [fst].
      rewrite <- (app_nil_r (map _ _)), Hdone. apply prefix_app, prefix_app, prefix_nil. }
  destruct (format_2f _) as [gross|e2]; cbn [rbind].
  2:{ left. eexists. split; [reflexivity|]. cbn [fst].
      rewrite <- (app_nil_r (map _ _)), Hdone. apply prefix_app, prefix_app, prefix_nil. }
  destruct (bank_stage env (ss_bank_file s)) as [bank_data|e3] eqn:H3.
  2:{ left. eexists. split; [reflexivity|]. cbn [fst].
      rewrite map_app, Hdone. apply prefix_app, prefix_app.
      destruct (ss_bank_file s); exact P3. }
  specialize (F3 bank_data eq_refl).
  right. split.
  { intros [[e He] | [[e He] | [e [Hb He]]]]; try congruence.
    unfold bank_stage in H3. unfold has_bank in Hb.
    destruct (ss_bank_file s); [|discriminate Hb].
    rewrite He in H3. discriminate H3. }
  assert (forall k, map kind_of
            ((((Spinner "Extracting identity document..."
                 :: extraction_requests env (ss_identity_file s) "identity") ++
               Spinner "Extracting income document..."
                 :: extraction_requests env (ss_income_file s) "income") ++
              bank_events env (ss_bank_file s)) ++
             [Spinner "Combining extracted data..."]) ++ k
          = ([KSpinner "Extracting identity document..."; KDocai "identity_extraction"] ++
             [KSpinner "Extracting income document..."; KDocai "income_extraction"] ++
             (if match ss_bank_file s with Some _ => true | None => false end
              then [KSpinner "Extracting bank statement...";
                    KDocai "bank_statement_extraction"]
              else [])) ++
            [KSpinner "Combining extracted data..."] ++ k) as Hcombined.
  { intros k. rewrite !map_app, F1, F2, F3. cbn [map kind_of].
    destruct (ss_bank_file s); now rewrite <- !app_assoc. }
  destruct (combine_extracted_data env identity_data income_data bank_data)
    as [combined_data|e4].
  2:{ cbn [fst]. rewrite <- (app_nil_r (map _ _)), Hcombined.
      apply prefix_app, prefix_app, prefix_nil. }
  destruct (score_stage_kinds env combined_data loan_amount) as [P5 F5]. cbv zeta in *.
  pose proof (save_stage_kinds env) as P6.
  destruct (score_stage env combined_data loan_amount) as [risk_assessment|e5].
  2:{ cbn [fst]. rewrite map_app, Hcombined.
      apply prefix_app, prefix_app, prefix_app_r, P5. }
  specialize (F5 risk_assessment eq_refl).
  assert (map kind_of
            ((((((Spinner "Extracting identity document..."
                   :: extraction_requests env (ss_identity_file s) "identity") ++
                 Spinner "Extracting income document..."
                   :: extraction_requests env (ss_income_file s) "income") ++
                bank_events env (ss_bank_file s)) ++
               [Spinner "Combining extracted data..."]) ++
              Spinner "Analyzing risk with Ministral-3B..."
                :: risk_requests env combined_data loan_amount) ++
             Spinner "Saving to database..."
               :: save_events env
                    (application_record combined_data risk_assessment loan_amount))
          `prefix_of`
          ([KSpinner "Extracting identity document..."; KDocai "identity_extraction"] ++
           [KSpinner "Extracting income document..."; KDocai "income_extraction"] ++
           (if match ss_bank_file s with Some _ => true | None => false end
            then [KSpinner "Extracting bank statement...";
                  KDocai "bank_statement_extraction"]
            else [])) ++
          [KSpinner "Combining extracted data..."] ++
          [KSpinner "Analyzing risk with Ministral-3B..."; KMinistral] ++
          [KSpinner "Saving to database..."; KMongo]) as Hall.
  { rewrite map_app, map_app, F5, <- app_assoc, Hcombined.
    apply prefix_app, prefix_app, prefix_app, P6. }
  destruct (save_result env _); exact Hall.
Qed.

Lemma prefix_elem_of {A} (l1 l2 : list A) x : l1 `prefix_of` l2 -> x ∈ l1 -> x ∈ l2.
Proof. intros [k ->] H. apply elem_of_app. now left. Qed.

(** Nothing of the decision steps is in the plan of the extractions. *)
Lemma extraction_plan_kinds bank k :
  k ∈ extraction_plan bank ->
  k <> KSpinner "Combining extracted data..." /\
  k <> KSpinner "Analyzing risk with Ministral-3B..." /\
  k <> KSpinner "Saving to database..." /\
  k <> KMinistral /\ k <> KMongo.
Proof.
  unfold extraction_plan. intros H.
  assert (k ∈ [KSpinner "Extracting identity document..."; KDocai "identity_extraction";
               KSpinner "Extracting income document..."; KDocai "income_extraction";
               KSpinner "Extracting bank statement...";
               KDocai "bank_statement_extraction"]) as Hin.
  { destruct bank; cbn [app] in H; [exact H|].
    eapply prefix_elem_of; [|exact H]. now eexists [_; _]. }
  repeat (apply elem_of_cons in Hin as [-> | Hin]; [repeat split; discriminate|]).
  now apply elem_of_nil in Hin.
Qed.

Lemma registered_identity : exists sch, lookup_schema "identity" = Ok sch.
Proof.
  destruct (lookup_schema "identity") as [sch|e] eqn:H; [eauto|].
  vm_compute in H. discriminate H.
Qed.

Lemma registered_income : exists sch, lookup_schema "income" = Ok sch.
Proof.
  destruct (lookup_schema "income") as [sch|e] eqn:H; [eauto|].
  vm_compute in H. discriminate H.
Qed.

Lemma registered_bank_statement : exists sch, lookup_schema "bank_statement" = Ok sch.
Proof.
  destruct (lookup_schema "bank_statement") as [sch|e] eqn:H; [eauto|].
  vm_compute in H. discriminate H.
Qed.

Lemma single_annotation env (record : pydict) document_type :
  read_extraction env
    (PyDict (dict_of [("pages", PyList [PyDict (dict_of [
       ("images", PyList [PyDict (dict_of [("image_annotation", PyDict record)])]) ])])]))
    document_type
  = Ok (PyDict record).
Proof. vm_compute. reflexivity. Qed.

Lemma annotated_extraction env pdf_bytes document_type sch (record : pydict) :
  lookup_schema document_type = Ok sch ->
  docai_post env (build_docai_payload (b64encode env pdf_bytes) sch document_type)
    = Ok (PyDict (dict_of [("pages", PyList [PyDict (dict_of [
            ("images", PyList [PyDict (dict_of [("image_annotation", PyDict record)])])
          ])])])) ->
  extraction_result env (Some pdf_bytes) document_type = Ok (PyDict record).
Proof.
  intros Hsch Hpost. unfold extraction_result. cbn [file_read rbind].
  rewrite Hsch. cbn [rbind]. rewrite Hpost. cbn [rbind].
  now rewrite single_annotation.
Qed.

(** The sample document service gives the sample records. *)
Lemma sample_stages env :
  docai_post env = sample_docai ->
  identity_stage env (fresh_session None) = Ok sample_identity /\
  income_stage env (fresh_session None) = Ok sample_income.
Proof.
  intros Hdocai.
  destruct registered_identity as [sch1 Hsch1]. destruct registered_income as [sch2 Hsch2].
  unfold identity_stage, income_stage.
  cbn [fresh_session ss_identity_file ss_income_file].
  rewrite (annotated_extraction env "%PDF-id" "identity" sch1 sample_identity Hsch1)
    by (rewrite Hdocai; reflexivity).
  rewrite (annotated_extraction env "%PDF-pay" "income" sch2 sample_income Hsch2)
    by (rewrite Hdocai; reflexivity).
  cbn [rbind as_dict]. split; [reflexivity|].
  assert (format_2f (dict_get sample_income "monthly_gross_income" (PyInt 0))
            = Ok 3000%float) as -> by (vm_compute; reflexivity).
  reflexivity.
Qed.

(** With the sample documents and services the scoring goes through. *)
Lemma sample_env_scoring :
  exists combined_data,
    scoring_completed sample_env (fresh_session None) (PyInt 15000)
      combined_data (PyDict (dict_of [("risk_score", PyInt 20)])).
Proof.
  destruct (combine_returns sample_env sample_identity sample_income None 3000%float)
    as [combined_data Hcombine]; [vm_compute; reflexivity|].
  destruct (sample_stages sample_env eq_refl) as [Hid Hinc].
  exists combined_data, sample_identity, sample_income, None.
  split; [exact Hid|]. split; [exact Hinc|].
  split; [reflexivity|]. split; [exact Hcombine|].
  apply combine_inv in Hcombine as (nd & _ & ->). vm_compute. reflexivity.
Qed.

Lemma identity_stage_extracted env s identity_data :
  identity_stage env s = Ok identity_data ->
  exists v, extraction_result env (ss_identity_file s) "identity" = Ok v.
Proof.
  unfold identity_stage. destruct (extraction_result env _ _) as [v|e]; [eauto|discriminate].
Qed.

Lemma income_stage_extracted env s income_data :
  income_stage env s = Ok income_data ->
  exists v, extraction_result env (ss_income_file s) "income" = Ok v.
Proof.
  unfold income_stage. destruct (extraction_result env _ _) as [v|e]; [eauto|discriminate].
Qed.

Lemma save_result_events env record application_id :
  save_result env record = Ok application_id ->
  save_events env record = [MongoInsert (with_id env (stamped env record))].
Proof.
  unfold save_result, save_events. now destruct (mongo_client env).
Qed.

(** A run in which every step succeeds goes through the whole plan. *)
Lemma pipeline_success env s loan_amount combined_data risk_assessment application_id :
  scoring_completed env s loan_amount combined_data risk_assessment ->
  save_result env (application_record combined_data risk_assessment loan_amount)
    = Ok application_id ->
  exists tr,
    pipeline env s loan_amount = (tr, Ok (combined_data, risk_assessment, application_id)) /\
    map kind_of tr = pipeline_plan (has_bank s).
Proof.
  intros (identity_data & income_data & bank_data & H1 & H2 & H3 & H4 & H5) Hsave.
  unfold pipeline. rewrite H1, H2, H3, H4, H5, Hsave.
  eexists. split; [reflexivity|].
  destruct (identity_stage_extracted _ _ _ H1) as [v1 Hv1].
  destruct (income_stage_extracted _ _ _ H2) as [v2 Hv2].
  destruct (extraction_stage_kinds env "Extracting identity document..."
              (ss_identity_file s) "identity") as [_ Hk1].
  destruct (extraction_stage_kinds env "Extracting income document..."
              (ss_income_file s) "income") as [_ Hk2].
  destruct (bank_stage_kinds env (ss_bank_file s)) as [_ Hk3].
  destruct (score_stage_kinds env combined_data loan_amount) as [_ Hk5].
  cbv zeta in Hk1, Hk2, Hk3, Hk5.
  rewrite (save_result_events _ _ _ Hsave).
  rewrite !map_app.
  rewrite (Hk1 _ Hv1), (Hk2 _ Hv2), (Hk3 _ H3), (Hk5 _ H5).
  unfold pipeline_plan, extraction_plan, decision_plan, has_bank.
  destruct (ss_bank_file s); reflexivity.
Qed.

(** With a file and a registered category the request is sent, whatever
    comes of it. *)
Lemma sent_kinds env msg pdf_bytes document_type sch :
  lookup_schema document_type = Ok sch ->
  map kind_of (Spinner msg :: extraction_requests env (Some pdf_bytes) document_type)
    = [KSpinner msg; KDocai (document_type +:+ "_extraction")].
Proof. intros H. unfold extraction_requests. cbn [file_read]. now rewrite H. Qed.

Lemma identity_kinds env s pdf_bytes :
  ss_identity_file s = Some pdf_bytes ->
  map kind_of (Spinner "Extracting identity document..."
                 :: extraction_requests env (ss_identity_file s) "identity")
    = identity_steps.
Proof.
  intros ->. destruct registered_identity as [sch H]. now rewrite (sent_kinds _ _ _ _ _ H).
Qed.

Lemma income_kinds env s pdf_bytes :
  ss_income_file s = Some pdf_bytes ->
  map kind_of (Spinner "Extracting income document..."
                 :: extraction_requests env (ss_income_file s) "income")
    = income_steps.
Proof.
  intros ->. destruct registered_income as [sch H]. now rewrite (sent_kinds _ _ _ _ _ H).
Qed.

Lemma bank_kinds env bank_file :
  map kind_of (bank_events env bank_file)
    = match bank_file with Some _ => bank_steps | None => [] end.
Proof.
  destruct bank_file as [pdf_bytes|]; [|reflexivity]. unfold bank_events.
  destruct registered_bank_statement as [sch H]. now rewrite (sent_kinds _ _ _ _ _ H).
Qed.

Lemma extraction_plan_steps bank :
  extraction_plan bank = identity_steps ++ income_steps ++ (if bank then bank_steps else []).
Proof. reflexivity. Qed.

(** Every run starts with the identity document. *)
Lemma pipeline_starts env s loan_amount :
  exists rest,
    (pipeline env s loan_amount).1 = Spinner "Extracting identity document..." :: rest.
Proof.
  unfold pipeline.
  destruct (identity_stage env s); [|eexists; reflexivity].
  destruct (income_stage env s); [|eexists; reflexivity].
  destruct (bank_stage env _); [|eexists; reflexivity].
  destruct (combine_extracted_data env _ _ _); [|eexists; reflexivity].
  destruct (score_stage env _ _); [|eexists; reflexivity].
  destruct (save_result env _); eexists; reflexivity.
Qed.

(** Where a run stops, for a session with the two required files: at the
    step that fails, with the request of that step sent and nothing
    after it. *)
Lemma pipeline_stops env s loan_amount :
  can_process s = true ->
  (forall e, identity_stage env s = Err e ->
     (pipeline env s loan_amount).2 = Err e /\
     map kind_of (pipeline env s loan_amount).1 = identity_steps) /\
  (forall identity_data e,
     identity_stage env s = Ok identity_data ->
     income_stage env s = Err e ->
     (pipeline env s loan_amount).2 = Err e /\
     map kind_of (pipeline env s loan_amount).1 = identity_steps ++ income_steps) /\
  (forall identity_data income_data e,
     identity_stage env s = Ok identity_data ->
     income_stage env s = Ok income_data ->
     bank_stage env (ss_bank_file s) = Err e ->
     has_bank s = true /\
     (pipeline env s loan_amount).2 = Err e /\
     map kind_of (pipeline env s loan_amount).1
       = identity_steps ++ income_steps ++ bank_steps) /\
  (forall identity_data income_data bank_data,
     identity_stage env s = Ok identity_data ->
     income_stage env s = Ok income_data ->
     bank_stage env (ss_bank_file s) = Ok bank_data ->
     (extraction_plan (has_bank s) ++ [KSpinner "Combining extracted data..."])
       `prefix_of` map kind_of (pipeline env s loan_amount).1).
Proof.
  intros Hcan. unfold can_process in Hcan.
  destruct (ss_identity_file s) as [b1|] eqn:Hf1; [|discriminate Hcan].
  destruct (ss_income_file s) as [b2|] eqn:Hf2; [|discriminate Hcan].
  pose proof (identity_kinds env s b1 Hf1) as K1.
  pose proof (income_kinds env s b2 Hf2) as K2.
  pose proof (bank_kinds env (ss_bank_file s)) as K3.
  clear Hf1 Hf2.
  split; [|split; [|split]].
  - intros e H1. unfold pipeline. rewrite H1. cbn [fst snd]. now split.
  - intros identity_data e H1 H2. unfold pipeline. rewrite H1, H2. cbn [fst snd].
    split; [reflexivity|]. now rewrite map_app, K1, K2.
  - intros identity_data income_data e H1 H2 H3.
    assert (has_bank s = true) as Hb.
    { unfold has_bank. unfold bank_stage in H3.
      destruct (ss_bank_file s); [reflexivity | discriminate H3]. }
    split; [exact Hb|].
    unfold pipeline. rewrite H1, H2, H3. cbn [fst snd].
    split; [reflexivity|]. rewrite !map_app, K1, K2, K3.
    unfold has_bank in Hb. destruct (ss_bank_file s); [|discriminate Hb].
    now rewrite <- app_assoc.
  - intros identity_data income_data bank_data H1 H2 H3.
    assert (forall k,
              map kind_of
                ((((Spinner "Extracting identity document..."
                     :: extraction_requests env (ss_identity_file s) "identity") ++
                   Spinner "Extracting income document..."
                     :: extraction_requests env (ss_income_file s) "income") ++
                  bank_events env (ss_bank_file s)) ++
                 [Spinner "Combining extracted data..."]) ++ k
              = (extraction_plan (has_bank s) ++ [KSpinner "Combining extracted data..."])
                ++ k) as Hdone.
    { intros k. rewrite !map_app, K1, K2, K3. unfold has_bank.
      rewrite extraction_plan_steps. cbn [map kind_of].
      destruct (ss_bank_file s); now rewrite <- !app_assoc. }
    unfold pipeline. rewrite H1, H2, H3.
    destruct (combine_extracted_data env identity_data income_data bank_data)
      as [combined_data|e4]; cbn [fst].
    2:{ rewrite <- (app_nil_r (map _ _)), Hdone. now apply prefix_app_r. }
    destruct (score_stage env combined_data loan_amount) as [risk_assessment|e5];
      cbn [fst].
    2:{ rewrite map_app, Hdone. now apply prefix_app_r. }
    destruct (save_result env _); cbn [fst];
      rewrite map_app, map_app, Hdone, <- app_assoc; now apply prefix_app_r.
Qed.

(** C6: the handler runs the steps in the order identity, income, bank
    statement (only when one was uploaded), combine, score, persist, and
    stops at the first step that fails, where it shows the two error
    messages and returns. The first step is always taken. With the two
    required files (the button is disabled otherwise), a failure at the
    identity step leaves exactly the identity step behind, a failure at
    the income step exactly the identity and income steps, a failure at
    the bank step exactly the three extraction steps: no later extraction
    follows. After a failed extraction nothing is combined, the reasoning
    model is not called, nothing is inserted, and the database and the
    session are left as they were. When the extractions succeed the run goes on with
    all of them done, then the combination; when every step succeeds the
    events are exactly the plan, one record is added and the session is
    completed. *)
Theorem C6_linear_pipeline env loan_amount (w : World) :
  exists tr errs w',
    process_application env loan_amount w = (Ok tt, w') /\
    events w' = events w ++ tr ++ errs /\
    Forall (fun ev => kind_of ev = KError) errs /\
    map kind_of tr `prefix_of` pipeline_plan (has_bank (session w)) /\
    KSpinner "Extracting identity document..." ∈ map kind_of tr /\
    (can_process (session w) = true ->
       (forall e, identity_stage env (session w) = Err e ->
          map kind_of tr = identity_steps /\ errs = failure_shown e) /\
       (forall identity_data e,
          identity_stage env (session w) = Ok identity_data ->
          income_stage env (session w) = Err e ->
          map kind_of tr = identity_steps ++ income_steps /\ errs = failure_shown e) /\
       (forall identity_data income_data e,
          identity_stage env (session w) = Ok identity_data ->
          income_stage env (session w) = Ok income_data ->
          bank_stage env (ss_bank_file (session w)) = Err e ->
          has_bank (session w) = true /\
          map kind_of tr = identity_steps ++ income_steps ++ bank_steps /\
          errs = failure_shown e) /\
       (forall identity_data income_data bank_data,
          identity_stage env (session w) = Ok identity_data ->
          income_stage env (session w) = Ok income_data ->
          bank_stage env (ss_bank_file (session w)) = Ok bank_data ->
          (extraction_plan (has_bank (session w))
             ++ [KSpinner "Combining extracted data..."])
            `prefix_of` map kind_of tr)) /\
    (forall combined_data risk_assessment application_id,
       scoring_completed env (session w) loan_amount combined_data risk_assessment ->
       save_result env (application_record combined_data risk_assessment loan_amount)
         = Ok application_id ->
       map kind_of tr = pipeline_plan (has_bank (session w)) /\
       errs = [] /\
       collection w' = collection w ++
         [with_id env (stamped env
            (application_record combined_data risk_assessment loan_amount))] /\
       session w' = completed_session (session w) combined_data risk_assessment
                      application_id) /\
    (errs <> [] -> collection w' = collection w /\ session w' = session w) /\
    (extraction_fails env (session w) ->
       map kind_of tr `prefix_of` extraction_plan (has_bank (session w)) /\
       (Spinner "Combining extracted data..." ∉ tr) /\
       (forall p, MinistralRequest p ∉ tr) /\
       (forall doc, MongoInsert doc ∉ tr) /\
       errs <> [] /\
       collection w' = collection w /\
       session w' = session w).
Proof.
  destruct (process_application_run env loan_amount w) as (w' & Hrun & Hobs).
  pose proof (pipeline_cases env (session w) loan_amount) as Hcases.
  pose proof (pipeline_stops env (session w) loan_amount) as Hstops.
  assert (forall combined_data risk_assessment application_id,
            scoring_completed env (session w) loan_amount combined_data risk_assessment ->
            save_result env (application_record combined_data risk_assessment loan_amount)
              = Ok application_id ->
            (pipeline env (session w) loan_amount).2
              = Ok (combined_data, risk_assessment, application_id) /\
            map kind_of (pipeline env (session w) loan_amount).1
              = pipeline_plan (has_bank (session w))) as S5.
  { intros c r id Hscored Hsave.
    destruct (pipeline_success _ _ _ _ _ _ Hscored Hsave) as (tr0 & -> & Hk). now split. }
  assert (KSpinner "Extracting identity document..."
            ∈ map kind_of (pipeline env (session w) loan_amount).1) as Hfirst.
  { destruct (pipeline_starts env (session w) loan_amount) as [rest ->].
    apply elem_of_cons. now left. }
  destruct (pipeline env (session w) loan_amount) as [tr r]. cbn [fst snd] in *.
  assert (map kind_of tr `prefix_of` pipeline_plan (has_bank (session w))) as Hplan.
  { destruct Hcases as [(e & _ & Hpre) | [_ Hpre]]; [|exact Hpre].
    unfold pipeline_plan. now apply prefix_app_r. }
  exists tr, (match r with Ok _ => [] | Err e => failure_shown e end), w'.
  split; [exact Hrun|].
  assert (events w' = events w ++ tr ++ match r with Ok _ => [] | Err e => failure_shown e end
          /\ (forall e, r = Err e -> collection w' = collection w /\ session w' = session w)
          /\ (forall c ra id, r = Ok (c, ra, id) ->
                 collection w' = collection w ++
                   [with_id env (stamped env (application_record c ra loan_amount))] /\
                 session w' = completed_session (session w) c ra id))
    as (Hev & Hfailed & Hdone).
  { destruct r as [[[c ra] id]|e]; destruct Hobs as (Hev & Hcol & Hses).
    - split; [now rewrite app_nil_r|]. split; [intros e He; discriminate He|].
      intros c' ra' id' H. injection H as <- <- <-. now split.
    - split; [exact Hev|]. split; [|intros c' ra' id' H; discriminate H].
      intros e' _. split; [now rewrite Hcol, app_nil_r | exact Hses]. }
  split; [exact Hev|].
  split; [destruct r; repeat constructor|].
  split; [exact Hplan|]. split; [exact Hfirst|].
  split.
  { intros Hcan. destruct (Hstops Hcan) as (S1 & S2 & S3 & S4).
    split; [intros e H1; destruct (S1 e H1) as [-> Hk]; now split|].
    split; [intros i e H1 H2; destruct (S2 i e H1 H2) as [-> Hk]; now split|].
    split; [intros i n e H1 H2 H3; destruct (S3 i n e H1 H2 H3) as (Hb & -> & Hk);
            now repeat split|].
    exact S4. }
  split.
  { intros c ra id Hscored Hsave. destruct (S5 c ra id Hscored Hsave) as [-> Hk].
    destruct (Hdone c ra id eq_refl) as [Hcol Hses]. now repeat split. }
  split.
  { intros Herrs. destruct r as [x|e]; [now destruct Herrs|]. exact (Hfailed e eq_refl). }
  intros Hfail. destruct Hcases as [(e' & -> & Hpre) | [Hnot _]]; [|contradiction].
  assert (forall ev, ev ∈ tr -> kind_of ev ∈ extraction_plan (has_bank (session w)))
    as Hin.
  { intros ev Hev'. eapply prefix_elem_of; [exact Hpre|].
    apply list_elem_of_fmap. now exists ev. }
  split; [exact Hpre|].
  split; [intros H; apply Hin, extraction_plan_kinds in H; cbn in H; tauto|].
  split; [intros p H; apply Hin, extraction_plan_kinds in H; cbn in H; tauto|].
  split; [intros doc H; apply Hin, extraction_plan_kinds in H; cbn in H; tauto|].
  split; [discriminate|]. exact (Hfailed e' eq_refl).
Qed.

(** With a bank statement uploaded and the pay slip unreadable, the run
    stops after the request for the pay slip: the bank statement is not
    read, and session and database are left alone. With everything up,
    the run goes through the whole plan. *)
Lemma C6_witness :
  (extraction_fails env_income_unreadable (session (fresh_world (Some "%PDF-bank"))) /\
   exists tr errs w',
     process_application env_income_unreadable (PyInt 15000) (fresh_world (Some "%PDF-bank"))
       = (Ok tt, w') /\
     events w' = tr ++ errs /\
     map kind_of tr
       = [KSpinner "Extracting identity document..."; KDocai "identity_extraction";
          KSpinner "Extracting income document..."; KDocai "income_extraction"] /\
     errs = [UiError "Error during processing: Document AI API error: 503 Server Error: Service Unavailable";
             UiError "Please check your documents and try again."] /\
     map kind_of tr `prefix_of` extraction_plan true /\
     (forall p, MinistralRequest p ∉ tr) /\
     (forall doc, MongoInsert doc ∉ tr) /\
     collection w' = [] /\
     session w' = fresh_session (Some "%PDF-bank")) /\
  (exists tr w',
     process_application sample_env (PyInt 15000) (fresh_world None) = (Ok tt, w') /\
     events w' = tr /\
     map kind_of tr = pipeline_plan false /\
     length (collection w') = 1%nat).
Proof.
  split.
  - assert (extraction_fails env_income_unreadable
              (session (fresh_world (Some "%PDF-bank")))) as Hfail.
    { right. left. eexists. vm_compute. reflexivity. }
    split; [exact Hfail|].
    destruct (C6_linear_pipeline env_income_unreadable (PyInt 15000)
                (fresh_world (Some "%PDF-bank")))
      as (tr & errs & w' & Hrun & Hev & _ & _ & _ & Hexact & _ & _ & Hstop).
    destruct (Hexact eq_refl) as (_ & Hincome & _ & _).
    destruct (Hstop Hfail) as (Hpre & _ & Hmodel & Hdb & _ & Hcol & Hses).
    destruct (Hincome sample_identity
                (Raise Exception
                   "Document AI API error: 503 Server Error: Service Unavailable"))
      as [Hkinds Herrs].
    { destruct registered_identity as [sch Hsch]. unfold identity_stage.
      cbn [fresh_world session fresh_session ss_identity_file].
      rewrite (annotated_extraction env_income_unreadable "%PDF-id" "identity" sch
                 sample_identity Hsch) by reflexivity.
      reflexivity. }
    { vm_compute. reflexivity. }
    exists tr, errs, w'. repeat split; assumption.
  - destruct sample_env_scoring as [combined_data Hscored].
    destruct (C6_linear_pipeline sample_env (PyInt 15000) (fresh_world None))
      as (tr & errs & w' & Hrun & Hev & _ & _ & _ & _ & Hall & _).
    destruct (Hall combined_data _ "65f0c0ffee" Hscored eq_refl)
      as (Hkinds & -> & Hcol & _).
    exists tr, w'. split; [exact Hrun|]. split; [now rewrite Hev, app_nil_r|].
    split; [exact Hkinds|]. now rewrite Hcol.
Defined.

(** ** A failed save *)

Lemma pipeline_after_scoring env s loan_amount combined_data risk_assessment :
  scoring_completed env s loan_amount combined_data risk_assessment ->
  (pipeline env s loan_amount).2 =
    match save_result env (application_record combined_data risk_assessment loan_amount) with
    | Ok application_id => Ok (combined_data, risk_assessment, application_id)
    | Err e => Err e
    end.
Proof.
  intros (identity_data & income_data & bank_data & H1 & H2 & H3 & H4 & H5).
  unfold pipeline. rewrite H1, H2, H3, H4, H5.
  now destruct (save_result env _).
Qed.

(** What the handler leaves behind when the save fails. *)
Lemma failed_save_run env loan_amount w combined_data risk_assessment e :
  scoring_completed env (session w) loan_amount combined_data risk_assessment ->
  save_result env (application_record combined_data risk_assessment loan_amount) = Err e ->
  exists w' tr,
    process_application env loan_amount w = (Ok tt, w') /\
    events w' = events w ++ tr ++
      [UiError ("Error during processing: " +:+ exn_msg e);
       UiError "Please check your documents and try again."] /\
    collection w' = collection w /\
    session w' = session w.
Proof.
  intros Hscored Hsave.
  pose proof (pipeline_after_scoring _ _ _ _ _ Hscored) as Hres. rewrite Hsave in Hres.
  destruct (process_application_run env loan_amount w) as (w' & Hrun & Hobs).
  destruct (pipeline env (session w) loan_amount) as [tr r]. cbn [snd] in Hres. subst r.
  destruct Hobs as (Hev & Hcol & Hses).
  exists w', tr. rewrite app_nil_r in Hcol. auto.
Qed.

(** A failure of the save carries the text of the driver's exception. *)
Lemma save_error_message env record e :
  save_result env record = Err e ->
  exists cause, e = Raise Exception ("MongoDB error: " +:+ exn_msg cause).
Proof.
  unfold save_result, wrap_mongo_error.
  destruct (mongo_client env) as [u|e0].
  - destruct (mongo_insert env _) as [id|e0]; [discriminate|].
    intros H. injection H as <-. now exists e0.
  - intros H. injection H as <-. now exists e0.
Qed.

(** The handler as the script runs it: the state the handler leaves, and
    a rerun exactly when the steps went through. *)
Lemma process_then_rerun_run env loan_amount w w' :
  process_application env loan_amount w = (Ok tt, w') ->
  process_then_rerun env loan_amount w
    = (Ok (match (pipeline env (session w) loan_amount).2 with
           | Ok _ => true
           | Err _ => false
           end), w').
Proof.
  intros Hrun. destruct (process_steps_run env loan_amount w) as [w1 Hsteps].
  unfold process_application, process_then_rerun, mtry, mbind, mret, report_error, log
    in Hrun |- *.
  destruct (pipeline env (session w) loan_amount) as [tr [[[c r] id]|e]];
    destruct Hsteps as [Hsteps _]; rewrite Hsteps in Hrun |- *; cbn [snd];
    injection Hrun as <-; reflexivity.
Qed.

(** A pass in which the button was pressed. *)
Lemma main_clicked env ui loan_amount w w' :
  can_process (session w) = true ->
  process_application env loan_amount w = (Ok tt, w') ->
  main env ui true loan_amount w
    = match (pipeline env (session w) loan_amount).2 with
      | Ok _ => (Ok Rerun, w')
      | Err _ => show_results env ui w'
      end.
Proof.
  intros Hcan Hrun. unfold main, mbind at 1, get_session.
  rewrite Hcan. cbn [andb]. unfold mbind at 1.
  rewrite (process_then_rerun_run _ _ _ _ Hrun).
  now destruct (pipeline env (session w) loan_amount).2.
Qed.

(** A pass without the handler is the results section. *)
Lemma main_idle env ui loan_amount w :
  main env ui false loan_amount w = show_results env ui w.
Proof. reflexivity. Qed.

(** The results section when the test fails, and when it holds. *)
Lemma show_results_none env ui w :
  results_available (session w) = false ->
  show_results env ui w = (Ok (Shown None), w).
Proof.
  intros H. unfold show_results, mbind, get_session, mret, download_report.
  now rewrite H.
Qed.

Lemma show_results_drawn env ui w :
  results_available (session w) = true ->
  show_results env ui w
    = (match (call_render_results_ui ui (ss_combined_data (session w))
                (ss_risk_assessment (session w)) (ss_application_id (session w))).1 with
       | Ok _ =>
           Ok (Shown (Some (generate_download_report env (ss_combined_data (session w))
                              (ss_risk_assessment (session w)))))
       | Err e => Err e
       end, w).
Proof.
  intros H. unfold show_results, mbind, get_session, mret, lift, download_report.
  rewrite H. now destruct (call_render_results_ui _ _ _ _).1.
Qed.

(** With the sample documents the scoring goes through. *)
Lemma db_down_scoring :
  exists combined_data risk_assessment,
    scoring_completed env_db_down (fresh_session None) (PyInt 15000)
      combined_data risk_assessment.
Proof.
  destruct (combine_returns env_db_down sample_identity sample_income None 3000%float)
    as [combined_data Hcombine]; [vm_compute; reflexivity|].
  exists combined_data, (PyDict (dict_of [("risk_score", PyInt 20)])).
  exists sample_identity, sample_income, None.
  split; [vm_compute; reflexivity|]. split; [vm_compute; reflexivity|].
  split; [reflexivity|]. split; [exact Hcombine|].
  apply combine_inv in Hcombine as (nd & _ & ->). vm_compute. reflexivity.
Qed.

Lemma db_down_save_fails record :
  save_result env_db_down record
    = Err (Raise Exception
             "MongoDB error: localhost:27017: [Errno 111] Connection refused").
Proof. reflexivity. Qed.

(** The scoring goes through, the insert is refused, and the pass of the
    script offers no report at all. *)
Lemma C5_counterexample :
  ~ results_exportable_after_failed_save env_db_down ui_accepts_all (PyInt 15000)
      (fresh_world None).
Proof.
  intros Hclaim.
  destruct db_down_scoring as (combined_data & risk_assessment & Hscored).
  specialize (Hclaim combined_data risk_assessment _ Hscored (db_down_save_fails _)).
  destruct (failed_save_run env_db_down (PyInt 15000) (fresh_world None) _ _ _
              Hscored (db_down_save_fails _)) as (w' & tr & Hrun & _ & _ & Hses).
  rewrite (main_clicked env_db_down ui_accepts_all (PyInt 15000) (fresh_world None) w'
             eq_refl Hrun) in Hclaim.
  change (session (fresh_world None)) with (fresh_session None) in Hclaim.
  rewrite (pipeline_after_scoring _ _ _ _ _ Hscored), db_down_save_fails in Hclaim.
  rewrite show_results_none in Hclaim by (rewrite Hses; reflexivity).
  discriminate Hclaim.
Qed.

(** C5 (amended): if the persistence write fails after scoring has
    completed, the handler does not raise: it shows the persistence error
    ("Error during processing: MongoDB error: ...") and returns; nothing
    is added to the database, and the session is left exactly as it was
    before the run. The profile and the assessment just computed are not
    stored in the session, so the report download offers what it offered
    before the run (the results of an earlier completed run, or
    nothing). *)
Theorem C5_failed_save_keeps_session env loan_amount (w : World)
    combined_data risk_assessment e :
  scoring_completed env (session w) loan_amount combined_data risk_assessment ->
  save_result env (application_record combined_data risk_assessment loan_amount) = Err e ->
  exists w' cause,
    process_application env loan_amount w = (Ok tt, w') /\
    exn_msg e = "MongoDB error: " +:+ exn_msg cause /\
    UiError ("Error during processing: " +:+ exn_msg e) ∈ events w' /\
    collection w' = collection w /\
    session w' = session w /\
    download_report env (session w') = download_report env (session w).
Proof.
  intros Hscored Hsave.
  destruct (failed_save_run _ _ _ _ _ _ Hscored Hsave) as (w' & tr & Hrun & Hev & Hcol & Hses).
  destruct (save_error_message _ _ _ Hsave) as [cause ->].
  exists w', cause. split; [exact Hrun|]. split; [reflexivity|].
  split.
  { rewrite Hev, !elem_of_app. right. right. apply elem_of_cons. now left. }
  split; [exact Hcol|]. split; [exact Hses|]. now rewrite Hses.
Qed.

(** The refused insert on a first run: the error is shown, and no report
    is offered. *)
Lemma C5_witness :
  exists w',
    process_application env_db_down (PyInt 15000) (fresh_world None) = (Ok tt, w') /\
    UiError "Error during processing: MongoDB error: localhost:27017: [Errno 111] Connection refused"
      ∈ events w' /\
    collection w' = [] /\
    download_report env_db_down (session w') = None.
Proof.
  destruct db_down_scoring as (combined_data & risk_assessment & Hscored).
  destruct (C5_failed_save_keeps_session env_db_down (PyInt 15000) (fresh_world None)
              combined_data risk_assessment _ Hscored (db_down_save_fails _))
    as (w' & cause & Hrun & _ & Herr & Hcol & _ & Hdl).
  exists w'. split; [exact Hrun|]. split; [exact Herr|]. split; [exact Hcol|].
  rewrite Hdl. reflexivity.
Defined.

(** ** An answer without choices *)

(** Such an answer is neither absorbed into the fallback nor returned:
    the [ValueError] of line 338 is caught by neither [except] clause. The
    run of the handler ends in failure: the error is shown, nothing is
    saved and the session has no result. *)
Lemma no_choices_propagates :
  (analyze_risk env_no_choices sample_profile (PyInt 15000) (fresh_world None)).1
    = Err (Raise ValueError "No response from Ministral-3B") /\
  exists w',
    process_application env_no_choices (PyInt 15000) (fresh_world None) = (Ok tt, w') /\
    UiError "Error during processing: No response from Ministral-3B" ∈ events w' /\
    collection w' = [] /\
    session w' = fresh_session None.
Proof.
  split; [vm_compute; reflexivity|].
  assert ((pipeline env_no_choices (fresh_session None) (PyInt 15000)).2
            = Err (Raise ValueError "No response from Ministral-3B")) as Hres
    by (vm_compute; reflexivity).
  destruct (process_application_run env_no_choices (PyInt 15000) (fresh_world None))
    as (w' & Hrun & Hobs).
  change (session (fresh_world None)) with (fresh_session None) in Hobs.
  destruct (pipeline env_no_choices (fresh_session None) (PyInt 15000)) as [tr r].
  cbn [snd] in Hres. subst r. destruct Hobs as (Hev & Hcol & Hses).
  exists w'. split; [exact Hrun|]. split.
  { rewrite Hev, !elem_of_app. right. right. apply elem_of_cons. now left. }
  split; [exact Hcol | exact Hses].
Qed.

(** ** What the caller of [analyze_risk] receives *)




(** * Further properties *)

(** ** Reading the answer of the document service *)

Lemma has_nonempty_list (d : pydict) key (l : list pyval) :
  d !! key = Some (PyList l) ->
  has_nonempty key (PyDict d) = Ok (negb (Nat.eqb (length l) 0)).
Proof.
  intros H. unfold has_nonempty. cbn [py_contains py_getitem]. rewrite H. cbn [rbind py_len].
  destruct l; reflexivity.
Qed.

Lemma has_nonempty_missing (d : pydict) key :
  d !! key = None -> has_nonempty key (PyDict d) = Ok false.
Proof. intros H. unfold has_nonempty. cbn [py_contains]. now rewrite H. Qed.

Lemma find_annotation_none env (images : list pydict) :
  Forall (fun img : pydict => img !! "image_annotation" = None) images ->
  find_annotation env (map PyDict images) = Ok None.
Proof.
  induction 1 as [|img images Himg _ IH]; [reflexivity|].
  cbn [map find_annotation py_contains]. rewrite Himg. cbn [rbind]. exact IH.
Qed.

Lemma find_annotation_first env (before : list pydict) (img : pydict) ann after :
  Forall (fun img : pydict => img !! "image_annotation" = None) before ->
  img !! "image_annotation" = Some ann ->
  find_annotation env (map PyDict before ++ PyDict img :: after)
    = (record <- annotation_record env ann ;; Ok (Some record))%result.
Proof.
  intros Hbefore Himg. induction Hbefore as [|b before Hb _ IH].
  - cbn [map app find_annotation py_contains py_getitem]. rewrite Himg. cbn [rbind].
    destruct ann; try reflexivity.
  - cbn [map app find_annotation py_contains]. rewrite Hb. cbn [rbind]. exact IH.
Qed.

Lemma read_first_page env response page document_type :
  first_page response page ->
  read_extraction env response document_type =
    (images_ok <- has_nonempty "images" (PyDict page) ;;
     found <- (if images_ok : bool then
                 images <- py_getitem (PyDict page) "images" ;;
                 items <- py_iter images ;;
                 find_annotation env items
               else Ok None) ;;
     match found with
     | Some record => Ok record
     | None =>
         has_md <- py_contains "markdown" (PyDict page) ;;
         if has_md : bool then
           md <- py_getitem (PyDict page) "markdown" ;;
           Ok (PyDict (dict_of [("raw_text", md); ("document_type", PyStr document_type)]))
         else Err (Raise ValueError "No data extracted from document")
     end)%result.
Proof.
  intros (r & rest & -> & Hpages). unfold read_extraction.
  rewrite (has_nonempty_list r "pages" _ Hpages). cbn [length Nat.eqb negb rbind].
  cbn [py_getitem]. rewrite Hpages. cbn [rbind py_getitem0]. reflexivity.
Qed.

Lemma read_annotated env response page document_type
    (before : list pydict) (img : pydict) ann after :
  first_page response page ->
  page !! "images" = Some (PyList (map PyDict before ++ PyDict img :: after)) ->
  Forall (fun img : pydict => img !! "image_annotation" = None) before ->
  img !! "image_annotation" = Some ann ->
  read_extraction env response document_type = annotation_record env ann.
Proof.
  intros Hpage Himages Hbefore Hann. rewrite (read_first_page _ _ _ _ Hpage).
  rewrite (has_nonempty_list page "images" _ Himages).
  rewrite length_app. cbn [length]. rewrite Nat.add_succ_r. cbn [Nat.eqb negb rbind].
  cbn [py_getitem]. rewrite Himages. cbn [rbind py_iter].
  rewrite (find_annotation_first env before img ann after Hbefore Hann).
  now destruct (annotation_record env ann).
Qed.

Lemma find_unannotated env page :
  unannotated page ->
  (images_ok <- has_nonempty "images" (PyDict page) ;;
   if images_ok : bool then
     images <- py_getitem (PyDict page) "images" ;;
     items <- py_iter images ;;
     find_annotation env items
   else Ok None)%result = Ok None.
Proof.
  intros [Hnone | (images & Himages & Hall)].
  - now rewrite (has_nonempty_missing page "images" Hnone).
  - rewrite (has_nonempty_list page "images" _ Himages).
    destruct (negb _); cbn [rbind]; [|reflexivity].
    cbn [py_getitem]. rewrite Himages. cbn [rbind py_iter].
    now apply find_annotation_none.
Qed.

Lemma read_markdown env response page document_type md :
  first_page response page ->
  unannotated page ->
  page !! "markdown" = Some md ->
  read_extraction env response document_type
    = Ok (PyDict (dict_of [("raw_text", md); ("document_type", PyStr document_type)])).
Proof.
  intros Hpage Hun Hmd. rewrite (read_first_page _ _ _ _ Hpage).
  destruct (has_nonempty "images" (PyDict page)) as [images_ok|e] eqn:Hok;
    pose proof (find_unannotated env page Hun) as Hfind; rewrite Hok in Hfind;
    cbn [rbind] in Hfind |- *; [|discriminate Hfind].
  rewrite Hfind. cbn [rbind py_contains py_getitem]. now rewrite Hmd.
Qed.

Lemma read_no_data env response document_type :
  no_pages response \/
  (exists page, first_page response page /\ unannotated page /\
                page !! "markdown" = None) ->
  read_extraction env response document_type
    = Err (Raise ValueError "No data extracted from document").
Proof.
  intros [(r & -> & [Hnone | Hempty]) | (page & Hpage & Hun & Hmd)].
  - unfold read_extraction. now rewrite (has_nonempty_missing r "pages" Hnone).
  - unfold read_extraction. now rewrite (has_nonempty_list r "pages" _ Hempty).
  - rewrite (read_first_page _ _ _ _ Hpage).
    destruct (has_nonempty "images" (PyDict page)) as [images_ok|e] eqn:Hok;
      pose proof (find_unannotated env page Hun) as Hfind; rewrite Hok in Hfind;
      cbn [rbind] in Hfind |- *; [|discriminate Hfind].
    rewrite Hfind. cbn [rbind py_contains]. now rewrite Hmd.
Qed.

(** A call for a registered category with a file: one request, and the
    answer read. *)
Lemma extract_answered env pdf_bytes document_type sch response w :
  lookup_schema document_type = Ok sch ->
  docai_post env (build_docai_payload (b64encode env pdf_bytes) sch document_type)
    = Ok response ->
  extract_document_data env (Some pdf_bytes) document_type w
    = (match read_extraction env response document_type with
       | Ok record => Ok record
       | Err e => Err (wrap_extraction_error e)
       end,
       add_events
         [DocaiRequest (build_docai_payload (b64encode env pdf_bytes) sch document_type)] w).
Proof.
  intros Hsch Hpost. rewrite extract_run.
  unfold extraction_result, extraction_requests. cbn [file_read rbind].
  rewrite Hsch. cbn [rbind]. now rewrite Hpost.
Qed.

(** X1: of the first page's images, the first that carries an annotation
    decides the record, whatever the later images, the markdown and the
    later pages hold. An annotation that is not a string is the record; a
    string is decoded as JSON, and a string that is not JSON makes the
    extraction fail. *)
Theorem X1_first_annotation_decides env pdf_bytes document_type sch response page
    (before : list pydict) (img : pydict) ann after w :
  lookup_schema document_type = Ok sch ->
  docai_post env (build_docai_payload (b64encode env pdf_bytes) sch document_type)
    = Ok response ->
  first_page response page ->
  page !! "images" = Some (PyList (map PyDict before ++ PyDict img :: after)) ->
  Forall (fun img : pydict => img !! "image_annotation" = None) before ->
  img !! "image_annotation" = Some ann ->
  ((forall txt, ann <> PyStr txt) ->
     (extract_document_data env (Some pdf_bytes) document_type w).1 = Ok ann) /\
  (forall txt record, ann = PyStr txt -> json_loads env txt = inr record ->
     (extract_document_data env (Some pdf_bytes) document_type w).1 = Ok record) /\
  (forall txt msg, ann = PyStr txt -> json_loads env txt = inl msg ->
     (extract_document_data env (Some pdf_bytes) document_type w).1
       = Err (Raise Exception ("Extraction error: " +:+ msg))).
Proof.
  intros Hsch Hpost Hpage Himages Hbefore Hann.
  rewrite (extract_answered _ _ _ _ _ w Hsch Hpost). cbn [fst].
  rewrite (read_annotated _ _ _ _ _ _ _ _ Hpage Himages Hbefore Hann).
  repeat split.
  - intros Hnot. destruct ann; try reflexivity. now destruct (Hnot s).
  - intros txt record -> Hloads. cbn [annotation_record]. unfold py_json_loads.
    now rewrite Hloads.
  - intros txt msg -> Hloads. cbn [annotation_record]. unfold py_json_loads.
    now rewrite Hloads.
Qed.

(** The sample service annotates the only image of the only page. *)
Lemma X1_witness :
  (extract_document_data sample_env (Some "%PDF-id") "identity" (fresh_world None)).1
    = Ok (PyDict sample_identity).
Proof.
  destruct (lookup_schema "identity") as [sch|e] eqn:Hsch;
    [|vm_compute in Hsch; discriminate Hsch].
  refine (proj1 (X1_first_annotation_decides sample_env "%PDF-id" "identity" sch _
            (dict_of [("images", PyList [PyDict (dict_of [
               ("image_annotation", PyDict sample_identity)])])])
            [] (dict_of [("image_annotation", PyDict sample_identity)])
            (PyDict sample_identity) [] (fresh_world None) Hsch eq_refl _ _ _ _) _).
  - eexists _, []. split; reflexivity.
  - vm_compute. reflexivity.
  - constructor.
  - vm_compute. reflexivity.
  - discriminate.
Defined.

(** X2: when no image of the first page carries an annotation and the
    page has markdown, the record is the degraded one, with exactly the
    keys raw_text (the markdown) and document_type (the category). *)
Theorem X2_markdown_fallback env pdf_bytes document_type sch response page md w :
  lookup_schema document_type = Ok sch ->
  docai_post env (build_docai_payload (b64encode env pdf_bytes) sch document_type)
    = Ok response ->
  first_page response page ->
  unannotated page ->
  page !! "markdown" = Some md ->
  exists record,
    (extract_document_data env (Some pdf_bytes) document_type w).1 = Ok (PyDict record) /\
    record !! "raw_text" = Some md /\
    record !! "document_type" = Some (PyStr document_type) /\
    dom record = {["raw_text"; "document_type"]}.
Proof.
  intros Hsch Hpost Hpage Hun Hmd.
  exists (dict_of [("raw_text", md); ("document_type", PyStr document_type)]).
  rewrite (extract_answered _ _ _ _ _ w Hsch Hpost). cbn [fst].
  rewrite (read_markdown _ _ _ _ _ Hpage Hun Hmd).
  split; [reflexivity|]. split; [dict_lookup|]. split; [dict_lookup|].
  unfold dict_of. rewrite !dict_update_cons, dict_update_nil.
  rewrite !dom_insert_L, dom_empty_L. set_solver.
Qed.

Lemma X2_witness :
  exists record,
    (extract_document_data env_markdown_only (Some "%PDF-pay") "income"
       (fresh_world None)).1 = Ok (PyDict record) /\
    record !! "raw_text" = Some (PyStr "# Pay slip").
Proof.
  destruct (lookup_schema "income") as [sch|e] eqn:Hsch;
    [|vm_compute in Hsch; discriminate Hsch].
  destruct (X2_markdown_fallback env_markdown_only "%PDF-pay" "income" sch _
              (dict_of [("images", PyList []); ("markdown", PyStr "# Pay slip")])
              (PyStr "# Pay slip") (fresh_world None) Hsch eq_refl)
    as (record & Hrun & Hraw & _).
  - eexists _, []. split; reflexivity.
  - right. exists []. split; [vm_compute; reflexivity | constructor].
  - vm_compute. reflexivity.
  - exists record. split; assumption.
Defined.

(** X3: only the first page is read. An answer without pages, and an
    answer whose first page has neither an annotated image nor markdown,
    fail with "No data extracted from document", whatever the later pages
    hold; the request has been sent. *)
Theorem X3_no_data env pdf_bytes document_type sch response w :
  lookup_schema document_type = Ok sch ->
  docai_post env (build_docai_payload (b64encode env pdf_bytes) sch document_type)
    = Ok response ->
  no_pages response \/
  (exists page, first_page response page /\ unannotated page /\
                page !! "markdown" = None) ->
  extract_document_data env (Some pdf_bytes) document_type w
    = (Err (Raise Exception "Extraction error: No data extracted from document"),
       add_events
         [DocaiRequest (build_docai_payload (b64encode env pdf_bytes) sch document_type)] w).
Proof.
  intros Hsch Hpost Hshape.
  rewrite (extract_answered _ _ _ _ _ w Hsch Hpost).
  now rewrite (read_no_data env response document_type Hshape).
Qed.

Lemma X3_witness :
  (extract_document_data env_blank_first_page (Some "%PDF-pay") "income"
     (fresh_world None)).1
    = Err (Raise Exception "Extraction error: No data extracted from document").
Proof.
  destruct (lookup_schema "income") as [sch|e] eqn:Hsch;
    [|vm_compute in Hsch; discriminate Hsch].
  rewrite (X3_no_data env_blank_first_page "%PDF-pay" "income" sch _ (fresh_world None)
             Hsch eq_refl); [reflexivity|].
  right. exists (dict_of [("index", PyInt 0)]). split; [|split].
  - eexists _, [_]. split; reflexivity.
  - left. vm_compute. reflexivity.
  - vm_compute. reflexivity.
Defined.

(** X4: whatever goes wrong in extract_document_data, the caller sees a
    plain Exception whose text is the text of the cause behind one of two
    prefixes: "Document AI API error: " when the cause is a
    RequestException, "Extraction error: " for every other cause. In
    particular a failure of the HTTP call is reported that way. *)
Theorem X4_extraction_errors env pdf_file document_type w :
  (forall e, (extract_document_data env pdf_file document_type w).1 = Err e ->
     exists cause,
       e = Raise Exception
             ((if is_RequestException cause
               then "Document AI API error: " else "Extraction error: ")
              +:+ exn_msg cause)) /\
  (forall pdf_bytes sch cause,
     pdf_file = Some pdf_bytes ->
     lookup_schema document_type = Ok sch ->
     docai_post env (build_docai_payload (b64encode env pdf_bytes) sch document_type)
       = Err cause ->
     (extract_document_data env pdf_file document_type w).1
       = Err (Raise Exception
                ((if is_RequestException cause
                  then "Document AI API error: " else "Extraction error: ")
                 +:+ exn_msg cause))).
Proof.
  rewrite extract_run. cbn [fst]. unfold extraction_result. split.
  - intros e. destruct (rbind _ _) as [v|cause]; [discriminate|].
    intros H. injection H as <-. exists cause. unfold wrap_extraction_error.
    now destruct (is_RequestException cause).
  - intros pdf_bytes sch cause -> Hsch Hpost. cbn [file_read rbind].
    rewrite Hsch. cbn [rbind]. rewrite Hpost. cbn [rbind].
    unfold wrap_extraction_error. now destruct (is_RequestException cause).
Qed.

(** The pay slip cannot be read: a transport error, reported as such. *)
Lemma X4_witness :
  (extract_document_data env_income_unreadable (Some "%PDF-pay") "income"
     (fresh_world None)).1
    = Err (Raise Exception
             "Document AI API error: 503 Server Error: Service Unavailable").
Proof.
  destruct (lookup_schema "income") as [sch|e] eqn:Hsch;
    [|vm_compute in Hsch; discriminate Hsch].
  exact (proj2 (X4_extraction_errors env_income_unreadable (Some "%PDF-pay") "income"
                  (fresh_world None))
           "%PDF-pay" sch (Raise RequestException "503 Server Error: Service Unavailable")
           eq_refl Hsch eq_refl).
Defined.

(** X5: a call of extract_document_data changes nothing of the world but
    the log of requests, to which it adds at most one request: none when
    the file is missing or the category is not registered; otherwise one,
    for the model "mistral-document-ai-2505", carrying the file as a
    base64 data URL and the schema registered for the category, named
    "<category>_extraction", with strict set and images left out. *)
Theorem X5_one_request env pdf_file document_type w :
  heap (extract_document_data env pdf_file document_type w).2 = heap w /\
  collection (extract_document_data env pdf_file document_type w).2 = collection w /\
  session (extract_document_data env pdf_file document_type w).2 = session w /\
  ((exists pdf_bytes sch,
      pdf_file = Some pdf_bytes /\ SCHEMAS !! document_type = Some sch /\
      events (extract_document_data env pdf_file document_type w).2
        = events w ++
          [DocaiRequest
             {| dp_model := "mistral-document-ai-2505";
                dp_document_url := "data:application/pdf;base64," +:+ b64encode env pdf_bytes;
                dp_schema := sch;
                dp_schema_name := document_type +:+ "_extraction";
                dp_strict := true;
                dp_include_image_base64 := false |}]) \/
   ((pdf_file = None \/ SCHEMAS !! document_type = None) /\
    events (extract_document_data env pdf_file document_type w).2 = events w)).
Proof.
  rewrite extract_run. cbn [snd heap collection session events add_events].
  repeat split. unfold extraction_requests, lookup_schema.
  destruct pdf_file as [pdf_bytes|]; cbn [file_read].
  - destruct (SCHEMAS !! document_type) as [sch|] eqn:Hsch.
    + left. exists pdf_bytes, sch. auto.
    + right. split; [now right | apply app_nil_r].
  - right. split; [now left | apply app_nil_r].
Qed.

(** ** More on the combined profile *)

(** X6: the profile's monthly_net_income is the income record's value
    when the record has the key; otherwise it is 0.7 times the gross
    income, as a float, and 0.0 when the gross income is missing too. The
    gross income itself is copied, or 0 when missing. *)
Theorem X6_net_income_fallback env identity_data income_data bank_data combined :
  combine_extracted_data env identity_data income_data bank_data = Ok combined ->
  combined !! "monthly_gross_income"
    = Some (dict_get income_data "monthly_gross_income" (PyInt 0)) /\
  (forall net, income_data !! "monthly_net_income" = Some net ->
     combined !! "monthly_net_income" = Some net) /\
  (income_data !! "monthly_net_income" = None ->
     exists gross,
       as_float (dict_get income_data "monthly_gross_income" (PyInt 0)) = Ok gross /\
       combined !! "monthly_net_income" = Some (PyFloat (PrimFloat.mul gross 0.7%float))) /\
  (income_data !! "monthly_net_income" = None ->
   income_data !! "monthly_gross_income" = None ->
     combined !! "monthly_net_income" = Some (PyFloat 0%float)).
Proof.
  intros H.
  destruct (combined_base_field _ _ _ _ _ "monthly_gross_income" H) as [nd1 Hg];
    try discriminate.
  assert (exists nd gross,
            as_float (dict_get income_data "monthly_gross_income" (PyInt 0)) = Ok gross /\
            nd = PrimFloat.mul gross 0.7%float /\
            combined !! "monthly_net_income"
              = Some (dict_get income_data "monthly_net_income" (PyFloat nd)))
    as (nd & gross & Hgross & Hnd & Hnet).
  { pose proof H as H'. apply combine_inv in H' as (nd & Hmul & ->).
    unfold py_mul_float in Hmul.
    destruct (as_float _) as [gross|e]; cbn [rbind] in Hmul; [|discriminate Hmul].
    apply Ok_inj in Hmul. exists nd, gross. split; [reflexivity|]. split; [now subst|].
    rewrite dict_update_other by (apply bank_update_keys; discriminate).
    unfold base_profile. dict_lookup. }
  split.
  { rewrite Hg. unfold base_profile. dict_lookup. }
  split; [intros net Hn; now rewrite Hnet, (dict_get_Some _ _ _ _ Hn)|].
  split.
  - intros Hn. exists gross. split; [exact Hgross|].
    now rewrite Hnet, (dict_get_None _ _ _ Hn), Hnd.
  - intros Hn Hgr. rewrite Hnet, (dict_get_None _ _ _ Hn), Hnd.
    rewrite (dict_get_None _ _ _ Hgr) in Hgross. vm_compute in Hgross.
    apply Ok_inj in Hgross. subst gross. reflexivity.
Qed.

(** A gross income of 3000 without a net income gives 2100.0. *)
Lemma X6_witness :
  exists combined,
    combine_extracted_data sample_env sample_identity sample_income None = Ok combined /\
    combined !! "monthly_net_income" = Some (PyFloat 2100%float).
Proof.
  destruct (combine_returns sample_env sample_identity sample_income None 3000%float)
    as [combined H]; [vm_compute; reflexivity|].
  exists combined. split; [exact H|].
  destruct (X6_net_income_fallback _ _ _ _ _ H) as (_ & _ & Hdefault & _).
  destruct Hdefault as (gross & Hgross & Hnet); [vm_compute; reflexivity|].
  rewrite Hnet. vm_compute in Hgross. apply Ok_inj in Hgross. subst gross.
  vm_compute. reflexivity.
Defined.

(** X7: combine_extracted_data raises exactly when the gross income of the
    income record is not a number a float can hold, and then with the
    exception of the multiplication by 0.7: the default for the net income
    is computed before it is known to be needed, so this holds even when
    the record has a net income. *)
Theorem X7_combine_fails_on_gross env identity_data income_data bank_data e :
  combine_extracted_data env identity_data income_data bank_data = Err e <->
  as_float (dict_get income_data "monthly_gross_income" (PyInt 0)) = Err e.
Proof.
  unfold combine_extracted_data, py_mul_float.
  destruct (as_float _) as [gross|e0]; cbn [rbind]; split; intros H;
    try discriminate H; injection H as <-; reflexivity.
Qed.

(** X8: whatever the records hold, a profile has the same fifteen keys. *)
Theorem X8_profile_keys env identity_data income_data bank_data combined :
  combine_extracted_data env identity_data income_data bank_data = Ok combined ->
  dom combined =
    {[ "full_name"; "date_of_birth"; "document_number"; "address"; "employer_name";
       "job_title"; "monthly_gross_income"; "monthly_net_income";
       "employment_start_date"; "employment_months"; "contract_type";
       "average_balance"; "total_expenses"; "recurring_loan_payments";
       "overdraft_occurrences" ]}.
Proof.
  intros H. apply combine_inv in H as (nd & _ & ->).
  unfold base_profile, bank_update, dict_of.
  destruct bank_data as [bank|]; [destruct (truthy (PyDict bank))|];
    unfold bank_fields, no_bank_fields;
    rewrite !dict_update_cons, !dict_update_nil, !dom_insert_L, dom_empty_L;
    set_solver.
Qed.

Lemma X8_witness :
  exists combined,
    combine_extracted_data sample_env ∅ ∅ None = Ok combined /\
    size (dom combined) = 15%nat.
Proof.
  destruct (combine_returns sample_env ∅ ∅ None 0%float) as [combined H];
    [vm_compute; reflexivity|].
  exists combined. split; [exact H|].
  rewrite (X8_profile_keys _ _ _ _ _ H). vm_compute. reflexivity.
Defined.

Lemma dict_get_ext (d1 d2 : pydict) key default :
  d1 !! key = d2 !! key -> dict_get d1 key default = dict_get d2 key default.
Proof. intros H. unfold dict_get. now rewrite H. Qed.

(** X9: the outcome of combining depends on the identity record only
    through four keys and on the income record only through seven: records
    that agree on them give the same profile, or the same error. Whatever
    else the document service returned (nationality, expiry date, payment
    date, the raw text of a degraded record) has no influence. *)
Theorem X9_only_read_fields env (identity1 identity2 income1 income2 : pydict) bank_data :
  (forall key, key ∈ identity_fields_read -> identity1 !! key = identity2 !! key) ->
  (forall key, key ∈ income_fields_read -> income1 !! key = income2 !! key) ->
  combine_extracted_data env identity1 income1 bank_data
    = combine_extracted_data env identity2 income2 bank_data.
Proof.
  intros Hi Hn.
  assert (forall key default, key ∈ identity_fields_read ->
            dict_get identity1 key default = dict_get identity2 key default) as Hi'
    by (intros; apply dict_get_ext; auto).
  assert (forall key default, key ∈ income_fields_read ->
            dict_get income1 key default = dict_get income2 key default) as Hn'
    by (intros; apply dict_get_ext; auto).
  unfold combine_extracted_data.
  rewrite (Hn' "applicant_name"), (Hi' "full_name"), (Hi' "date_of_birth"),
    (Hi' "document_number"), (Hi' "address"), (Hn' "employer_name"), (Hn' "job_title"),
    !(Hn' "monthly_gross_income"), (Hn' "employment_start_date"), (Hn' "contract_type")
    by (unfold identity_fields_read, income_fields_read; repeat constructor).
  destruct (py_mul_float _ _) as [nd|e]; cbn [rbind]; [|reflexivity].
  now rewrite (Hn' "monthly_net_income")
    by (unfold income_fields_read; repeat constructor).
Qed.

(** Two degraded records (raw text only) count as two empty ones. *)
Lemma X9_witness :
  combine_extracted_data sample_env
    (dict_of [("raw_text", PyStr "JEAN DUPONT"); ("document_type", PyStr "identity")])
    (dict_of [("raw_text", PyStr "ACME PAYSLIP"); ("document_type", PyStr "income")])
    None
  = combine_extracted_data sample_env ∅ ∅ None.
Proof.
  apply X9_only_read_fields; intros key Hkey;
    repeat (apply elem_of_cons in Hkey as [->|Hkey]; [vm_compute; reflexivity|]);
    now apply elem_of_nil in Hkey.
Defined.

(** X10: a profile built without a bank statement (none uploaded, or an
    empty record) can always be scored for a numeric loan amount: the
    monthly payment is 2% of the amount, the total debt is that payment
    added to 0, and the ratio divides it by the gross income read from the
    pay slip when that income is positive and is 1 otherwise. *)
Theorem X10_profile_metrics env identity_data income_data bank_data combined loan_amount a :
  combine_extracted_data env identity_data income_data bank_data = Ok combined ->
  bank_data = None \/ bank_data = Some ∅ ->
  as_float loan_amount = Ok a ->
  let income := dict_get income_data "monthly_gross_income" (PyInt 0) in
  let payment := PrimFloat.mul a payment_rate in
  let debt := PrimFloat.add 0%float payment in
  exists g positive,
    as_float income = Ok g /\
    py_gt_zero income = Ok positive /\
    analyze_risk_metrics combined loan_amount
      = Ok (payment, debt, if positive then PrimFloat.div debt g else 1%float).
Proof.
  intros Hc Hbank Ha income payment debt.
  destruct (combine_inv _ _ _ _ _ Hc) as (net_default & Hnet & ->).
  unfold py_mul_float in Hnet. fold income in Hnet.
  destruct (as_float income) as [g|e] eqn:Hg; [|discriminate Hnet].
  assert (exists positive, py_gt_zero income = Ok positive) as [positive Hpos].
  { destruct income; try discriminate Hg; cbn; eauto. }
  exists g, positive. split; [reflexivity|]. split; [exact Hpos|].
  assert (bank_update bank_data = no_bank_fields) as ->
    by (destruct Hbank as [-> | ->]; reflexivity).
  unfold analyze_risk_metrics.
  assert (dict_update (base_profile env identity_data income_data net_default) no_bank_fields
            !! "monthly_gross_income" = Some income) as Hgross
    by (unfold base_profile, no_bank_fields; dict_lookup).
  assert (dict_update (base_profile env identity_data income_data net_default) no_bank_fields
            !! "recurring_loan_payments" = Some (PyInt 0)) as Hrec
    by (unfold base_profile, no_bank_fields; dict_lookup).
  rewrite (dict_get_Some _ _ _ _ Hgross), (dict_get_Some _ _ _ _ Hrec).
  unfold py_mul_float, py_add_float. rewrite Ha. cbn [rbind].
  change (as_float (PyInt 0)) with (Ok (float_of_Z 0)). cbn [rbind].
  rewrite Hpos. cbn [rbind].
  change (float_of_Z 0) with 0%float.
  destruct positive; [|reflexivity].
  unfold py_float_div. rewrite Hg. cbn [rbind].
  now rewrite (gt_zero_not_zero _ Hpos).
Qed.

Lemma X10_witness :
  exists combined,
    combine_extracted_data sample_env sample_identity sample_income None = Ok combined /\
    analyze_risk_metrics combined (PyInt 15000)
      = Ok (300%float, 300%float, PrimFloat.div 300%float 3000%float).
Proof.
  destruct (combine_returns sample_env sample_identity sample_income None 3000%float)
    as [combined Hc]; [vm_compute; reflexivity|].
  exists combined. split; [exact Hc|].
  destruct (X10_profile_metrics sample_env sample_identity sample_income None combined
              (PyInt 15000) 15000%float Hc (or_introl eq_refl) eq_refl)
    as (g & positive & Hg & Hpos & Hm).
  vm_compute in Hg. apply Ok_inj in Hg. subst g.
  vm_compute in Hpos. apply Ok_inj in Hpos. subst positive.
  exact Hm.
Defined.

(** ** More on the scoring *)

Lemma py_gt_zero_error v e :
  py_gt_zero v = Err e -> exn_cls e = TypeError.
Proof. destruct v; cbn; intros H; try discriminate H; now injection H as <-. Qed.

Lemma as_float_error_class v e :
  as_float v = Err e -> exn_cls e = TypeError \/ exn_cls e = OverflowError.
Proof.
  destruct v; cbn; intros H; try discriminate H; try (injection H as <-; now left).
  destruct (is_infinite _); [injection H as <-; now right | discriminate H].
Qed.

Lemma format_2f_error_class v e :
  format_2f v = Err e ->
  exn_cls e = TypeError \/ exn_cls e = ValueError \/ exn_cls e = OverflowError.
Proof.
  destruct v; cbn [format_2f]; intros H;
    try (injection H as <-; cbn; tauto);
    apply as_float_error_class in H; tauto.
Qed.

(** The deterministic phase raises nothing but these three classes. *)
Lemma metrics_error_class combined_data loan_amount e :
  analyze_risk_metrics combined_data loan_amount = Err e ->
  exn_cls e = TypeError \/ exn_cls e = OverflowError.
Proof.
  unfold analyze_risk_metrics, py_mul_float, py_add_float. intros H.
  destruct (as_float loan_amount) as [a|e1] eqn:Ha; cbn [rbind] in H;
    [|injection H as <-; now apply as_float_error_class in Ha].
  destruct (as_float (dict_get combined_data "recurring_loan_payments" (PyInt 0)))
    as [r|e1] eqn:Hr; cbn [rbind] in H;
    [|injection H as <-; now apply as_float_error_class in Hr].
  destruct (py_gt_zero (dict_get combined_data "monthly_gross_income" (PyInt 0)))
    as [positive|e1] eqn:Hp; cbn [rbind] in H;
    [|injection H as <-; left; now apply py_gt_zero_error in Hp].
  destruct positive; [|discriminate H].
  unfold py_float_div in H.
  destruct (as_float (dict_get combined_data "monthly_gross_income" (PyInt 0)))
    as [g|e1] eqn:Hg; cbn [rbind] in H;
    [|injection H as <-; now apply as_float_error_class in Hg].
  rewrite (gt_zero_not_zero _ Hp) in H. discriminate H.
Qed.

Lemma build_prompt_error_class combined_data loan_amount payment debt dti e :
  build_prompt combined_data loan_amount payment debt dti = Err e ->
  exn_cls e = TypeError \/ exn_cls e = ValueError \/ exn_cls e = OverflowError.
Proof.
  unfold build_prompt. intros H.
  destruct (format_2f (dict_get combined_data "monthly_gross_income" (PyInt 0)))
    as [x|e1] eqn:H1; cbn [rbind] in H;
    [|injection H as <-; now apply format_2f_error_class in H1].
  destruct (format_2f (dict_get combined_data "recurring_loan_payments" (PyInt 0)))
    as [y|e1] eqn:H2; cbn [rbind] in H;
    [|injection H as <-; now apply format_2f_error_class in H2].
  destruct (format_2f loan_amount) as [z|e1] eqn:H3; cbn [rbind] in H;
    [discriminate H | injection H as <-; now apply format_2f_error_class in H3].
Qed.

(** X11: when the numbers of the profile or the loan amount cannot be
    computed with or formatted (lines 244-260), analyze_risk raises that
    error as it is, a TypeError, ValueError or OverflowError: it is not
    turned into the fallback assessment, and the reasoning model is not
    called. *)
Theorem X11_scoring_input_errors env combined_data loan_amount e (w : World) :
  analyze_risk_metrics combined_data loan_amount = Err e \/
  (exists payment debt dti,
     analyze_risk_metrics combined_data loan_amount = Ok (payment, debt, dti) /\
     build_prompt combined_data loan_amount payment debt dti = Err e) ->
  analyze_risk env combined_data loan_amount w = (Err e, w) /\
  (exn_cls e = TypeError \/ exn_cls e = ValueError \/ exn_cls e = OverflowError).
Proof.
  intros H. rewrite analyze_risk_run. unfold risk_result, risk_requests.
  destruct H as [Hm | (payment & debt & dti & Hm & Hp)].
  - rewrite Hm. cbn [rbind]. rewrite add_events_nil. split; [reflexivity|].
    apply metrics_error_class in Hm. tauto.
  - rewrite Hm. cbn [rbind]. rewrite !Hp. cbn [rbind]. rewrite add_events_nil.
    destruct (build_prompt_error_not_handled _ _ _ _ _ _ Hp) as [Hreq Hjson].
    unfold risk_handlers. rewrite Hreq, Hjson. split; [reflexivity|].
    now apply build_prompt_error_class in Hp.
Qed.

(** The document service returned the salary as a text. *)
Lemma X11_witness :
  analyze_risk sample_env (dict_of [("monthly_gross_income", PyStr "3000")]) (PyInt 15000)
    (fresh_world None)
  = (Err (Raise TypeError "'>' not supported between instances"), fresh_world None).
Proof.
  apply (X11_scoring_input_errors sample_env). left. vm_compute. reflexivity.
Defined.

Lemma py_contains_error key v e :
  py_contains key v = Err e -> exn_cls e = TypeError.
Proof. destruct v; cbn; intros H; try discriminate H; now injection H as <-. Qed.

Lemma py_getitem_error v key e :
  py_getitem v key = Err e -> exn_cls e = TypeError \/ exn_cls e = KeyError.
Proof.
  destruct v; cbn; intros H; try (injection H as <-; now left).
  destruct (_ !! _); [discriminate H | injection H as <-; now right].
Qed.

Lemma py_getitem0_error v e :
  py_getitem0 v = Err e ->
  exn_cls e = TypeError \/ exn_cls e = KeyError \/ exn_cls e = IndexError.
Proof.
  destruct v as [| | | |s|l| |]; cbn; intros H; try (injection H as <-; tauto).
  - destruct s; [injection H as <-; tauto | discriminate H].
  - destruct l; [injection H as <-; tauto | discriminate H].
Qed.

Lemma py_len_error v e : py_len v = Err e -> exn_cls e = TypeError.
Proof. destruct v; cbn; intros H; try discriminate H; now injection H as <-. Qed.

Lemma py_strip_error v e : py_strip v = Err e -> exn_cls e = AttributeError.
Proof. destruct v; cbn; intros H; try discriminate H; now injection H as <-. Qed.

Lemma has_nonempty_error key v e :
  has_nonempty key v = Err e -> exn_cls e = TypeError.
Proof.
  unfold has_nonempty. intros H.
  destruct (py_contains key v) as [has|e1] eqn:Hc; cbn [rbind] in H;
    [|injection H as <-; now apply py_contains_error in Hc].
  destruct has; [|discriminate H].
  destruct v; try discriminate Hc; cbn [py_getitem] in H.
  - cbn in H. now injection H as <-.
  - cbn in H. now injection H as <-.
  - cbn [py_contains] in Hc. destruct (_ !! _) as [items|]; [|discriminate Hc].
    cbn [rbind] in H. destruct (py_len items) as [n|e1] eqn:Hl; cbn [rbind] in H;
      [discriminate H | injection H as <-; now apply py_len_error in Hl].
Qed.

Lemma first_choice_content_error response e :
  first_choice_content response = Err e -> reading_error e.
Proof.
  unfold first_choice_content, reading_error. intros H.
  destruct (has_nonempty "choices" response) as [ok|e1] eqn:H0; cbn [rbind] in H;
    [|injection H as <-; apply has_nonempty_error in H0; tauto].
  destruct ok; [|injection H as <-; cbn; tauto].
  destruct (py_getitem response "choices") as [choices|e1] eqn:H1; cbn [rbind] in H;
    [|injection H as <-; apply py_getitem_error in H1; tauto].
  destruct (py_getitem0 choices) as [choice|e1] eqn:H2; cbn [rbind] in H;
    [|injection H as <-; apply py_getitem0_error in H2; tauto].
  destruct (py_getitem choice "message") as [message|e1] eqn:H3; cbn [rbind] in H;
    [|injection H as <-; apply py_getitem_error in H3; tauto].
  destruct (py_getitem message "content") as [content|e1] eqn:H4; cbn [rbind] in H;
    [|injection H as <-; apply py_getitem_error in H4; tauto].
  apply py_strip_error in H. tauto.
Qed.

(** X12: an answer of the reasoning model (HTTP 200, a JSON body) in which
    the text of the first choice cannot be found makes analyze_risk raise,
    after the request was sent, the error of the reading, which is a
    ValueError, TypeError, KeyError, IndexError or AttributeError. For a
    body that is an object: a missing or empty list of choices gives the
    ValueError of line 338; a first choice without message the KeyError
    of 'message'; a message without content the KeyError of 'content'; a
    content that is no text (null, a number, a list) the AttributeError of
    strip; a content that is a text is read, stripped. None of the errors
    is caught by the two except clauses, so there is no fallback
    assessment. *)
Theorem X12_unreadable_answer_raises env combined_data loan_amount
    payment debt dti prompt response (w : World) :
  analyze_risk_metrics combined_data loan_amount = Ok (payment, debt, dti) ->
  build_prompt combined_data loan_amount payment debt dti = Ok prompt ->
  ministral_post env (build_chat_payload prompt) = Ok response ->
  let sent := add_events [MinistralRequest (build_chat_payload prompt)] w in
  let raises e := analyze_risk env combined_data loan_amount w = (Err e, sent) in
  (forall e, first_choice_content response = Err e -> raises e /\ reading_error e) /\
  (forall r, response = PyDict r ->
     (r !! "choices" = None \/ r !! "choices" = Some (PyList []) ->
        raises (Raise ValueError "No response from Ministral-3B")) /\
     (forall choice rest, r !! "choices" = Some (PyList (PyDict choice :: rest)) ->
        (choice !! "message" = None -> raises (Raise KeyError "'message'")) /\
        (forall message, choice !! "message" = Some (PyDict message) ->
           (message !! "content" = None -> raises (Raise KeyError "'content'")) /\
           (forall content, message !! "content" = Some content ->
              (forall text, content <> PyStr text) ->
              raises (Raise AttributeError "object has no attribute 'strip'")) /\
           (forall text, message !! "content" = Some (PyStr text) ->
              first_choice_content response = Ok (strip text))))).
Proof.
  intros Hm Hp Hpost sent raises.
  assert (forall e, first_choice_content response = Err e -> raises e /\ reading_error e)
    as Hgen.
  { intros e Hread. pose proof (first_choice_content_error _ _ Hread) as Hcls.
    split; [|exact Hcls]. unfold raises, sent.
    rewrite analyze_risk_run. unfold risk_result, risk_requests.
    rewrite Hm. cbn [rbind]. rewrite !Hp. cbn [rbind]. rewrite Hpost. cbn [rbind].
    rewrite read_assessment_content, Hread. cbn [rbind].
    unfold risk_handlers, is_RequestException, is_JSONDecodeError.
    destruct Hcls as [-> | [-> | [-> | [-> | ->]]]]; reflexivity. }
  split; [exact Hgen|].
  intros r ->. split.
  { intros Hnone. apply Hgen. unfold first_choice_content.
    destruct Hnone as [H | H].
    - now rewrite (has_nonempty_missing _ _ H).
    - now rewrite (has_nonempty_list _ _ _ H). }
  intros choice rest Hchoices.
  assert (first_choice_content (PyDict r)
            = (message <- py_getitem (PyDict choice) "message" ;;
               content <- py_getitem message "content" ;;
               py_strip content)%result) as Hread.
  { unfold first_choice_content. rewrite (has_nonempty_list _ _ _ Hchoices).
    cbn [length Nat.eqb negb rbind py_getitem]. rewrite Hchoices. reflexivity. }
  split.
  { intros Hmsg. apply Hgen. rewrite Hread. cbn [py_getitem]. now rewrite Hmsg. }
  intros message Hmsg.
  assert (first_choice_content (PyDict r)
            = (content <- py_getitem (PyDict message) "content" ;;
               py_strip content)%result) as Hread'.
  { rewrite Hread. cbn [py_getitem]. now rewrite Hmsg. }
  split; [|split].
  - intros Hcontent. apply Hgen. rewrite Hread'. cbn [py_getitem]. now rewrite Hcontent.
  - intros content Hcontent Htext. apply Hgen. rewrite Hread'. cbn [py_getitem].
    rewrite Hcontent. cbn [rbind].
    destruct content; try reflexivity. now destruct (Htext s).
  - intros text Hcontent. rewrite Hread'. cbn [py_getitem]. now rewrite Hcontent.
Qed.

(** A null content, an empty list of choices and a choice without
    message, each at the sample profile. *)
Lemma X12_witness :
  (analyze_risk env_null_content sample_profile (PyInt 15000) (fresh_world None)).1
    = Err (Raise AttributeError "object has no attribute 'strip'") /\
  (analyze_risk env_no_choices sample_profile (PyInt 15000) (fresh_world None)).1
    = Err (Raise ValueError "No response from Ministral-3B") /\
  (analyze_risk env_no_message sample_profile (PyInt 15000) (fresh_world None)).1
    = Err (Raise KeyError "'message'").
Proof.
  assert (analyze_risk_metrics sample_profile (PyInt 15000)
            = Ok (300%float, 500%float, PrimFloat.div 500%float 3000%float)) as Hmetrics
    by (vm_compute; reflexivity).
  destruct (build_prompt sample_profile (PyInt 15000) 300%float 500%float
              (PrimFloat.div 500%float 3000%float)) as [prompt|e0] eqn:Hprompt;
    [|vm_compute in Hprompt; discriminate Hprompt].
  split; [|split].
  - destruct (X12_unreadable_answer_raises env_null_content sample_profile (PyInt 15000)
                _ _ _ prompt (chat_response PyNone) (fresh_world None)
                Hmetrics Hprompt eq_refl) as [_ Hshape].
    destruct (Hshape _ eq_refl) as [_ Hchoice].
    destruct (Hchoice _ [] ltac:(vm_compute; reflexivity)) as [_ Hmessage].
    destruct (Hmessage _ ltac:(vm_compute; reflexivity)) as (_ & Hcontent & _).
    rewrite (Hcontent PyNone); [reflexivity | vm_compute; reflexivity | discriminate].
  - destruct (X12_unreadable_answer_raises env_no_choices sample_profile (PyInt 15000)
                _ _ _ prompt (PyDict (dict_of [("choices", PyList [])]))
                (fresh_world None) Hmetrics Hprompt eq_refl) as [_ Hshape].
    destruct (Hshape _ eq_refl) as [Hempty _].
    rewrite Hempty; [reflexivity | right; vm_compute; reflexivity].
  - destruct (X12_unreadable_answer_raises env_no_message sample_profile (PyInt 15000)
                _ _ _ prompt
                (PyDict (dict_of [("choices",
                                   PyList [PyDict (dict_of [("index", PyInt 0)])])]))
                (fresh_world None) Hmetrics Hprompt eq_refl) as [_ Hshape].
    destruct (Hshape _ eq_refl) as [_ Hchoice].
    destruct (Hchoice _ [] ltac:(vm_compute; reflexivity)) as [Hmessage _].
    rewrite Hmessage; [reflexivity | vm_compute; reflexivity].
Defined.

(** X13: analyze_risk sends at most one request to the reasoning model and
    never retries; the request has temperature 0.3 and at most 2000 tokens
    and its prompt carries the payment, the debt and the ratio computed
    before the call. Nothing else changes: no dictionary, no record of the
    database, nothing of the session. *)
Theorem X13_one_model_request env combined_data loan_amount (w : World) :
  let w' := (analyze_risk env combined_data loan_amount w).2 in
  heap w' = heap w /\ collection w' = collection w /\ session w' = session w /\
  (events w' = events w \/
   exists payload payment debt dti,
     events w' = events w ++ [MinistralRequest payload] /\
     analyze_risk_metrics combined_data loan_amount = Ok (payment, debt, dti) /\
     cp_temperature payload = 0.3%float /\
     cp_max_tokens payload = 2000 /\
     p_estimated_monthly_payment (cp_content payload) = payment /\
     p_total_debt (cp_content payload) = debt /\
     p_dti_ratio (cp_content payload) = dti).
Proof.
  rewrite analyze_risk_run. cbn [snd add_events heap collection session events].
  do 3 (split; [reflexivity|]).
  unfold risk_requests.
  destruct (analyze_risk_metrics combined_data loan_amount) as [[[payment debt] dti]|e] eqn:Hm;
    [|left; apply app_nil_r].
  destruct (build_prompt combined_data loan_amount payment debt dti) as [prompt|e] eqn:Hp;
    [|left; apply app_nil_r].
  right. exists (build_chat_payload prompt), payment, debt, dti.
  split; [reflexivity|]. split; [reflexivity|].
  unfold build_prompt in Hp.
  destruct (format_2f _) as [x|]; cbn [rbind] in Hp; [|discriminate Hp].
  destruct (format_2f _) as [y|]; cbn [rbind] in Hp; [|discriminate Hp].
  destruct (format_2f _) as [z|]; cbn [rbind] in Hp; [|discriminate Hp].
  apply Ok_inj in Hp. subst prompt. cbn. auto.
Qed.

(** ** The code fence around the model's answer *)

Lemma str_app_cons a s t : String a s +:+ t = String a (s +:+ t).
Proof. reflexivity. Qed.

Lemma str_app_nil_l t : "" +:+ t = t.
Proof. reflexivity. Qed.

Lemma str_app_nil_r s : s +:+ "" = s.
Proof.
  induction s as [|a s IH]; [reflexivity|]. now rewrite str_app_cons, IH.
Qed.

Lemma str_app_assoc s1 s2 s3 : (s1 +:+ s2) +:+ s3 = s1 +:+ (s2 +:+ s3).
Proof.
  induction s1 as [|a s1 IH]; [reflexivity|]. now rewrite !str_app_cons, IH.
Qed.

Lemma str_length_app s1 s2 :
  String.length (s1 +:+ s2) = (String.length s1 + String.length s2)%nat.
Proof.
  induction s1 as [|a s1 IH]; [reflexivity|]. rewrite str_app_cons. cbn. now rewrite IH.
Qed.

Lemma rev_app_spec s acc : String.rev_app s acc = String.rev s +:+ acc.
Proof.
  revert acc. induction s as [|a s IH]; intros acc; [reflexivity|].
  unfold String.rev. cbn [String.rev_app].
  rewrite (IH (String a acc)), (IH (String a "")), str_app_assoc. reflexivity.
Qed.

Lemma rev_cons a s : String.rev (String a s) = String.rev s +:+ String a "".
Proof. unfold String.rev at 1. cbn [String.rev_app]. apply rev_app_spec. Qed.

Lemma rev_app s1 s2 : String.rev (s1 +:+ s2) = String.rev s2 +:+ String.rev s1.
Proof.
  induction s1 as [|a s1 IH].
  - rewrite str_app_nil_l. change (String.rev "") with "". now rewrite str_app_nil_r.
  - now rewrite str_app_cons, !rev_cons, IH, str_app_assoc.
Qed.

Lemma rev_rev s : String.rev (String.rev s) = s.
Proof.
  induction s as [|a s IH]; [reflexivity|].
  rewrite rev_cons, rev_app, IH. reflexivity.
Qed.

Lemma blank_app s1 s2 : blank (s1 +:+ s2) = blank s1 && blank s2.
Proof.
  induction s1 as [|a s1 IH]; [reflexivity|].
  rewrite str_app_cons. cbn [blank]. now rewrite IH, andb_assoc.
Qed.

Lemma blank_rev s : blank (String.rev s) = blank s.
Proof.
  induction s as [|a s IH]; [reflexivity|].
  rewrite rev_cons, blank_app, IH. cbn [blank]. now rewrite andb_true_r, andb_comm.
Qed.

Lemma lstrip_blank ws s : blank ws = true -> lstrip (ws +:+ s) = lstrip s.
Proof.
  induction ws as [|a ws IH]; [reflexivity|].
  rewrite str_app_cons. cbn [blank lstrip].
  intros H. apply andb_true_iff in H as [-> H]. auto.
Qed.

Lemma lstrip_solid a s : py_isspace a = false -> lstrip (String a s) = String a s.
Proof. intros H. cbn [lstrip]. now rewrite H. Qed.

Lemma rstrip_blank s ws : blank ws = true -> rstrip (s +:+ ws) = rstrip s.
Proof.
  intros H. unfold rstrip. rewrite rev_app, lstrip_blank; [reflexivity|].
  now rewrite blank_rev.
Qed.

Lemma rstrip_solid front z :
  py_isspace z = false -> rstrip (front +:+ String z "") = front +:+ String z "".
Proof.
  intros H. unfold rstrip. rewrite rev_app. change (String.rev (String z "")) with (String z "").
  rewrite str_app_cons, str_app_nil_l, lstrip_solid by assumption.
  rewrite rev_cons, rev_rev. reflexivity.
Qed.

(** Stripping removes the white space around a text that begins and ends
    with something else. *)
Lemma strip_delimited ws1 ws2 a z text :
  blank ws1 = true -> blank ws2 = true ->
  py_isspace a = false -> py_isspace z = false ->
  delimited a z text ->
  strip (ws1 +:+ text +:+ ws2) = text.
Proof.
  intros H1 H2 Ha Hz [[rest Hrest] [front Hfront]].
  unfold strip. rewrite lstrip_blank by assumption.
  rewrite Hrest. rewrite str_app_cons, lstrip_solid by assumption.
  rewrite <- str_app_cons.
  rewrite rstrip_blank by assumption. rewrite <- Hrest, Hfront.
  now apply rstrip_solid.
Qed.

Lemma startswith_app p s : startswith (p +:+ s) p = true.
Proof.
  unfold startswith. induction p as [|a p IH]; [now destruct s|].
  rewrite str_app_cons. cbn [String.prefix].
  destruct (ascii_dec a a); [exact IH | contradiction].
Qed.

Lemma startswith_head a b s p : a <> b -> startswith (String a s) (String b p) = false.
Proof.
  intros H. unfold startswith. cbn. destruct (ascii_dec b a); [congruence | reflexivity].
Qed.

Lemma substring_0_app s t : substring 0 (String.length s) (s +:+ t) = s.
Proof.
  induction s as [|a s IH]; [now destruct t|].
  rewrite str_app_cons. cbn [String.length substring]. now rewrite IH.
Qed.

Lemma substring_0_all s : substring 0 (String.length s) s = s.
Proof. induction s as [|a s IH]; cbn; [reflexivity | now rewrite IH]. Qed.

Lemma substring_skip p m s : substring (String.length p) m (p +:+ s) = substring 0 m s.
Proof.
  induction p as [|a p IH]; [reflexivity|].
  rewrite str_app_cons. cbn [String.length substring]. exact IH.
Qed.

Lemma slice_from_app p s : slice_from (String.length p) (p +:+ s) = s.
Proof.
  unfold slice_from. rewrite str_length_app, substring_skip.
  replace (String.length p + String.length s - String.length p)%nat
    with (String.length s) by lia.
  apply substring_0_all.
Qed.

Lemma endswith_app s p : endswith (s +:+ p) p = true.
Proof. unfold endswith. rewrite rev_app. apply startswith_app. Qed.

Lemma endswith_last z b front p :
  z <> b -> endswith (front +:+ String z "") (p +:+ String b "") = false.
Proof.
  intros H. unfold endswith. rewrite !rev_app.
  change (String.rev (String z "")) with (String z "").
  change (String.rev (String b "")) with (String b "").
  rewrite !str_app_cons, !str_app_nil_l. now apply (startswith_head z b).
Qed.

Lemma slice_to_minus_app s p : slice_to_minus (String.length p) (s +:+ p) = s.
Proof.
  unfold slice_to_minus. rewrite str_length_app.
  replace (String.length s + String.length p - String.length p)%nat
    with (String.length s) by lia.
  apply substring_0_app.
Qed.

Lemma solid_spec a : solid a = true -> py_isspace a = false /\ a <> "`"%char.
Proof.
  unfold solid. intros H. apply andb_true_iff in H as [H1 H2].
  apply negb_true_iff in H1, H2. split; [exact H1|].
  intros ->. discriminate H2.
Qed.

(** A text that begins and ends with a solid character is left as it is. *)
Lemma strip_code_fences_plain ws1 ws2 a z text :
  blank ws1 = true -> blank ws2 = true -> solid a = true -> solid z = true ->
  delimited a z text ->
  strip_code_fences (ws1 +:+ text +:+ ws2) = text.
Proof.
  intros H1 H2 Ha Hz Hd.
  apply solid_spec in Ha as [Ha Ha'], Hz as [Hz Hz'].
  unfold strip_code_fences.
  rewrite (strip_delimited ws1 ws2 a z) by assumption.
  pose proof Hd as [[rest Hrest] [front Hfront]].
  assert (startswith text "```json" = false) as ->
    by (rewrite Hrest; now apply startswith_head).
  assert (startswith text "```" = false) as ->
    by (rewrite Hrest; now apply startswith_head).
  assert (endswith text "```" = false) as ->
    by (rewrite Hfront; now apply (endswith_last z "`" front "``")).
  pose proof (strip_delimited "" "" a z text eq_refl eq_refl Ha Hz Hd) as Hs.
  now rewrite str_app_nil_l, str_app_nil_r in Hs.
Qed.

(** After the opening fence: the text does not look like a second one, *)
Lemma inner_not_fenced ws1 ws2 a z text :
  blank ws1 = true -> solid a = true -> delimited a z text ->
  startswith (ws1 +:+ text +:+ ws2 +:+ "```") "```" = false.
Proof.
  intros H1 Ha [[rest Hrest] _]. apply solid_spec in Ha as [_ Ha].
  destruct ws1 as [|c ws1].
  - rewrite str_app_nil_l, Hrest, str_app_cons. now apply startswith_head.
  - rewrite str_app_cons. apply startswith_head. intros Hc. subst c.
    cbn in H1. discriminate H1.
Qed.

(** and the closing fence is cut off. *)
Lemma closing_fence_removed ws1 ws2 a z text :
  blank ws1 = true -> blank ws2 = true -> solid a = true -> solid z = true ->
  delimited a z text ->
  let inner := ws1 +:+ text +:+ ws2 +:+ "```" in
  strip (if endswith inner "```" then slice_to_minus 3 inner else inner) = text.
Proof.
  intros H1 H2 Ha Hz Hd inner.
  apply solid_spec in Ha as [Ha _], Hz as [Hz _].
  assert (inner = (ws1 +:+ text +:+ ws2) +:+ "```") as ->
    by (unfold inner; now rewrite !str_app_assoc).
  rewrite endswith_app.
  pose proof (slice_to_minus_app (ws1 +:+ text +:+ ws2) "```") as Hcut.
  change (String.length "```") with 3%nat in Hcut. rewrite Hcut.
  now apply (strip_delimited ws1 ws2 a z).
Qed.

(** X14: the Markdown fence around the model's answer is removed. For a
    text that begins and ends with a character that is neither white
    space nor a backquote (as a JSON object or array does),
    strip_code_fences returns exactly the text when it comes bare, wrapped
    in a fence tagged json, or wrapped in an untagged fence (provided the
    text does not begin with j), with any white space around the text and
    around the fence. *)
Theorem X14_fences_removed ws0 ws1 ws2 ws3 a z text :
  blank ws0 = true -> blank ws1 = true -> blank ws2 = true -> blank ws3 = true ->
  solid a = true -> solid z = true ->
  delimited a z text ->
  strip_code_fences (ws0 +:+ text +:+ ws3) = text /\
  strip_code_fences (ws0 +:+ "```json" +:+ ws1 +:+ text +:+ ws2 +:+ "```" +:+ ws3) = text /\
  (a <> "j"%char ->
   strip_code_fences (ws0 +:+ "```" +:+ ws1 +:+ text +:+ ws2 +:+ "```" +:+ ws3) = text).
Proof.
  intros H0 H1 H2 H3 Ha Hz Hd.
  split; [now apply (strip_code_fences_plain ws0 ws3 a z)|].
  set (inner := ws1 +:+ text +:+ ws2 +:+ "```").
  assert (forall tag, delimited "`" "`" (("```" +:+ tag) +:+ inner)) as Hfence.
  { intros tag. split.
    - eexists. reflexivity.
    - exists (("```" +:+ tag) +:+ ws1 +:+ text +:+ ws2 +:+ "``").
      unfold inner. rewrite !str_app_assoc. reflexivity. }
  split.
  - unfold strip_code_fences.
    assert (ws0 +:+ "```json" +:+ ws1 +:+ text +:+ ws2 +:+ "```" +:+ ws3
            = ws0 +:+ (("```" +:+ "json") +:+ inner) +:+ ws3) as ->
      by (unfold inner; rewrite !str_app_assoc; reflexivity).
    rewrite (strip_delimited ws0 ws3 "`" "`") by (auto; apply Hfence).
    change (("```" +:+ "json") +:+ inner) with ("```json" +:+ inner).
    rewrite (startswith_app "```json" inner).
    pose proof (slice_from_app "```json" inner) as Hcut.
    change (String.length "```json") with 7%nat in Hcut. rewrite Hcut.
    assert (startswith inner "```" = false) as ->
      by (apply (inner_not_fenced ws1 ws2 a z); assumption).
    now apply (closing_fence_removed ws1 ws2 a z).
  - intros Hj. unfold strip_code_fences.
    assert (ws0 +:+ "```" +:+ ws1 +:+ text +:+ ws2 +:+ "```" +:+ ws3
            = ws0 +:+ (("```" +:+ "") +:+ inner) +:+ ws3) as ->
      by (unfold inner; rewrite !str_app_assoc; reflexivity).
    rewrite (strip_delimited ws0 ws3 "`" "`") by (auto; apply Hfence).
    change (("```" +:+ "") +:+ inner) with ("```" +:+ inner).
    assert (startswith ("```" +:+ inner) "```json" = false) as ->.
    { change (startswith ("```" +:+ inner) "```json") with (startswith inner "json").
      unfold inner. destruct Hd as [[rest ->] _]. destruct ws1 as [|c ws1].
      - rewrite str_app_nil_l, str_app_cons. apply startswith_head. congruence.
      - rewrite str_app_cons. apply startswith_head. intros Hc. subst c.
        cbn in H1. discriminate H1. }
    rewrite (startswith_app "```" inner).
    pose proof (slice_from_app "```" inner) as Hcut.
    change (String.length "```") with 3%nat in Hcut. rewrite Hcut.
    now apply (closing_fence_removed ws1 ws2 a z).
Qed.

(** The answer of the sample model, with line breaks around the text. *)
Lemma X14_witness :
  let nl := String "010"%char "" in
  strip_code_fences ("```json" +:+ nl +:+ low_risk_text +:+ nl +:+ "```" +:+ nl)
    = low_risk_text.
Proof.
  intros nl.
  assert (delimited "{" "}" low_risk_text) as Hd.
  { split; [eexists; reflexivity|].
    exists ("{" +:+ quote +:+ "risk_score" +:+ quote +:+ ": 20"). reflexivity. }
  exact (proj1 (proj2 (X14_fences_removed "" nl nl nl "{" "}" low_risk_text
                         eq_refl eq_refl eq_refl eq_refl eq_refl eq_refl Hd))).
Defined.

(** ** More on the save *)

(** X15: when the client is built and the server accepts the insert,
    save_to_mongodb returns the identifier the driver reports and the
    collection grows by exactly one document: the caller's record as it is
    after the call, with created_at and with the _id the driver gave it
    (the record's own _id when it had one). The session is not touched. *)
Theorem X15_save_success env (l : nat) (d : pydict) inserted_id (w : World) :
  heap w !! l = Some d ->
  mongo_client env = Ok tt ->
  mongo_insert env (with_id env (stamped env d)) = Ok inserted_id ->
  exists w' doc,
    save_to_mongodb env l w = (Ok inserted_id, w') /\
    collection w' = collection w ++ [doc] /\
    heap w' !! l = Some doc /\
    doc !! "created_at" = Some (PyDatetime (utcnow env)) /\
    doc !! "_id" = Some (default (PyStr (object_id env)) (d !! "_id")) /\
    session w' = session w.
Proof.
  intros Hl Hclient Hins.
  pose proof (save_run env l d w Hl Hclient) as Hrun. cbv zeta in Hrun.
  rewrite Hins in Hrun.
  eexists _, (with_id env (stamped env d)). split; [exact Hrun|].
  cbn [collection heap session]. split; [reflexivity|].
  split; [apply lookup_insert_eq|].
  split; [apply with_id_lookup; unfold stamped; apply lookup_insert_eq|].
  split; [|reflexivity].
  unfold with_id, stamped.
  rewrite lookup_insert_ne by discriminate.
  destruct (d !! "_id") as [v|] eqn:Hid; cbn [default].
  - now rewrite lookup_insert_ne by discriminate.
  - apply lookup_insert_eq.
Qed.

Lemma X15_witness :
  exists w' doc,
    save_to_mongodb sample_env 0%nat world_with_record = (Ok "65f0c0ffee", w') /\
    collection w' = [doc] /\
    heap w' !! 0%nat = Some doc /\
    doc !! "_id" = Some (PyStr "65f0c0ffee").
Proof.
  destruct (X15_save_success sample_env 0%nat (dict_of [("loan_amount", PyInt 15000)])
              "65f0c0ffee" world_with_record)
    as (w' & doc & Hrun & Hcol & Hheap & _ & Hid & _);
    [vm_compute; reflexivity | reflexivity | reflexivity |].
  exists w', doc. split; [exact Hrun|]. split; [exact Hcol|]. split; [exact Hheap|].
  rewrite Hid. vm_compute. reflexivity.
Defined.

(** X16: a save that fails stores nothing and raises a plain Exception
    whose text is "MongoDB error: " followed by the text of the cause.
    When the client cannot be built the caller's record is left as it
    was and no insert is attempted; when the server refuses the insert the
    caller's record has nevertheless received created_at and _id. *)
Theorem X16_save_failure env (l : nat) (d : pydict) e (w : World) :
  heap w !! l = Some d ->
  (save_to_mongodb env l w).1 = Err e ->
  let w' := (save_to_mongodb env l w).2 in
  collection w' = collection w /\ session w' = session w /\
  exists cause,
    e = Raise Exception ("MongoDB error: " +:+ exn_msg cause) /\
    ((mongo_client env = Err cause /\ w' = w) \/
     (mongo_client env = Ok tt /\
      mongo_insert env (with_id env (stamped env d)) = Err cause /\
      heap w' !! l = Some (with_id env (stamped env d)) /\
      events w' = events w ++ [MongoInsert (with_id env (stamped env d))])).
Proof.
  intros Hl Herr w'. subst w'.
  destruct (mongo_client env) as [[]|cause] eqn:Hclient.
  - pose proof (save_run env l d w Hl Hclient) as Hrun. cbv zeta in Hrun.
    destruct (mongo_insert env (with_id env (stamped env d))) as [id|cause] eqn:Hins;
      rewrite Hrun in Herr |- *; cbn [fst snd] in *; [discriminate Herr|].
    injection Herr as <-. cbn [collection session heap events].
    split; [reflexivity|]. split; [reflexivity|].
    exists cause. split; [reflexivity|]. right.
    split; [reflexivity|]. split; [reflexivity|].
    split; [apply lookup_insert_eq | reflexivity].
  - rewrite (save_without_client env l w cause Hclient) in Herr |- *.
    cbn [fst snd] in *. injection Herr as <-.
    split; [reflexivity|]. split; [reflexivity|].
    exists cause. split; [reflexivity|]. left. split; reflexivity.
Qed.

Lemma X16_witness :
  let w' := (save_to_mongodb env_db_down 0%nat world_with_record).2 in
  (save_to_mongodb env_db_down 0%nat world_with_record).1
    = Err (Raise Exception "MongoDB error: localhost:27017: [Errno 111] Connection refused") /\
  collection w' = [] /\
  exists doc, heap w' !! 0%nat = Some doc /\
              doc !! "created_at" = Some (PyDatetime (Datetime 2024 6 15)).
Proof.
  intros w'.
  assert ((save_to_mongodb env_db_down 0%nat world_with_record).1
            = Err (Raise Exception
                     "MongoDB error: localhost:27017: [Errno 111] Connection refused"))
    as Herr by (vm_compute; reflexivity).
  destruct (X16_save_failure env_db_down 0%nat (dict_of [("loan_amount", PyInt 15000)]) _
              world_with_record ltac:(vm_compute; reflexivity) Herr)
    as (Hcol & _ & cause & _ & [[Hclient _] | (_ & _ & Hheap & _)]).
  - vm_compute in Hclient. discriminate Hclient.
  - split; [exact Herr|]. split; [exact Hcol|].
    eexists. split; [exact Hheap|]. vm_compute. reflexivity.
Defined.

(** ** Whole runs of the handler *)

Lemma extraction_plan_prefix bank :
  extraction_plan bank `prefix_of` pipeline_plan bank.
Proof. unfold pipeline_plan. now exists decision_plan. Qed.

(** No step of the plan shows an error. *)
Lemma planned_events_no_error bank (tr : list event) :
  map kind_of tr `prefix_of` pipeline_plan bank ->
  Forall (fun ev => kind_of ev <> KError) tr.
Proof.
  intros Hpre. apply Forall_forall. intros ev Hev Herr.
  assert (KError ∈ pipeline_plan bank) as Hin.
  { apply (prefix_elem_of (map kind_of tr)); [exact Hpre|].
    rewrite <- Herr. apply list_elem_of_fmap. exists ev. split; [reflexivity|].
    exact Hev. }
  unfold pipeline_plan, extraction_plan, decision_plan in Hin.
  destruct bank; cbn in Hin;
    repeat (apply elem_of_cons in Hin as [Hin|Hin]; [discriminate Hin|]);
    now apply elem_of_nil in Hin.
Qed.

Lemma record_stored_fields env combined_data risk_assessment loan_amount :
  let doc := with_id env (stamped env
               (application_record combined_data risk_assessment loan_amount)) in
  doc !! "applicant_data" = Some (PyDict combined_data) /\
  doc !! "risk_assessment" = Some risk_assessment /\
  doc !! "loan_amount" = Some loan_amount /\
  doc !! "created_at" = Some (PyDatetime (utcnow env)) /\
  doc !! "_id" = Some (PyStr (object_id env)) /\
  dom doc = {["applicant_data"; "risk_assessment"; "loan_amount"; "created_at"; "_id"]}.
Proof.
  intros doc.
  assert (stamped env (application_record combined_data risk_assessment loan_amount)
            !! "_id" = None) as Hnone
    by (unfold stamped, application_record; dict_lookup).
  assert (doc = <["_id" := PyStr (object_id env)]>
                  (stamped env (application_record combined_data risk_assessment loan_amount)))
    as -> by (unfold doc, with_id; now rewrite Hnone).
  unfold stamped, application_record.
  do 5 (split; [dict_lookup|]).
  unfold dict_of. rewrite !dict_update_cons, dict_update_nil, !dom_insert_L, dom_empty_L.
  set_solver.
Qed.

(** X17: when the three extractions, the combination, the scoring and
    the save all succeed, the handler goes through the whole plan in order
    (each stage marker followed by its one request) and shows no error;
    the collection grows by one document with exactly the keys
    applicant_data, risk_assessment, loan_amount, created_at and _id; and
    the session holds the profile, the assessment and the identifier the
    save returned, marked complete. *)
Theorem X17_successful_run env loan_amount (w : World)
    combined_data risk_assessment application_id :
  scoring_completed env (session w) loan_amount combined_data risk_assessment ->
  save_result env (application_record combined_data risk_assessment loan_amount)
    = Ok application_id ->
  exists w' tr doc,
    process_application env loan_amount w = (Ok tt, w') /\
    events w' = events w ++ tr /\
    map kind_of tr = pipeline_plan (has_bank (session w)) /\
    collection w' = collection w ++ [doc] /\
    doc !! "applicant_data" = Some (PyDict combined_data) /\
    doc !! "risk_assessment" = Some risk_assessment /\
    doc !! "loan_amount" = Some loan_amount /\
    doc !! "created_at" = Some (PyDatetime (utcnow env)) /\
    dom doc = {["applicant_data"; "risk_assessment"; "loan_amount"; "created_at"; "_id"]} /\
    session w' = completed_session (session w) combined_data risk_assessment application_id.
Proof.
  intros Hscored Hsave.
  destruct (pipeline_success _ _ _ _ _ _ Hscored Hsave) as (tr & Hpipe & Hkinds).
  destruct (process_application_run env loan_amount w) as (w' & Hrun & Hobs).
  rewrite Hpipe in Hobs. destruct Hobs as (Hev & Hcol & Hses).
  destruct (record_stored_fields env combined_data risk_assessment loan_amount)
    as (Hf1 & Hf2 & Hf3 & Hf4 & _ & Hdom).
  exists w', tr, (with_id env (stamped env
                    (application_record combined_data risk_assessment loan_amount))).
  repeat split; assumption.
Qed.

(** One page whose only image carries the record. *)
Lemma X17_witness :
  exists w' doc,
    process_application sample_env (PyInt 15000) (fresh_world None) = (Ok tt, w') /\
    map kind_of (events w') = pipeline_plan false /\
    collection w' = [doc] /\
    doc !! "loan_amount" = Some (PyInt 15000) /\
    ss_processing_complete (session w') = true /\
    ss_application_id (session w') = PyStr "65f0c0ffee".
Proof.
  destruct sample_env_scoring as [combined_data Hscored].
  destruct (X17_successful_run sample_env (PyInt 15000) (fresh_world None) combined_data
              (PyDict (dict_of [("risk_score", PyInt 20)])) "65f0c0ffee" Hscored eq_refl)
    as (w' & tr & doc & Hrun & Hev & Hkinds & Hcol & _ & _ & Hloan & _ & _ & Hses).
  exists w', doc. split; [exact Hrun|]. split; [now rewrite Hev|].
  split; [exact Hcol|]. split; [exact Hloan|]. rewrite Hses. split; reflexivity.
Defined.

(** X18: the handler never raises and never leaves a half-finished
    result. Either the run completes: no error is shown, the collection
    grows by one document and the session is marked complete with the
    profile, the assessment and the identifier. Or it fails at some step:
    the two error messages are shown after the steps done so far, the
    first one carrying the text of the exception, and the collection and
    the session are exactly as before. *)
Theorem X18_all_or_nothing env loan_amount (w : World) :
  exists w' tr,
    process_application env loan_amount w = (Ok tt, w') /\
    Forall (fun ev => kind_of ev <> KError) tr /\
    ((exists combined_data risk_assessment application_id doc,
        events w' = events w ++ tr /\
        collection w' = collection w ++ [doc] /\
        session w' = completed_session (session w)
                       combined_data risk_assessment application_id) \/
     (exists e,
        events w' = events w ++ tr ++
          [UiError ("Error during processing: " +:+ exn_msg e);
           UiError "Please check your documents and try again."] /\
        collection w' = collection w /\
        session w' = session w)).
Proof.
  destruct (process_application_run env loan_amount w) as (w' & Hrun & Hobs).
  assert (map kind_of (pipeline env (session w) loan_amount).1
            `prefix_of` pipeline_plan (has_bank (session w))) as Hpre.
  { destruct (pipeline_cases env (session w) loan_amount) as [(e & _ & Hp) | [_ Hp]];
      [|exact Hp].
    etrans; [exact Hp | apply extraction_plan_prefix]. }
  apply planned_events_no_error in Hpre.
  destruct (pipeline env (session w) loan_amount) as [tr [[[c r] id]|e]];
    cbn [fst] in Hpre; destruct Hobs as (Hev & Hcol & Hses);
    exists w', tr; (split; [exact Hrun|]); (split; [exact Hpre|]).
  - left. eexists c, r, id, _. repeat split; eassumption.
  - right. exists e. rewrite app_nil_r in Hcol. repeat split; assumption.
Qed.

Lemma combined_truthy env identity_data income_data bank_data combined :
  combine_extracted_data env identity_data income_data bank_data = Ok combined ->
  truthy (PyDict combined) = true.
Proof.
  intros H.
  destruct (combined_base_field _ _ _ _ _ "full_name" H) as [nd Hname]; try discriminate.
  unfold base_profile in Hname. revert Hname. dict_lookup. intros Hname.
  destruct (truthy (PyDict combined)) eqn:Ht; [reflexivity|].
  apply truthy_dict in Ht. subst combined. rewrite lookup_empty in Hname. discriminate Hname.
Qed.

Lemma score_stage_dict env combined_data loan_amount risk_assessment :
  score_stage env combined_data loan_amount = Ok risk_assessment ->
  exists d, risk_assessment = PyDict d.
Proof.
  unfold score_stage. destruct (risk_result env _ _) as [v|e]; cbn [rbind]; [|discriminate].
  destruct v; cbn; try discriminate. intros H. apply Ok_inj in H. subst. eauto.
Qed.

(** ** The schemas and the fields the program reads *)



(** ** Two runs that end early or late *)

(** X23: an income record whose gross income cannot be formatted as a
    number (a text, a null) stops the run right after the income
    extraction, where the success message formats it: the two error
    messages are shown with the text of the formatting error, the bank
    statement is not read, the model is not called, nothing is saved and
    the session is as before. *)
Theorem X23_salary_not_a_number env loan_amount (w : World)
    identity_data (income_record : pydict) e :
  identity_stage env (session w) = Ok identity_data ->
  extraction_result env (ss_income_file (session w)) "income" = Ok (PyDict income_record) ->
  format_2f (dict_get income_record "monthly_gross_income" (PyInt 0)) = Err e ->
  exists w' tr,
    process_application env loan_amount w = (Ok tt, w') /\
    events w' = events w ++ tr ++
      [UiError ("Error during processing: " +:+ exn_msg e);
       UiError "Please check your documents and try again."] /\
    map kind_of tr =
      [KSpinner "Extracting identity document..."; KDocai "identity_extraction";
       KSpinner "Extracting income document..."; KDocai "income_extraction"] /\
    collection w' = collection w /\
    session w' = session w.
Proof.
  intros Hid Hinc Hfmt.
  destruct (process_application_run env loan_amount w) as (w' & Hrun & Hobs).
  assert (income_stage env (session w) = Err e) as Hstage.
  { unfold income_stage. rewrite Hinc. cbn [rbind as_dict]. now rewrite Hfmt. }
  unfold pipeline in Hobs. rewrite Hid, Hstage in Hobs.
  destruct Hobs as (Hev & Hcol & Hses).
  eexists w', _. split; [exact Hrun|]. split; [exact Hev|].
  split; [|split; [now rewrite app_nil_r in Hcol | exact Hses]].
  destruct (identity_stage_extracted _ _ _ Hid) as [v1 Hv1].
  destruct (extraction_stage_kinds env "Extracting identity document..."
              (ss_identity_file (session w)) "identity") as [_ Hk1].
  destruct (extraction_stage_kinds env "Extracting income document..."
              (ss_income_file (session w)) "income") as [_ Hk2].
  cbv zeta in Hk1, Hk2.
  rewrite map_app, (Hk1 _ Hv1), (Hk2 _ Hinc). reflexivity.
Qed.

Lemma X23_witness :
  exists w',
    process_application env_salary_as_text (PyInt 15000) (fresh_world (Some "%PDF-bank"))
      = (Ok tt, w') /\
    UiError "Error during processing: Unknown format code 'f' for object of type 'str'"
      ∈ events w' /\
    length (events w') = 6%nat /\
    collection w' = [].
Proof.
  destruct registered_identity as [sch1 Hsch1]. destruct registered_income as [sch2 Hsch2].
  destruct (X23_salary_not_a_number env_salary_as_text (PyInt 15000)
              (fresh_world (Some "%PDF-bank")) sample_identity income_with_text_salary
              (Raise ValueError "Unknown format code 'f' for object of type 'str'"))
    as (w' & tr & Hrun & Hev & Hkinds & Hcol & _).
  - unfold identity_stage. cbn [fresh_world session fresh_session ss_identity_file].
    now rewrite (annotated_extraction env_salary_as_text "%PDF-id" "identity" sch1
                   sample_identity Hsch1 eq_refl).
  - cbn [fresh_world session fresh_session ss_income_file].
    now apply (annotated_extraction env_salary_as_text "%PDF-pay" "income" sch2).
  - vm_compute. reflexivity.
  - exists w'. split; [exact Hrun|].
    cbn [fresh_world events app] in Hev. rewrite Hev. split.
    { apply elem_of_app. right. apply elem_of_cons. now left. }
    split; [|exact Hcol].
    rewrite length_app, <- (length_map kind_of tr), Hkinds. reflexivity.
Defined.

(** X24: an outage of the reasoning model does not stop the run. When
    the documents are read, the profile is built and its numbers are
    computed, and the call to the model fails with a transport error, the
    handler goes through the whole plan without showing an error: the
    application is stored with the fallback assessment (score 100, REJECT,
    the ratio computed before the call) and the session is marked
    complete with it. *)
Theorem X24_outage_stored_as_rejection env loan_amount (w : World)
    identity_data income_data bank_data combined_data payment debt dti prompt e
    application_id :
  identity_stage env (session w) = Ok identity_data ->
  income_stage env (session w) = Ok income_data ->
  bank_stage env (ss_bank_file (session w)) = Ok bank_data ->
  combine_extracted_data env identity_data income_data bank_data = Ok combined_data ->
  analyze_risk_metrics combined_data loan_amount = Ok (payment, debt, dti) ->
  build_prompt combined_data loan_amount payment debt dti = Ok prompt ->
  ministral_post env (build_chat_payload prompt) = Err e ->
  is_RequestException e = true ->
  mongo_client env = Ok tt ->
  (forall doc, mongo_insert env doc = Ok application_id) ->
  exists w' tr doc fallback,
    process_application env loan_amount w = (Ok tt, w') /\
    events w' = events w ++ tr /\
    map kind_of tr = pipeline_plan (has_bank (session w)) /\
    collection w' = collection w ++ [doc] /\
    doc !! "risk_assessment" = Some (PyDict fallback) /\
    fallback !! "risk_score" = Some (PyInt 100) /\
    fallback !! "recommendation" = Some (PyStr "REJECT") /\
    fallback !! "debt_to_income_ratio" = Some (PyFloat dti) /\
    session w' = completed_session (session w) combined_data (PyDict fallback)
                   application_id.
Proof.
  intros Hid Hinc Hbank Hcomb Hmetrics Hprompt Hpost Hreq Hclient Hinsert.
  destruct (risk_handlers_fallback dti e (or_introl Hreq))
    as (explanation & flag_message & Hh & _).
  set (fallback := safe_default dti explanation flag_message) in *.
  assert (score_stage env combined_data loan_amount = Ok (PyDict fallback)) as Hscore.
  { unfold score_stage, risk_result. rewrite Hmetrics. cbn [rbind].
    rewrite Hprompt. cbn [rbind]. rewrite Hpost. cbn [rbind]. rewrite Hh. reflexivity. }
  assert (scoring_completed env (session w) loan_amount combined_data (PyDict fallback))
    as Hscored by (exists identity_data, income_data, bank_data; auto).
  assert (save_result env (application_record combined_data (PyDict fallback) loan_amount)
            = Ok application_id) as Hsave
    by (unfold save_result; now rewrite Hclient, Hinsert).
  destruct (pipeline_success _ _ _ _ _ _ Hscored Hsave) as (tr & Hpipe & Hkinds).
  destruct (process_application_run env loan_amount w) as (w' & Hrun & Hobs).
  rewrite Hpipe in Hobs. destruct Hobs as (Hev & Hcol & Hses).
  destruct (record_stored_fields env combined_data (PyDict fallback) loan_amount)
    as (_ & Hra & _).
  exists w', tr, (with_id env (stamped env
                    (application_record combined_data (PyDict fallback) loan_amount))),
    fallback.
  split; [exact Hrun|]. split; [exact Hev|]. split; [exact Hkinds|].
  split; [exact Hcol|]. split; [exact Hra|].
  split; [unfold fallback, safe_default; dict_lookup|].
  split; [unfold fallback, safe_default; dict_lookup|].
  split; [unfold fallback, safe_default; dict_lookup | exact Hses].
Qed.

Lemma X24_witness :
  exists w' doc fallback,
    process_application env_model_down (PyInt 15000) (fresh_world None) = (Ok tt, w') /\
    collection w' = [doc] /\
    doc !! "risk_assessment" = Some (PyDict fallback) /\
    fallback !! "recommendation" = Some (PyStr "REJECT") /\
    ss_processing_complete (session w') = true.
Proof.
  destruct (sample_stages env_model_down eq_refl) as [Hid Hinc].
  destruct (combine_returns env_model_down sample_identity sample_income None 3000%float)
    as [combined_data Hcomb]; [vm_compute; reflexivity|].
  assert (analyze_risk_metrics combined_data (PyInt 15000)
            = Ok (300%float, 300%float, PrimFloat.div 300%float 3000%float)) as Hmetrics.
  { pose proof Hcomb as H. apply combine_inv in H as (nd & _ & ->). vm_compute. reflexivity. }
  destruct (build_prompt combined_data (PyInt 15000) 300%float 300%float
              (PrimFloat.div 300%float 3000%float)) as [prompt|e0] eqn:Hprompt.
  2:{ pose proof Hcomb as H. apply combine_inv in H as (nd & _ & ->).
      vm_compute in Hprompt. discriminate Hprompt. }
  destruct (X24_outage_stored_as_rejection env_model_down (PyInt 15000) (fresh_world None)
              sample_identity sample_income None combined_data _ _ _ prompt
              (Raise RequestException "Read timed out.") "65f0c0ffee"
              Hid Hinc eq_refl Hcomb Hmetrics Hprompt eq_refl eq_refl eq_refl
              (fun _ => eq_refl))
    as (w' & tr & doc & fallback & Hrun & _ & _ & Hcol & Hra & _ & Hrec & _ & Hses).
  exists w', doc, fallback. split; [exact Hrun|]. split; [exact Hcol|].
  split; [exact Hra|]. split; [exact Hrec|]. now rewrite Hses.
Defined.

(** ** Drawing the results *)

Lemma rthen_ok {A B} (m : R A) (k : A -> R B) b :
  (rthen m k).1 = Ok b -> exists a, m.1 = Ok a /\ (k a).1 = Ok b.
Proof.
  unfold rthen. destruct m as [[a|e] drawn]; cbn [fst]; [|discriminate].
  destruct (k a) as [r drawn'] eqn:Hk. cbn [fst]. intros ->.
  exists a. now rewrite Hk.
Qed.

Lemma rthen_fst {A B} (m : R A) (k : A -> R B) a :
  m.1 = Ok a -> (rthen m k).1 = (k a).1.
Proof.
  unfold rthen. destruct m as [[a'|e] drawn]; cbn [fst]; [|discriminate].
  intros H. apply Ok_inj in H. subst a'. now destruct (k a).
Qed.

Lemma draw_fst ui wd : ui wd = Ok tt -> (draw ui wd).1 = Ok tt.
Proof. intros H. unfold draw. now rewrite H. Qed.

Lemma is_ok_true {A} (r : result A) : is_ok r = true <-> exists a, r = Ok a.
Proof.
  destruct r as [a|e]; cbn; split; eauto; [discriminate | intros [a H]; discriminate H].
Qed.

(** One statement of the function went through. *)
Ltac drawn H := apply rthen_ok in H as (? & _ & H); cbv beta zeta in H.
Ltac checked H Hc := apply rthen_ok in H as (? & Hc & H); cbv beta zeta in H.

(** The next statement is a widget the library accepts. *)
Ltac accept Hui := rewrite rthen_fst with (a := tt) by (apply draw_fst, Hui); cbv beta zeta.

Lemma render_applicant_ok ui combined_data application_id u :
  (render_applicant ui combined_data application_id).1 = Ok u ->
  is_ok (format_2f (dict_get combined_data "monthly_gross_income" (PyInt 0))) = true.
Proof.
  intros H. unfold render_applicant in H.
  do 9 drawn H. checked H Hfmt.
  apply is_ok_true. eexists. exact Hfmt.
Qed.

Lemma render_applicant_accepted ui combined_data application_id :
  (forall wd, ui wd = Ok tt) ->
  is_ok (format_2f (dict_get combined_data "monthly_gross_income" (PyInt 0))) = true ->
  (render_applicant ui combined_data application_id).1 = Ok tt.
Proof.
  intros Hui Hfmt. apply is_ok_true in Hfmt as [g Hfmt].
  unfold render_applicant. do 2 accept Hui.
  rewrite rthen_fst with (a := tt)
    by (destruct (truthy application_id); [apply draw_fst, Hui | reflexivity]).
  do 6 accept Hui.
  rewrite rthen_fst with (a := g) by exact Hfmt.
  accept Hui. apply draw_fst, Hui.
Qed.

Lemma render_flags_ok ui items u :
  (for_each (render_flag ui) items).1 = Ok u -> forallb is_dict items = true.
Proof.
  induction items as [|flag items IH]; [reflexivity|].
  cbn [for_each forallb]. intros H.
  apply rthen_ok in H as (? & Hflag & H).
  rewrite (IH H), andb_true_r.
  unfold render_flag in Hflag. apply rthen_ok in Hflag as (f & Hf & _).
  destruct flag; try discriminate Hf. reflexivity.
Qed.

Lemma render_flags_accepted ui items :
  (forall wd, ui wd = Ok tt) ->
  forallb is_dict items = true ->
  (for_each (render_flag ui) items).1 = Ok tt.
Proof.
  intros Hui. induction items as [|flag items IH]; [reflexivity|].
  cbn [for_each forallb]. intros H. apply andb_true_iff in H as [Hflag Hrest].
  rewrite rthen_fst with (a := tt); [now apply IH|].
  destruct flag; try discriminate Hflag. unfold render_flag.
  rewrite rthen_fst with (a := d) by reflexivity.
  destruct (py_eq_str _ "high"); [apply draw_fst, Hui|].
  destruct (py_eq_str _ "medium"); apply draw_fst, Hui.
Qed.

Lemma render_actions_accepted ui (items : list pyval) :
  (forall wd, ui wd = Ok tt) ->
  (for_each (fun action => draw ui (WMarkdown [Str action])) items).1 = Ok tt.
Proof.
  intros Hui. induction items as [|action items IH]; [reflexivity|].
  cbn [for_each]. accept Hui. exact IH.
Qed.

Lemma render_policies_accepted ui (items : list (string * pyval)) :
  (forall wd, ui wd = Ok tt) ->
  (for_each (render_policy ui) items).1 = Ok tt.
Proof.
  intros Hui. induction items as [|item items IH]; [reflexivity|].
  cbn [for_each]. rewrite rthen_fst with (a := tt); [exact IH|].
  unfold render_policy. destruct item.2; try reflexivity.
  do 2 accept Hui. apply draw_fst, Hui.
Qed.

Lemma render_assessment_ok ui risk_assessment u :
  (render_assessment ui risk_assessment).1 = Ok u ->
  assessment_renderable risk_assessment = true.
Proof.
  intros H. unfold render_assessment in H.
  do 4 drawn H. checked H Hdiv. do 2 drawn H. checked H Hfmt. do 6 drawn H.
  checked H Hflags. checked H Hactions.
  cbn [rlift fst] in Hdiv, Hfmt.
  unfold assessment_renderable. rewrite Hdiv, Hfmt. cbn [is_ok andb]. cbv zeta.
  assert ((if truthy (dict_get risk_assessment "flags" (PyList []))
           then match py_iter (dict_get risk_assessment "flags" (PyList [])) with
                | Ok items => forallb is_dict items
                | Err _ => false
                end
           else true) = true) as ->.
  { destruct (truthy (dict_get risk_assessment "flags" (PyList []))); [|reflexivity].
    drawn Hflags. checked Hflags Hiter. cbn [rlift fst] in Hiter. rewrite Hiter.
    now apply render_flags_ok in Hflags. }
  assert ((if truthy (dict_get risk_assessment "suggested_actions" (PyList []))
           then is_ok (py_iter (dict_get risk_assessment "suggested_actions" (PyList [])))
           else true) = true) as ->.
  { destruct (truthy (dict_get risk_assessment "suggested_actions" (PyList [])));
      [|reflexivity].
    drawn Hactions. checked Hactions Hiter. cbn [rlift fst] in Hiter. now rewrite Hiter. }
  cbn [andb].
  destruct (truthy (dict_get risk_assessment "policy_compliance" (PyDict ∅)));
    [|reflexivity].
  drawn H. checked H Hitems. cbn [rlift fst] in Hitems.
  destruct (dict_get risk_assessment "policy_compliance" (PyDict ∅));
    try discriminate Hitems. reflexivity.
Qed.

Lemma render_assessment_accepted ui risk_assessment :
  (forall wd, ui wd = Ok tt) ->
  assessment_renderable risk_assessment = true ->
  (render_assessment ui risk_assessment).1 = Ok tt.
Proof.
  intros Hui H. unfold assessment_renderable in H. cbv zeta in H.
  apply andb_true_iff in H as [H Hpolicy]. apply andb_true_iff in H as [H Hactions].
  apply andb_true_iff in H as [H Hflags]. apply andb_true_iff in H as [Hdiv Hfmt].
  apply is_ok_true in Hdiv as [[] Hdiv]. apply is_ok_true in Hfmt as [pct Hfmt].
  unfold render_assessment. do 4 accept Hui.
  rewrite rthen_fst with (a := tt) by exact Hdiv. cbv beta zeta.
  do 2 accept Hui.
  rewrite rthen_fst with (a := pct) by exact Hfmt. cbv beta zeta.
  do 6 accept Hui.
  rewrite rthen_fst with (a := tt).
  2:{ destruct (truthy (dict_get risk_assessment "flags" (PyList []))); [|reflexivity].
      accept Hui.
      destruct (py_iter (dict_get risk_assessment "flags" (PyList []))) as [items|e];
        [|discriminate Hflags].
      rewrite rthen_fst with (a := items) by reflexivity.
      now apply render_flags_accepted. }
  rewrite rthen_fst with (a := tt).
  2:{ destruct (truthy (dict_get risk_assessment "suggested_actions" (PyList [])));
        [|reflexivity].
      accept Hui. apply is_ok_true in Hactions as [items Hactions].
      rewrite rthen_fst with (a := items) by exact Hactions.
      now apply render_actions_accepted. }
  destruct (truthy (dict_get risk_assessment "policy_compliance" (PyDict ∅)));
    [|reflexivity].
  accept Hui.
  destruct (dict_get risk_assessment "policy_compliance" (PyDict ∅));
    try discriminate Hpolicy.
  rewrite rthen_fst with (a := map_to_list d) by reflexivity.
  now apply render_policies_accepted.
Qed.

(** X21: the results can be drawn exactly when the gross income of the
    profile, the risk score and the debt-to-income ratio of the assessment
    are numbers, every flag is a dictionary, the suggested actions can be
    iterated over and the policies are a dictionary (absent or empty lists
    and dictionaries are fine). Otherwise render_results_ui raises,
    whatever the library does; and when the library accepts every widget,
    these conditions are enough for it to return. Nothing in analyze_risk
    checks them on the model's answer. *)
Theorem X21_renderable ui combined_data risk_assessment application_id :
  (renderable combined_data risk_assessment = false ->
   exists e, (render_results_ui ui combined_data risk_assessment application_id).1 = Err e) /\
  ((forall wd, ui wd = Ok tt) ->
   renderable combined_data risk_assessment = true ->
   (render_results_ui ui combined_data risk_assessment application_id).1 = Ok tt).
Proof.
  unfold renderable, render_results_ui. split.
  - intros Hno.
    destruct (rthen _ _).1 as [[]|e] eqn:Hrun; [|eauto].
    apply rthen_ok in Hrun as (u & Happ & Hass).
    apply render_applicant_ok in Happ. apply render_assessment_ok in Hass.
    rewrite Happ, Hass in Hno. discriminate Hno.
  - intros Hui H. apply andb_true_iff in H as [Happ Hass].
    rewrite rthen_fst with (a := tt) by now apply render_applicant_accepted.
    now apply render_assessment_accepted.
Qed.

(** A risk score given as a text cannot be drawn; the sample answer can. *)
Lemma X21_witness :
  (exists e,
     (render_results_ui ui_accepts_all sample_profile
        (dict_of [("risk_score", PyStr "20"); ("risk_level", PyStr "LOW")])
        (PyStr "65f0c0ffee")).1 = Err e) /\
  (render_results_ui ui_accepts_all sample_profile
     (dict_of [("risk_score", PyInt 20)]) (PyStr "65f0c0ffee")).1 = Ok tt.
Proof.
  split.
  - apply (proj1 (X21_renderable ui_accepts_all sample_profile _ _)).
    vm_compute. reflexivity.
  - apply (proj2 (X21_renderable ui_accepts_all sample_profile _ _));
      [reflexivity | vm_compute; reflexivity].
Defined.

Lemma safe_default_fields dti_ratio explanation flag_message :
  let d := safe_default dti_ratio explanation flag_message in
  dict_get d "risk_score" (PyInt 0) = PyInt 100 /\
  dict_get d "risk_level" (PyStr "UNKNOWN") = PyStr "HIGH" /\
  dict_get d "debt_to_income_ratio" (PyInt 0) = PyFloat dti_ratio /\
  dict_get d "recommendation" (PyStr "UNKNOWN") = PyStr "REJECT" /\
  dict_get d "explanation" (PyStr "No explanation provided") = PyStr explanation /\
  dict_get d "flags" (PyList [])
    = PyList [ PyDict (dict_of [("flag_type", PyStr "SYSTEM_ERROR");
                                ("message", PyStr flag_message);
                                ("severity", PyStr "high")]) ] /\
  dict_get d "suggested_actions" (PyList [])
    = PyList [PyStr "Retry analysis"; PyStr "Contact IT support"] /\
  dict_get d "policy_compliance" (PyDict ∅) = PyDict ∅.
Proof.
  intros d. subst d. unfold safe_default.
  repeat split; apply dict_get_Some; dict_lookup.
Qed.

Lemma rthen_draw {B} ui wd (k : unit -> R B) :
  ui wd = Ok tt ->
  rthen (draw ui wd) k = ((k tt).1, wd :: (k tt).2).
Proof. intros H. unfold rthen, draw. rewrite H. now destruct (k tt). Qed.

(** X22: the fallback assessment can always be drawn. When the library
    accepts every widget and the gross income of the profile is a number,
    render_results_ui returns, and after the applicant's card it draws the
    score 100 with a full progress bar, the level HIGH and the
    recommendation REJECT as errors, the ratio computed before the call,
    the explanation, one flag of high severity, the two suggested actions,
    and no policy section. *)
Theorem X22_fallback_drawn ui combined_data application_id
    dti_ratio explanation flag_message :
  (forall wd, ui wd = Ok tt) ->
  is_ok (format_2f (dict_get combined_data "monthly_gross_income" (PyInt 0))) = true ->
  render_results_ui ui combined_data (safe_default dti_ratio explanation flag_message)
    application_id
  = (Ok tt,
     (render_applicant ui combined_data application_id).2
       ++ fallback_widgets dti_ratio explanation flag_message).
Proof.
  intros Hui Hfmt.
  pose proof (render_applicant_accepted ui combined_data application_id Hui Hfmt) as Happ.
  unfold render_results_ui.
  destruct (render_applicant ui combined_data application_id) as [r drawn].
  cbn [fst snd] in *. subst r. unfold rthen at 1.
  assert (render_assessment ui (safe_default dti_ratio explanation flag_message)
            = (Ok tt, fallback_widgets dti_ratio explanation flag_message)) as ->;
    [|reflexivity].
  unfold render_assessment.
  destruct (safe_default_fields dti_ratio explanation flag_message)
    as (-> & -> & -> & -> & -> & -> & -> & ->).
  assert (py_div_100 (PyInt 100) = Ok tt) as -> by (vm_compute; reflexivity).
  cbn [truthy length Nat.eqb negb py_iter for_each render_flag as_dict
       level_badge recommendation_badge py_eq_str String.eqb Ascii.eqb Bool.eqb
       format_percent format_2f as_float].
  change (size (∅ : pydict)) with 0%nat. cbn [Nat.eqb negb].
  assert (dict_get (dict_of [("flag_type", PyStr "SYSTEM_ERROR");
                             ("message", PyStr flag_message);
                             ("severity", PyStr "high")]) "severity" (PyStr "medium")
          = PyStr "high") as Hsev by (apply dict_get_Some; dict_lookup).
  assert (dict_get (dict_of [("flag_type", PyStr "SYSTEM_ERROR");
                             ("message", PyStr flag_message);
                             ("severity", PyStr "high")]) "message" (PyStr "")
          = PyStr flag_message) as Hmsg by (apply dict_get_Some; dict_lookup).
  unfold rlift. cbn [rthen for_each]. unfold render_flag, rlift. cbn [as_dict rthen].
  rewrite Hsev, Hmsg.
  cbn [py_eq_str String.eqb Ascii.eqb Bool.eqb].
  unfold draw. rewrite !Hui. reflexivity.
Qed.

Lemma X22_witness :
  (render_results_ui ui_accepts_all sample_profile
     (safe_default 0.5%float "Risk analysis failed" "Risk analysis system unavailable")
     PyNone).1 = Ok tt.
Proof.
  rewrite (X22_fallback_drawn ui_accepts_all sample_profile PyNone 0.5%float
             "Risk analysis failed" "Risk analysis system unavailable");
    [reflexivity | reflexivity | vm_compute; reflexivity].
Defined.

(** ** The results section after a run *)

Lemma render_results_accepted ui combined_data risk_assessment application_id :
  (forall wd, ui wd = Ok tt) ->
  renderable combined_data risk_assessment = true ->
  (render_results_ui ui combined_data risk_assessment application_id).1 = Ok tt.
Proof.
  intros Hui H. unfold renderable in H. apply andb_true_iff in H as [Happ Hass].
  unfold render_results_ui.
  rewrite rthen_fst with (a := tt) by now apply render_applicant_accepted.
  now apply render_assessment_accepted.
Qed.

(** The sample run gives a profile and an assessment that can be drawn. *)
Lemma sample_env_drawable :
  exists combined_data,
    scoring_completed sample_env (fresh_session None) (PyInt 15000)
      combined_data (PyDict (dict_of [("risk_score", PyInt 20)])) /\
    (render_results_ui ui_accepts_all combined_data (dict_of [("risk_score", PyInt 20)])
       (PyStr "65f0c0ffee")).1 = Ok tt.
Proof.
  destruct (combine_returns sample_env sample_identity sample_income None 3000%float)
    as [combined_data Hcombine]; [vm_compute; reflexivity|].
  destruct (sample_stages sample_env eq_refl) as [Hid Hinc].
  exists combined_data. split.
  - exists sample_identity, sample_income, None.
    split; [exact Hid|]. split; [exact Hinc|].
    split; [reflexivity|]. split; [exact Hcombine|].
    apply combine_inv in Hcombine as (nd & _ & ->). vm_compute. reflexivity.
  - apply render_results_accepted; [reflexivity|].
    apply combine_inv in Hcombine as (nd & _ & ->). vm_compute. reflexivity.
Qed.

(** X19: after a run in which every step succeeded, the pass in which
    the button was pressed ends with the rerun and shows no result. The
    pass that follows reaches the results section: it draws the results
    with render_results_ui and then offers the report of the profile and
    the assessment just computed; when the drawing raises, the pass raises
    that exception and no report is offered; when the assessment is the
    empty dictionary the record was saved all the same, but nothing is
    drawn and no report is offered. *)
Theorem X19_results_after_success env ui loan_amount (w : World)
    combined_data risk_assessment application_id :
  can_process (session w) = true ->
  scoring_completed env (session w) loan_amount combined_data risk_assessment ->
  save_result env (application_record combined_data risk_assessment loan_amount)
    = Ok application_id ->
  exists w' assessment,
    risk_assessment = PyDict assessment /\
    main env ui true loan_amount w = (Ok Rerun, w') /\
    length (collection w') = S (length (collection w)) /\
    main env ui false loan_amount w'
      = (if truthy risk_assessment
         then match (render_results_ui ui combined_data assessment
                       (PyStr application_id)).1 with
              | Ok _ =>
                  Ok (Shown (Some (generate_download_report env (PyDict combined_data)
                                     risk_assessment)))
              | Err e => Err e
              end
         else Ok (Shown None), w') /\
    (truthy risk_assessment = false <-> assessment = ∅).
Proof.
  intros Hcan Hscored Hsave.
  destruct (pipeline_success _ _ _ _ _ _ Hscored Hsave) as (tr & Hpipe & _).
  destruct (process_application_run env loan_amount w) as (w' & Hrun & Hobs).
  pose proof (main_clicked env ui loan_amount w w' Hcan Hrun) as Hmain.
  rewrite Hpipe in Hobs, Hmain. cbn [snd] in Hmain. destruct Hobs as (_ & Hcol & Hses).
  destruct Hscored as (identity_data & income_data & bank_data & _ & _ & _ & Hcomb & Hscore).
  pose proof (combined_truthy _ _ _ _ _ Hcomb) as Htruthy.
  destruct (score_stage_dict _ _ _ _ Hscore) as [assessment ->].
  exists w', assessment. split; [reflexivity|]. split; [exact Hmain|].
  split; [rewrite Hcol, length_app; cbn; lia|].
  split; [|apply truthy_dict].
  rewrite main_idle.
  assert (results_available (session w') = truthy (PyDict assessment)) as Havail.
  { rewrite Hses. unfold results_available.
    cbn [completed_session ss_processing_complete ss_combined_data ss_risk_assessment].
    now rewrite Htruthy. }
  destruct (truthy (PyDict assessment)) eqn:Ht.
  - rewrite (show_results_drawn _ _ _ Havail), Hses. reflexivity.
  - now rewrite (show_results_none _ _ _ Havail).
Qed.

Lemma empty_answer_scoring :
  exists combined_data,
    scoring_completed env_empty_answer (fresh_session None) (PyInt 15000)
      combined_data (PyDict ∅).
Proof.
  destruct (combine_returns env_empty_answer sample_identity sample_income None 3000%float)
    as [combined_data Hcombine]; [vm_compute; reflexivity|].
  destruct (sample_stages env_empty_answer eq_refl) as [Hid Hinc].
  exists combined_data, sample_identity, sample_income, None.
  split; [exact Hid|]. split; [exact Hinc|].
  split; [reflexivity|]. split; [exact Hcombine|].
  apply combine_inv in Hcombine as (nd & _ & ->). vm_compute. reflexivity.
Qed.

(** A score in words is scored and saved, and cannot be drawn. *)
Lemma worded_score_scoring :
  exists combined_data,
    scoring_completed env_worded_score (fresh_session None) (PyInt 15000)
      combined_data (PyDict (dict_of [("risk_score", PyStr "high")])) /\
    (render_results_ui ui_accepts_all combined_data
       (dict_of [("risk_score", PyStr "high")]) (PyStr "65f0c0ffee")).1
      = Err (Raise TypeError "unsupported operand type(s) for /").
Proof.
  destruct (combine_returns env_worded_score sample_identity sample_income None 3000%float)
    as [combined_data Hcombine]; [vm_compute; reflexivity|].
  destruct (sample_stages env_worded_score eq_refl) as [Hid Hinc].
  exists combined_data. split.
  - exists sample_identity, sample_income, None.
    split; [exact Hid|]. split; [exact Hinc|].
    split; [reflexivity|]. split; [exact Hcombine|].
    apply combine_inv in Hcombine as (nd & _ & ->). vm_compute. reflexivity.
  - apply combine_inv in Hcombine as (nd & _ & ->). vm_compute. reflexivity.
Qed.

(** With the sample answer the report is offered on the pass after the
    rerun; an empty assessment is saved and never shown; a score in words
    is saved, and the pass after the rerun raises at the progress bar. *)
Lemma X19_witness :
  (exists w' report,
     main sample_env ui_accepts_all true (PyInt 15000) (fresh_world None) = (Ok Rerun, w') /\
     main sample_env ui_accepts_all false (PyInt 15000) w' = (Ok (Shown (Some report)), w')) /\
  (exists w',
     main env_empty_answer ui_accepts_all true (PyInt 15000) (fresh_world None)
       = (Ok Rerun, w') /\
     main env_empty_answer ui_accepts_all false (PyInt 15000) w' = (Ok (Shown None), w') /\
     length (collection w') = 1%nat) /\
  (exists w',
     main env_worded_score ui_accepts_all true (PyInt 15000) (fresh_world None)
       = (Ok Rerun, w') /\
     main env_worded_score ui_accepts_all false (PyInt 15000) w'
       = (Err (Raise TypeError "unsupported operand type(s) for /"), w') /\
     length (collection w') = 1%nat).
Proof.
  split; [|split].
  - destruct sample_env_drawable as (combined_data & Hscored & Hdrawn).
    destruct (X19_results_after_success sample_env ui_accepts_all (PyInt 15000)
                (fresh_world None) combined_data
                (PyDict (dict_of [("risk_score", PyInt 20)])) "65f0c0ffee"
                eq_refl Hscored eq_refl)
      as (w' & assessment & Hdict & Hrun & _ & Hnext & _).
    injection Hdict as <-.
    exists w'. eexists. split; [exact Hrun|]. rewrite Hnext.
    change (truthy (PyDict (dict_of [("risk_score", PyInt 20)]))) with true.
    rewrite Hdrawn. reflexivity.
  - destruct empty_answer_scoring as [combined_data Hscored].
    destruct (X19_results_after_success env_empty_answer ui_accepts_all (PyInt 15000)
                (fresh_world None) combined_data (PyDict ∅) "65f0c0ffee"
                eq_refl Hscored eq_refl)
      as (w' & assessment & _ & Hrun & Hlen & Hnext & _).
    exists w'. split; [exact Hrun|]. split; [exact Hnext | exact Hlen].
  - destruct worded_score_scoring as (combined_data & Hscored & Hdrawn).
    destruct (X19_results_after_success env_worded_score ui_accepts_all (PyInt 15000)
                (fresh_world None) combined_data
                (PyDict (dict_of [("risk_score", PyStr "high")])) "65f0c0ffee"
                eq_refl Hscored eq_refl)
      as (w' & assessment & Hdict & Hrun & Hlen & Hnext & _).
    injection Hdict as <-.
    exists w'. split; [exact Hrun|]. split; [|exact Hlen]. rewrite Hnext.
    change (truthy (PyDict (dict_of [("risk_score", PyStr "high")]))) with true.
    rewrite Hdrawn. reflexivity.
Defined.

(** ** Uploads over several passes *)

Lemma after_passes_files (passes : list uploads) (s : Session) :
  ss_identity_file (after_passes s passes)
    = fold_left (fun found u => keep_or_store (up_identity u) found) passes
        (ss_identity_file s) /\
  ss_income_file (after_passes s passes)
    = fold_left (fun found u => keep_or_store (up_income u) found) passes
        (ss_income_file s) /\
  ss_bank_file (after_passes s passes)
    = fold_left (fun found u => keep_or_store (up_bank u) found) passes
        (ss_bank_file s) /\
  ss_processing_complete (after_passes s passes) = ss_processing_complete s /\
  ss_combined_data (after_passes s passes) = ss_combined_data s /\
  ss_risk_assessment (after_passes s passes) = ss_risk_assessment s /\
  ss_application_id (after_passes s passes) = ss_application_id s.
Proof.
  unfold after_passes. revert s. induction passes as [|u passes IH]; intros s.
  - repeat split.
  - cbn [fold_left]. destruct (IH (store_uploads s u)) as (H1 & H2 & H3 & H4 & H5 & H6 & H7).
    rewrite H1, H2, H3, H4, H5, H6, H7. repeat split.
Qed.

Lemma keep_last (field : uploads -> option string) (passes : list uploads) stored :
  fold_left (fun found u => keep_or_store (field u) found) passes stored
    = keep_or_store (last_upload field passes) stored.
Proof.
  unfold last_upload. revert stored. induction passes as [|u passes IH]; intros stored.
  - reflexivity.
  - cbn [fold_left]. rewrite IH, (IH (keep_or_store (field u) None)).
    destruct (fold_left _ passes None); [reflexivity|].
    now destruct (field u).
Qed.

(** X25: a file stays in the session until another one replaces it.
    After any series of passes each of the three stored files is the last
    file its uploader held, or the file stored before if the uploader was
    always empty; emptying an uploader removes nothing. So once the two
    required documents are there the button stays enabled, a bank
    statement once uploaded is still extracted by later runs, and the
    results of an earlier run stay on offer whatever is uploaded. *)
Theorem X25_uploads_accumulate env (s : Session) (passes : list uploads) :
  let s' := after_passes s passes in
  ss_identity_file s'
    = keep_or_store (last_upload up_identity passes) (ss_identity_file s) /\
  ss_income_file s'
    = keep_or_store (last_upload up_income passes) (ss_income_file s) /\
  ss_bank_file s'
    = keep_or_store (last_upload up_bank passes) (ss_bank_file s) /\
  (can_process s = true -> can_process s' = true) /\
  (has_bank s = true -> has_bank s' = true) /\
  download_report env s' = download_report env s.
Proof.
  intros s'. subst s'.
  destruct (after_passes_files passes s) as (H1 & H2 & H3 & H4 & H5 & H6 & _).
  rewrite (keep_last up_identity) in H1. rewrite (keep_last up_income) in H2.
  rewrite (keep_last up_bank) in H3.
  split; [exact H1|]. split; [exact H2|]. split; [exact H3|].
  split; [|split].
  - unfold can_process. rewrite H1, H2.
    destruct (ss_identity_file s), (ss_income_file s); try discriminate.
    now destruct (last_upload up_identity passes), (last_upload up_income passes).
  - unfold has_bank. rewrite H3.
    destruct (ss_bank_file s); [|discriminate].
    now destruct (last_upload up_bank passes).
  - unfold download_report, results_available. now rewrite H4, H5, H6.
Qed.

(** A bank statement uploaded once is still there after the uploader was
    emptied. *)
Lemma X25_witness :
  let s' := after_passes (fresh_session None)
              [Uploads None None (Some "%PDF-bank"); Uploads None None None] in
  can_process s' = true /\ ss_bank_file s' = Some "%PDF-bank".
Proof.
  intros s'. subst s'.
  destruct (X25_uploads_accumulate sample_env (fresh_session None)
              [Uploads None None (Some "%PDF-bank"); Uploads None None None])
    as (_ & _ & Hbank & Hcan & _).
  split; [apply Hcan; reflexivity | rewrite Hbank; reflexivity].
Defined.
